(** * JetLagHideAndSeek: the question resolution engine

    A shallow embedding of [src/maps/questions/matching.ts] and of its
    measuring sibling: place finding, the memoized boundary resolvers, the
    mask adjustment and the hider-mode answer derivation ("hiderify").

    JavaScript numbers are IEEE binary64 values ([float]), JavaScript strings
    are sequences of UTF-16 code units, [null] and [undefined] are explicit,
    thrown exceptions and rejected promises are [Throw] outcomes, and the
    effects of the module (toasts, network requests, calls into the geometry
    code, the lodash caches) are threaded through an explicit [World]. *)

From Stdlib Require Import Floats Ascii String NArith.
From stdpp Require Import gmap strings list pretty.

Set Warnings "-inexact-float".

Open Scope string_scope.

(** ** JavaScript values *)

(** A value that may be [null] or [undefined]. *)
Inductive JsOpt (A : Type) : Type :=
| JNull
| JUndefined
| JVal (a : A).
Arguments JNull {A}.
Arguments JUndefined {A}.
Arguments JVal {A} a.

(** A JavaScript string: its UTF-16 code units. *)
Definition jsstring : Type := list N.

Definition code_unit (c : ascii) : N := N_of_ascii c.

Fixpoint js (s : string) : jsstring :=
  match s with
  | EmptyString => []
  | String c rest => code_unit c :: js rest
  end.

(** [s.length] *)
Definition js_length (s : jsstring) : nat := length s.

(** Truthiness of an optional string: [undefined] and the empty string are
    falsy. *)
Definition truthy (v : option jsstring) : bool :=
  match v with
  | Some (_ :: _) => true
  | _ => false
  end.

(** [a || b] on optional strings. *)
Definition js_or (a b : option jsstring) : option jsstring :=
  if truthy a then a else b.

(** [/^[a-zA-Z]$/.test(c)] where [c] is [s[0]]: a single code unit, or
    [undefined] (which the test coerces to a nine-letter word). *)
Definition isAsciiLetterUnit (c : N) : bool :=
  ((65 <=? c) && (c <=? 90) || (97 <=? c) && (c <=? 122))%N.

Definition testSingleLetter (c : option N) : bool :=
  match c with
  | Some u => isAsciiLetterUnit u
  | None => false
  end.

(** [s[0]] *)
Definition js_first (s : jsstring) : option N := head s.

(** [a < b] and [a > b] on numbers. *)
Definition js_lt (a b : float) : bool := PrimFloat.ltb a b.
Definition js_gt (a b : float) : bool := PrimFloat.ltb b a.

(** SameValueZero, the comparison of [Array.prototype.includes]. *)
Definition sameValueZero (a b : float) : bool :=
  PrimFloat.eqb a b || (PrimFloat.is_nan a && PrimFloat.is_nan b).

Definition js_includes (l : list float) (x : float) : bool :=
  existsb (sameValueZero x) l.

(** The parts of the JavaScript runtime that are taken as given. *)
Class JsRuntime := {
  (** [String.prototype.toUpperCase] on one code unit outside ASCII *)
  unicodeUpper : N -> jsstring;
  (** [parseInt] *)
  parseInt : option jsstring -> float;
  (** [JSON.stringify] of a number *)
  stringifyNumber : float -> string;
}.

(** [c.toUpperCase()] for a one-unit string [c]. *)
Definition toUpperCaseUnit {RT : JsRuntime} (c : N) : jsstring :=
  if ((97 <=? c) && (c <=? 122))%N then [(c - 32)%N]
  else if (c <? 128)%N then [c]
  else unicodeUpper c.

(** [id.split("/")[1]] *)
Fixpoint js_split (sep : N) (s : jsstring) (cur : jsstring) : list jsstring :=
  match s with
  | [] => [rev cur]
  | c :: rest =>
      if (c =? sep)%N then rev cur :: js_split sep rest []
      else js_split sep rest (c :: cur)
  end.

Definition split_slash_second (s : jsstring) : option jsstring :=
  nth_error (js_split 47%N s []) 1.

(** ** Outcomes *)

Inductive JsError : Type :=
| Error (msg : string)       (** [new Error(msg)], thrown by the engine *)
| TypeError (what : string)  (** raised by the runtime on a bad access *)
| Foreign (what : string).   (** raised inside a collaborator *)

Inductive Outcome (A : Type) : Type :=
| Ok (a : A)
| Throw (e : JsError).
Arguments Ok {A} a.
Arguments Throw {A} e.

(** What a collaborator hands back: a value, or a failure of its own. *)
Inductive ExtResult (A : Type) : Type :=
| Success (a : A)
| Failure (what : string).
Arguments Success {A} a.
Arguments Failure {A} what.

Definition settle {A} (r : ExtResult A) : Outcome A :=
  match r with
  | Success a => Ok a
  | Failure what => Throw (Foreign what)
  end.

(** ** Data exchanged with the collaborators *)

(** The ten home-game location kinds ([APILocations]). *)
Inductive APILocation : Type :=
| aquarium | zoo | theme_park | museum | hospital
| cinema | library | golf_course | consulate | park.

Definition locationName (l : APILocation) : string :=
  match l with
  | aquarium => "aquarium" | zoo => "zoo" | theme_park => "theme_park"
  | museum => "museum" | hospital => "hospital" | cinema => "cinema"
  | library => "library" | golf_course => "golf_course"
  | consulate => "consulate" | park => "park"
  end.

(** [QuestionSpecificLocation] *)
Inductive SpecificLocation : Type := McDonalds | Seven11.

(** A point feature is identified with its position. *)
Record Position : Type := point { pos_lng : float; pos_lat : float }.

(** [isNumber] of the geometry library, on a number: everything but [NaN]. *)
Definition isNumber (x : float) : bool := negb (PrimFloat.is_nan x).

(** [turf.point([lng, lat])] with a coordinate of the question or of the
    hider: the library throws when one of the two is not a number. *)
Definition turfPoint (lng lat : float) : ExtResult Position :=
  if isNumber lng && isNumber lat then Success (point lng lat)
  else Failure "coordinates must contain numbers".

Definition BBox : Type := (float * float * float * float)%type.

Inductive Units : Type := Kilometers | Miles.

(** An element of a provider response.  [el_center] is [x.center];
    [el_lon], [el_lat] are the element's own coordinate, read only when there
    is no center (the provider sends one of the two forms). *)
Record RawElement : Type := {
  el_center : option Position;
  el_lon : float;
  el_lat : float;
  el_iata : option jsstring;
}.

Record OverpassData : Type := {
  elements : list RawElement;
  remark : option jsstring;
}.

(** The queries sent through [findPlacesInZone]; the filter text of each is
    given with its use. *)
Inductive PlacesQuery : Type :=
| QAirports
| QMajorCities
| QLocationFull (l : APILocation)
| QLetterZones (adminLevel : float) (letter : jsstring)
| QRailwayStations
| QHighSpeedLines.

Inductive Request : Type :=
| ReqPlacesInZone (q : PlacesQuery)
| ReqAdminBoundary (lat lng adminLevel : float)
| ReqNearestToQuestion (l : APILocation) (lat lng : float)
| ReqTrainLine (stationId : jsstring)
| ReqCoastline
| ReqPlacesSpecific (l : SpecificLocation).

(** The calls into the geometry code that the log records. *)
Inductive GeoOp : Type :=
| OpModifyMapData (inside : bool)
| OpHoledMask
| OpSafeUnion
| OpSimplify
| OpVoronoi
| OpCombine
| OpOsmToGeoJSON
| OpNearestPoint
| OpBBox
| OpArcBuffer
| OpPolygonToLine
| OpBuffer
| OpDifference
| OpBBoxClip
| OpLineToPolygon
| OpGroupObjects
| OpChainLines.

Inductive Event : Type :=
| Toast (msg : string)     (** [toast.error(msg)] *)
| Fetched (r : Request)
| Called (op : GeoOp).

Inductive GeometryType : Type :=
| GPoint | GMultiPoint | GLineString | GMultiLineString
| GPolygon | GMultiPolygon | GGeometryCollection.

Section Carrier.
Context {GeoJSON : Type}.

(** A feature as [osmtogeojson] and [findAdminBoundary] deliver it: the
    properties the engine reads, and the feature itself. *)
Record OsmFeature : Type := {
  f_id : jsstring;
  f_name : option jsstring;
  f_name_en : option jsstring;
  f_geometryType : option GeometryType;
  f_value : GeoJSON;
}.

(** The result of [nearestToQuestion]. *)
Record NearestFeature : Type := {
  nf_name : option jsstring;
  nf_distanceToPoint : float;
}.

(** What a boundary resolver returns: [false], or a geometry (which the
    matching resolver may leave [undefined]). *)
Inductive Boundary : Type :=
| NoBoundary
| Resolved (g : JsOpt GeoJSON).

(** What [findMatchingPlaces] returns: points built by the engine, or the
    question's own [geo]. *)
Inductive PlaceSet : Type :=
| Places (ps : list Position)
| OwnGeo (g : option GeoJSON).

Record HiderMode : Type := { latitude : float; longitude : float }.

(** The application atoms of [@/lib/context], read but never written here. *)
Record AppContext : Type := {
  hiderMode : option HiderMode;        (** [false] or the hider's position *)
  mapGeoJSON : option GeoJSON;         (** [null] or the working map *)
  polyGeoJSON : option GeoJSON;        (** [null] or the drawn polygon *)
  mapGeoLocation : GeoJSON;            (** the coarse viewport *)
  trainStations : list Position;       (** cached station geometries *)
}.

(** The state the engine works on: the lodash caches of the two boundary
    resolvers and of [highSpeedBase], the effects so far (newest first), and
    a count of how often a memoized resolver body was entered. *)
Record World : Type := {
  matchingCache : gmap string (Outcome Boundary);
  measuringCache : gmap string (Outcome Boundary);
  highSpeedCache : gmap string (JsOpt GeoJSON);
  log : list Event;
  resolutions : nat;
}.

Definition emptyWorld : World :=
  {| matchingCache := ∅; measuringCache := ∅; highSpeedCache := ∅;
     log := []; resolutions := 0 |}.

End Carrier.
Arguments OsmFeature : clear implicits.
Arguments Boundary : clear implicits.
Arguments PlaceSet : clear implicits.
Arguments AppContext : clear implicits.
Arguments World : clear implicits.

(** ** The collaborators *)

(** [@turf/turf] and [osmtogeojson]. *)
Class Turf (GeoJSON : Type) := {
  booleanPointInPolygon : Position -> GeoJSON -> ExtResult bool;
  distance : Position -> Position -> Units -> float;
  pointToPolygonDistance : Position -> GeoJSON -> ExtResult float;
  nearestPoint : Position -> list Position -> ExtResult Position;
  nearestStation :
    Position -> list (OsmFeature GeoJSON) -> ExtResult (OsmFeature GeoJSON);
  (** [turf.combine(turf.featureCollection(points)).features] *)
  combinePoints : list Position -> ExtResult (list GeoJSON);
  (** [turf.combine(turf.featureCollection(geo.features)).features] *)
  combineFeaturesOf : GeoJSON -> ExtResult (list GeoJSON);
  (** [turf.combine(collection).features] *)
  combine : JsOpt GeoJSON -> ExtResult (list GeoJSON);
  (** [turf.multiPolygon([])] *)
  emptyMultiPolygon : GeoJSON;
  (** a [FeatureCollection] literal or [turf.featureCollection] *)
  featureCollection : list (JsOpt GeoJSON) -> GeoJSON;
  simplifyZones : list (OsmFeature GeoJSON) -> ExtResult GeoJSON;
  simplify : GeoJSON -> ExtResult GeoJSON;
  polygonToLine : JsOpt GeoJSON -> ExtResult GeoJSON;
  bbox : option GeoJSON -> ExtResult BBox;
  bboxOf : JsOpt GeoJSON -> ExtResult BBox;
  bboxPolygon : BBox -> GeoJSON;
  bboxClip : GeoJSON -> BBox -> ExtResult GeoJSON;
  (** [turf.buffer], which may return [undefined] *)
  buffer : GeoJSON -> float -> Units -> ExtResult (JsOpt GeoJSON);
  (** [turf.difference] of the two features, which may return [null] *)
  difference : GeoJSON -> JsOpt GeoJSON -> ExtResult (JsOpt GeoJSON);
  lineToPolygon : GeoJSON -> ExtResult GeoJSON;
  osmtogeojson : OverpassData -> ExtResult (list (OsmFeature GeoJSON));
  (** [JSON.stringify] of a geometry value *)
  stringifyGeo : GeoJSON -> string;
  (** [JSON.stringify(features.map((x) => x.geometry))] *)
  stringifyGeometries : list (OsmFeature GeoJSON) -> string;
}.

(** [@/maps/geo-utils] *)
Class GeoUtils (GeoJSON : Type) := {
  holedMask : JsOpt GeoJSON -> ExtResult (JsOpt GeoJSON);
  modifyMapData :
    JsOpt GeoJSON -> JsOpt GeoJSON -> bool -> ExtResult (JsOpt GeoJSON);
  safeUnion : GeoJSON -> ExtResult GeoJSON;
  geoSpatialVoronoi : PlaceSet GeoJSON -> ExtResult (list GeoJSON);
  arcBufferToPoint : GeoJSON -> float -> float -> ExtResult (JsOpt GeoJSON);
  groupObjects :
    list (OsmFeature GeoJSON) -> ExtResult (list (list (OsmFeature GeoJSON)));
  (** [turf.multiLineString(connectToSeparateLines(...))] for one group of
      line strings; [None] when it has no coordinates *)
  chainLines : list (OsmFeature GeoJSON) -> ExtResult (option GeoJSON);
}.

(** [@/maps/api].  A response may depend on when it is asked for: the first
    argument is the number of effects that came before. *)
Class MapsApi (GeoJSON : Type) := {
  findAdminBoundary :
    nat -> AppContext GeoJSON -> float -> float -> float ->
    ExtResult (option (OsmFeature GeoJSON));
  findPlacesInZone :
    nat -> AppContext GeoJSON -> PlacesQuery -> ExtResult OverpassData;
  nearestToQuestion :
    nat -> AppContext GeoJSON -> APILocation -> float -> float ->
    ExtResult NearestFeature;
  trainLineNodeFinder : nat -> jsstring -> ExtResult (list float);
  fetchCoastline : nat -> ExtResult GeoJSON;
  findPlacesSpecificInZone :
    nat -> AppContext GeoJSON -> SpecificLocation -> ExtResult (list Position);
  (** [prettifyLocation(location, true).toLowerCase()] *)
  prettyLower : APILocation -> string;
}.

(** ** The effect monad *)

Section Monad.
Context {GeoJSON : Type}.
Local Abbreviation World := (World GeoJSON).

Definition M (A : Type) : Type := World -> Outcome A * World.

Definition ret {A} (a : A) : M A := fun w => (Ok a, w).

Definition bind {A B} (m : M A) (k : A -> M B) : M B :=
  fun w =>
    match m w with
    | (Ok a, w') => k a w'
    | (Throw e, w') => (Throw e, w')
    end.

Definition throw {A} (e : JsError) : M A := fun w => (Throw e, w).

(** [try { m } catch { h }] *)
Definition tryCatch {A} (m : M A) (h : M A) : M A :=
  fun w =>
    match m w with
    | (Ok a, w') => (Ok a, w')
    | (Throw _, w') => h w'
    end.

Definition record (e : Event) (w : World) : World :=
  {| matchingCache := matchingCache w; measuringCache := measuringCache w;
     highSpeedCache := highSpeedCache w; log := e :: log w;
     resolutions := resolutions w |}.

Definition toastError (msg : string) : M unit :=
  fun w => (Ok tt, record (Toast msg) w).

(** A network request: the answer is the collaborator's at the current time. *)
Definition fetch {A} (r : Request) (answer : nat -> ExtResult A) : M A :=
  fun w => (settle (answer (length (log w))), record (Fetched r) w).

(** A call into the geometry code. *)
Definition call {A} (op : GeoOp) (r : ExtResult A) : M A :=
  fun w => (settle r, record (Called op) w).

(** A computation that returns or throws and leaves no trace. *)
Definition lift {A} (o : Outcome A) : M A := fun w => (o, w).

(** A constructor or a test of the geometry library: it builds no geometry,
    but it may throw. *)
Definition eval {A} (r : ExtResult A) : M A := lift (settle r).

(** [for]/[map] with an effect per element, left to right. *)
Fixpoint mapM {A B} (f : A -> M B) (l : list A) : M (list B) :=
  match l with
  | [] => ret []
  | x :: rest =>
      bind (f x) (fun y => bind (mapM f rest) (fun ys => ret (y :: ys)))
  end.

End Monad.
Arguments M : clear implicits.

Notation "'let*' x := m 'in' k" := (bind m (fun x => k))
  (at level 10, x name, m at level 100, k at level 200, only parsing).

(** ** [_.memoize] *)

Section Memoize.
Context {GeoJSON : Type}.
Local Abbreviation M := (M GeoJSON).
Local Abbreviation World := (World GeoJSON).
Local Abbreviation Boundary := (Boundary GeoJSON).

Definition enter (w : World) : World :=
  {| matchingCache := matchingCache w; measuringCache := measuringCache w;
     highSpeedCache := highSpeedCache w; log := log w;
     resolutions := S (resolutions w) |}.

Definition setMatchingCache (c : gmap string (Outcome Boundary)) (w : World)
  : World :=
  {| matchingCache := c; measuringCache := measuringCache w;
     highSpeedCache := highSpeedCache w; log := log w;
     resolutions := resolutions w |}.

Definition setMeasuringCache (c : gmap string (Outcome Boundary)) (w : World)
  : World :=
  {| matchingCache := matchingCache w; measuringCache := c;
     highSpeedCache := highSpeedCache w; log := log w;
     resolutions := resolutions w |}.

Definition setHighSpeedCache (c : gmap string (JsOpt GeoJSON)) (w : World)
  : World :=
  {| matchingCache := matchingCache w; measuringCache := measuringCache w;
     highSpeedCache := c; log := log w; resolutions := resolutions w |}.

(** [_.memoize(body, resolver)] around an [async] body: the cache holds the
    promise the body returned, here the outcome it settled with, whether
    fulfilled or rejected.  A hit hands that outcome back and does nothing
    else; a miss enters the body and stores what it produced. *)
Definition memoize
    (cache : World -> gmap string (Outcome Boundary))
    (store : gmap string (Outcome Boundary) -> World -> World)
    (key : string) (body : M Boundary) : M Boundary :=
  fun w =>
    match cache w !! key with
    | Some r => (r, w)
    | None =>
        let '(r, w') := body (enter w) in
        (r, store (<[key := r]> (cache w')) w')
    end.

(** [_.memoize] around a synchronous body: a thrown exception leaves the
    cache as it was. *)
Definition memoizeSync
    (key : string) (body : M (JsOpt GeoJSON)) : M (JsOpt GeoJSON) :=
  fun w =>
    match highSpeedCache w !! key with
    | Some v => (Ok v, w)
    | None =>
        match body w with
        | (Ok v, w') => (Ok v, setHighSpeedCache (<[key := v]> (highSpeedCache w')) w')
        | (Throw e, w') => (Throw e, w')
        end
    end.

End Memoize.

(** ** [JSON.stringify] of an object literal *)

Definition dq : string := String (ascii_of_nat 34) EmptyString.

Definition quoted (s : string) : string := dq ++ s ++ dq.

(** The members of the object, in order; a member whose value is
    [undefined] is left out. *)
Fixpoint members (fields : list (string * option string)) : list string :=
  match fields with
  | [] => []
  | (k, Some v) :: rest => (quoted k ++ ":" ++ v) :: members rest
  | (_, None) :: rest => members rest
  end.

Definition jsonObject (fields : list (string * option string)) : string :=
  "{" ++ String.concat "," (members fields) ++ "}".

(** [x.center ? x.center.lon : x.lon] and the same for the latitude. *)
Definition normalize (x : RawElement) : Position :=
  point
    (match el_center x with Some c => pos_lng c | None => el_lon x end)
    (match el_center x with Some c => pos_lat c | None => el_lat x end).

(** [_.uniqBy(elements, f => f.tags.iata)]: the first element of each code
    is kept. *)
Fixpoint uniqByIata (seen : list (option jsstring)) (l : list RawElement)
  : list RawElement :=
  match l with
  | [] => []
  | x :: rest =>
      if bool_decide (el_iata x ∈ seen) then uniqByIata seen rest
      else x :: uniqByIata (el_iata x :: seen) rest
  end.

(** [s.startsWith(p)] *)
Fixpoint js_startsWith (p s : jsstring) : bool :=
  match p, s with
  | [], _ => true
  | a :: p', b :: s' => (a =? b)%N && js_startsWith p' s'
  | _ :: _, [] => false
  end.

(** [data.remark && data.remark.startsWith("runtime error")] *)
Definition runtimeError (data : OverpassData) : bool :=
  match remark data with
  | Some r => truthy (Some r) && js_startsWith (js "runtime error") r
  | None => false
  end.

Definition largeGameAdvice : string :=
  "Please enable hiding zone mode and switch to the Large Game variation of this question.".

Definition errorFindingMessage {G} {API : MapsApi G} (l : APILocation) : string :=
  "Error finding " ++ prettyLower l ++ ". " ++ largeGameAdvice.

Definition tooManyMessage {G} {API : MapsApi G} (l : APILocation) (n : nat) : string :=
  "Too many " ++ prettyLower l ++ " found (" ++ pretty n ++ "). "
  ++ largeGameAdvice.

(** * matching.ts *)

Module Matching.

(** The [type] tag of a matching question. *)
Inductive QuestionType : Type :=
| HomeGame (l : APILocation)          (** ["aquarium"], ... ["park"] *)
| Full (l : APILocation)              (** ["aquarium-full"], ... *)
| same_first_letter_station
| same_length_station
| same_train_line
| custom_zone
| zone
| letter_zone
| airport
| major_city
| custom_points.

Definition typeName (t : QuestionType) : string :=
  match t with
  | HomeGame l => locationName l
  | Full l => locationName l ++ "-full"
  | same_first_letter_station => "same-first-letter-station"
  | same_length_station => "same-length-station"
  | same_train_line => "same-train-line"
  | custom_zone => "custom-zone"
  | zone => "zone"
  | letter_zone => "letter-zone"
  | airport => "airport"
  | major_city => "major-city"
  | custom_points => "custom-points"
  end.

Inductive LengthComparison : Type := Shorter | Same | Longer.

(** [question.cat] of the zone questions. *)
Record Category : Type := { adminLevel : float }.

Section Engine.
Context {RT : JsRuntime} {GeoJSON : Type}.
Context {TF : Turf GeoJSON} {GU : GeoUtils GeoJSON} {API : MapsApi GeoJSON}.
Local Abbreviation M := (M GeoJSON).
Local Abbreviation World := (World GeoJSON).
Local Abbreviation Boundary := (Boundary GeoJSON).
Local Abbreviation AppContext := (AppContext GeoJSON).

(** [MatchingQuestion]: the fields the engine reads and writes. *)
Record Question : Type := {
  type : QuestionType;
  lat : float;
  lng : float;
  same : bool;
  lengthComparison : option LengthComparison;
  cat : option Category;
  geo : option GeoJSON;
}.

(** [question.same = b] *)
Definition setSame (q : Question) (b : bool) : Question :=
  {| type := type q; lat := lat q; lng := lng q; same := b;
     lengthComparison := lengthComparison q; cat := cat q; geo := geo q |}.

(** [question.lengthComparison = c] *)
Definition setLengthComparison (q : Question) (c : LengthComparison)
  : Question :=
  {| type := type q; lat := lat q; lng := lng q; same := same q;
     lengthComparison := Some c; cat := cat q; geo := geo q |}.

(** The provider gates of the category-"full" branch, on a response. *)
Definition fullPlaces (location : APILocation) (data : OverpassData)
  : M (list Position) :=
  if runtimeError data then
    let* _ := toastError (errorFindingMessage location) in
    ret []
  else if (1000 <=? length (elements data))%nat then
    let* _ := toastError (tooManyMessage location (length (elements data))) in
    ret []
  else ret (map normalize (elements data)).

Definition findMatchingPlaces (ctx : AppContext) (question : Question)
  : M (PlaceSet GeoJSON) :=
  match type question with
  | airport =>
      let* data := fetch (ReqPlacesInZone QAirports)
                (fun t => findPlacesInZone t ctx QAirports) in
      ret (Places (map normalize (uniqByIata [] (elements data))))
  | major_city =>
      let* data := fetch (ReqPlacesInZone QMajorCities)
                (fun t => findPlacesInZone t ctx QMajorCities) in
      ret (Places (map normalize (elements data)))
  | custom_points => ret (OwnGeo (geo question))
  | Full location =>
      let* data := fetch (ReqPlacesInZone (QLocationFull location))
                (fun t => findPlacesInZone t ctx (QLocationFull location)) in
      let* ps := fullPlaces location data in
      ret (Places ps)
  | _ => ret (OwnGeo None)
  end.

(** [question.cat.adminLevel] *)
Definition adminLevelOf (question : Question) : M float :=
  match cat question with
  | Some c => ret (adminLevel c)
  | None => throw (TypeError "question.cat is undefined")
  end.

(** The name a letter zone is grouped by: the English name when there is a
    non-empty one, else the native name when it starts with an ASCII
    letter. *)
Definition letterZoneName (zone : OsmFeature GeoJSON)
  : M jsstring :=
  match f_name_en zone with
  | Some (c :: rest) => ret (c :: rest)
  | _ =>
      match f_name zone with
      | None => throw (TypeError "name is undefined")
      | Some name =>
          if testSingleLetter (js_first name) then ret name
          else
            let* _ := toastError "No English name found for this zone" in
            throw (Error "No English name")
      end
  end.

(** [englishName[0].toUpperCase()] *)
Definition firstLetterUpper (name : jsstring) : M jsstring :=
  match js_first name with
  | Some c => ret (toUpperCaseUnit c)
  | None => throw (TypeError "englishName[0] is undefined")
  end.

Definition isPolygonal (x : OsmFeature GeoJSON) : bool :=
  match f_geometryType x with
  | Some GPolygon | Some GMultiPolygon => true
  | _ => false
  end.

(** The loop over the Voronoi cells: the first cell that holds the point,
    [undefined] when none does; a test that throws ends the loop. *)
Fixpoint cellContaining (p : Position) (cells : list GeoJSON)
  : Outcome (JsOpt GeoJSON) :=
  match cells with
  | [] => Ok JUndefined
  | feature :: rest =>
      match booleanPointInPolygon p feature with
      | Success true => Ok (JVal feature)
      | Success false => cellContaining p rest
      | Failure what => Throw (Foreign what)
      end
  end.

Definition ofOption {A} (o : option A) : JsOpt A :=
  match o with
  | Some a => JVal a
  | None => JUndefined
  end.

Definition noBoundaryFound {A} : M A :=
  let* _ := toastError "No boundary found for this zone" in
  throw (Error "No boundary found").

(** The rest of the letter-zone case: the letter, the zones of that
    letter, their simplification and union. *)
Definition letterZoneUnion (ctx : AppContext) (level : float)
    (englishName : jsstring) : M GeoJSON :=
  let* letter := firstLetterUpper englishName in
  let* data := fetch (ReqPlacesInZone (QLetterZones level letter))
    (fun t => findPlacesInZone t ctx (QLetterZones level letter)) in
  let* features := call OpOsmToGeoJSON (osmtogeojson data) in
  let* simplified := call OpSimplify
    (simplifyZones (filter (fun x => isPolygonal x = true) features)) in
  call OpSafeUnion (safeUnion simplified).

(** The function given to [_.memoize]. *)
Definition determineMatchingBoundary_body (ctx : AppContext)
    (question : Question) : M Boundary :=
  match type question with
  | HomeGame _
  | same_first_letter_station
  | same_length_station
  | same_train_line => ret NoBoundary
  | custom_zone => ret (Resolved (ofOption (geo question)))
  | zone =>
      let* level := adminLevelOf question in
      let* boundary := fetch (ReqAdminBoundary (lat question) (lng question) level)
        (fun t => findAdminBoundary t ctx (lat question) (lng question) level) in
      match boundary with
      | None => noBoundaryFound
      | Some b => ret (Resolved (JVal (f_value b)))
      end
  | letter_zone =>
      let* level := adminLevelOf question in
      let* found := fetch (ReqAdminBoundary (lat question) (lng question) level)
        (fun t => findAdminBoundary t ctx (lat question) (lng question) level) in
      match found with
      | None => noBoundaryFound
      | Some z =>
          let* englishName := letterZoneName z in
          let* boundary := letterZoneUnion ctx level englishName in
          ret (Resolved (JVal boundary))
      end
  | airport | major_city | Full _ | custom_points =>
      let* data := findMatchingPlaces ctx question in
      let* voronoi := call OpVoronoi (geoSpatialVoronoi data) in
      let* here := eval (turfPoint (lng question) (lat question)) in
      let* boundary := lift (cellContaining here voronoi) in
      ret (Resolved boundary)
  end.

(** [polyGeoJSON.get() ? polyGeoJSON.get() : mapGeoLocation.get()] *)
Definition entirety (ctx : AppContext) : GeoJSON :=
  match polyGeoJSON ctx with
  | Some poly => poly
  | None => mapGeoLocation ctx
  end.

Definition stringifyCategory (c : Category) : string :=
  jsonObject [("adminLevel", Some (stringifyNumber (adminLevel c)))].

(** The cache key: the serialized signature of the question. *)
Definition matchingKey (ctx : AppContext) (question : Question) : string :=
  jsonObject
    [ ("type", Some (quoted (typeName (type question))));
      ("lat", Some (stringifyNumber (lat question)));
      ("lng", Some (stringifyNumber (lng question)));
      ("cat", stringifyCategory <$> cat question);
      ("geo", stringifyGeo <$> geo question);
      ("entirety", Some (stringifyGeo (entirety ctx))) ].

Definition determineMatchingBoundary (ctx : AppContext) (question : Question)
  : M Boundary :=
  memoize matchingCache setMatchingCache (matchingKey ctx question)
    (determineMatchingBoundary_body ctx question).

Definition adjustPerMatching (ctx : AppContext) (question : Question)
    (mapData : JsOpt GeoJSON) : M (JsOpt GeoJSON) :=
  match mapData with
  | JNull => ret JUndefined
  | _ =>
      let* boundary := determineMatchingBoundary ctx question in
      match boundary with
      | NoBoundary => ret mapData
      | Resolved b =>
          call (OpModifyMapData (same question))
            (modifyMapData mapData b (same question))
      end
  end.

(** [hiderEnglishName[0].toUpperCase()] of a truthy name *)
Definition upperInitial (name : option jsstring) : M jsstring :=
  match name with
  | Some n => firstLetterUpper n
  | None => throw (TypeError "name is undefined")
  end.

Definition nameLength (name : option jsstring) : nat :=
  match name with
  | Some n => js_length n
  | None => 0
  end.

(** The three-way comparison of the two station names. *)
Definition compareLengths (hiderName seekerName : option jsstring)
  : LengthComparison :=
  if (nameLength hiderName =? nameLength seekerName)%nat then Same
  else if (nameLength hiderName <? nameLength seekerName)%nat then Shorter
  else Longer.

(** The nearest-feature strategy of the home-game categories. *)
Definition hiderifyHomeGame (ctx : AppContext) (hider : HiderMode)
    (l : APILocation) (question : Question) : M Question :=
  let* questionNearest :=
    fetch (ReqNearestToQuestion l (lat question) (lng question))
      (fun t => nearestToQuestion t ctx l (lat question) (lng question)) in
  let* hiderNearest :=
    fetch (ReqNearestToQuestion l (latitude hider) (longitude hider))
      (fun t => nearestToQuestion t ctx l (latitude hider) (longitude hider)) in
  ret (setSame question
         (bool_decide (nf_name questionNearest = nf_name hiderNearest))).

(** The station strategies. *)
Definition hiderifyStations (ctx : AppContext) (hider : HiderMode)
    (question : Question) : M Question :=
  let* hiderPoint := eval (turfPoint (longitude hider) (latitude hider)) in
  let* seekerPoint := eval (turfPoint (lng question) (lat question)) in
  let* data :=
    fetch (ReqPlacesInZone QRailwayStations)
      (fun t => findPlacesInZone t ctx QRailwayStations) in
  let* places := call OpOsmToGeoJSON (osmtogeojson data) in
  let* nearestHiderTrainStation :=
    call OpNearestPoint (nearestStation hiderPoint places) in
  let* nearestSeekerTrainStation :=
    call OpNearestPoint (nearestStation seekerPoint places) in
  let* question :=
    match type question with
    | same_train_line =>
        let* nodes :=
          fetch (ReqTrainLine (f_id nearestSeekerTrainStation))
            (fun t => trainLineNodeFinder t (f_id nearestSeekerTrainStation)) in
        let hiderId :=
          parseInt (split_slash_second (f_id nearestHiderTrainStation)) in
        ret (setSame question (js_includes nodes hiderId))
    | _ => ret question
    end in
  let hiderEnglishName :=
    js_or (f_name_en nearestHiderTrainStation)
          (f_name nearestHiderTrainStation) in
  let seekerEnglishName :=
    js_or (f_name_en nearestSeekerTrainStation)
          (f_name nearestSeekerTrainStation) in
  if negb (truthy hiderEnglishName) || negb (truthy seekerEnglishName) then
    ret question
  else
    match type question with
    | same_first_letter_station =>
        let* h := upperInitial hiderEnglishName in
        let* s := upperInitial seekerEnglishName in
        ret (setSame question (bool_decide (h = s)))
    | same_length_station =>
        ret (setLengthComparison question
               (compareLengths hiderEnglishName seekerEnglishName))
    | _ => ret question
    end.

(** The body of the outer [try]: the holed mask of the adjusted map. *)
Definition firstAttempt (ctx : AppContext) (question : Question)
    (map : GeoJSON) : M (JsOpt GeoJSON) :=
  let* adjusted := adjustPerMatching ctx question (JVal map) in
  call OpHoledMask (holedMask adjusted).

(** The body of the inner [try]: the adjustment of the collection whose one
    feature is the holed mask of the map. *)
Definition retryAttempt (ctx : AppContext) (question : Question)
    (map : GeoJSON) : M (JsOpt GeoJSON) :=
  let* inverse := call OpHoledMask (holedMask (JVal map)) in
  adjustPerMatching ctx question (JVal (featureCollection [inverse])).

(** The [try]/[catch] pair of the boundary-containment strategy.  [None]
    stands for the [return question] of the inner handler. *)
Definition candidateFeature (ctx : AppContext) (question : Question)
    (map : GeoJSON) : M (option (JsOpt GeoJSON)) :=
  tryCatch
    (let* feature := firstAttempt ctx question map in ret (Some feature))
    (tryCatch
       (let* feature := retryAttempt ctx question map in ret (Some feature))
       (ret None)).

(** The boundary-containment strategy: everything from the read of the
    working map to the end of [hiderifyMatching]. *)
Definition hiderifyByContainment (ctx : AppContext) (hider : HiderMode)
    (question : Question) : M Question :=
  match mapGeoJSON ctx with
  | None => ret question
  | Some map =>
      let* feature := candidateFeature ctx question map in
      match feature with
      | Some (JVal f) =>
          let* hiderPoint :=
            eval (turfPoint (longitude hider) (latitude hider)) in
          let* inside := eval (booleanPointInPolygon hiderPoint f) in
          if inside
          then ret (setSame question (negb (same question)))
          else ret question
      | _ => ret question
      end
  end.

Definition hiderifyMatching (ctx : AppContext) (question : Question)
  : M Question :=
  match hiderMode ctx with
  | None => ret question
  | Some hider =>
      match type question with
      | HomeGame l => hiderifyHomeGame ctx hider l question
      | same_first_letter_station
      | same_length_station
      | same_train_line => hiderifyStations ctx hider question
      | _ => hiderifyByContainment ctx hider question
      end
  end.

(** [false] is [None]. *)
Definition matchingPlanningPolygon (ctx : AppContext) (question : Question)
  : M (option GeoJSON) :=
  tryCatch
    (let* boundary := determineMatchingBoundary ctx question in
     match boundary with
     | NoBoundary => ret None
     | Resolved b =>
         let* line := call OpPolygonToLine (polygonToLine b) in
         ret (Some line)
     end)
    (ret None).

End Engine.
Arguments Question : clear implicits.

End Matching.

(** * measuring.ts *)

Module Measuring.

(** The [type] tag of a measuring question. *)
Inductive QuestionType : Type :=
| HomeGame (l : APILocation)          (** ["aquarium"], ... ["park"] *)
| Full (l : APILocation)              (** ["aquarium-full"], ... *)
| highspeed_measure_shinkansen
| coastline
| airport
| city
| custom_measure
| mcdonalds
| seven11
| rail_measure.

Definition typeName (t : QuestionType) : string :=
  match t with
  | HomeGame l => locationName l
  | Full l => locationName l ++ "-full"
  | highspeed_measure_shinkansen => "highspeed-measure-shinkansen"
  | coastline => "coastline"
  | airport => "airport"
  | city => "city"
  | custom_measure => "custom-measure"
  | mcdonalds => "mcdonalds"
  | seven11 => "seven11"
  | rail_measure => "rail-measure"
  end.

Section Engine.
Context {RT : JsRuntime} {GeoJSON : Type}.
Context {TF : Turf GeoJSON} {GU : GeoUtils GeoJSON} {API : MapsApi GeoJSON}.
Local Abbreviation M := (M GeoJSON).
Local Abbreviation World := (World GeoJSON).
Local Abbreviation Boundary := (Boundary GeoJSON).
Local Abbreviation AppContext := (AppContext GeoJSON).

(** [MeasuringQuestion]: the fields the engine reads and writes. *)
Record Question : Type := {
  type : QuestionType;
  lat : float;
  lng : float;
  hiderCloser : bool;
  geo : option GeoJSON;
}.

(** [question.hiderCloser = b] *)
Definition setHiderCloser (q : Question) (b : bool) : Question :=
  {| type := type q; lat := lat q; lng := lng q; hiderCloser := b;
     geo := geo q |}.

Definition isLineString (x : OsmFeature GeoJSON) : bool :=
  match f_geometryType x with
  | Some GLineString => true
  | _ => false
  end.

(** [features[0]] *)
Definition firstFeature (features : list GeoJSON) : JsOpt GeoJSON :=
  match features with
  | f :: _ => JVal f
  | [] => JUndefined
  end.

Definition highSpeedBase (features : list (OsmFeature GeoJSON))
  : M (JsOpt GeoJSON) :=
  memoizeSync (stringifyGeometries features)
    (let* grouped := call OpGroupObjects (groupObjects features) in
     let* chained :=
       mapM (fun group =>
               call OpChainLines
                 (chainLines (filter (fun x => isLineString x = true) group)))
            grouped in
     let neighbored := omap (fun x => x) chained in
     let* simplified :=
       call OpSimplify (simplify (featureCollection (map JVal neighbored))) in
     let* buffered := call OpBuffer (buffer simplified 0.001%float Kilometers) in
     let* combined := call OpCombine (combine buffered) in
     ret (firstFeature combined)).

Definition bboxExtension (bBox : BBox) (distance : float) : M BBox :=
  let '(b0, b1, b2, b3) := bBox in
  let* grown :=
    call OpBuffer (buffer (bboxPolygon bBox) (PrimFloat.abs distance) Miles) in
  let* buffered := call OpBBox (bboxOf grown) in
  let '(g0, g1, g2, g3) := buffered in
  let originalDeltaLat := PrimFloat.sub b3 b1 in
  let originalDeltaLng := PrimFloat.sub b2 b0 in
  ret (PrimFloat.sub g0 originalDeltaLng, PrimFloat.sub g1 originalDeltaLat,
       PrimFloat.add g2 originalDeltaLng, PrimFloat.add g3 originalDeltaLat).

(** The provider gates of the category-"full" branch, on a response: the
    features to return. *)
Definition fullFeatures (location : APILocation) (data : OverpassData)
  : M (list (JsOpt GeoJSON)) :=
  if runtimeError data then
    let* _ := toastError (errorFindingMessage location) in
    ret [JVal emptyMultiPolygon]
  else if (1000 <=? length (elements data))%nat then
    let* _ := toastError (tooManyMessage location (length (elements data))) in
    ret [JVal emptyMultiPolygon]
  else
    let* combined :=
      call OpCombine (combinePoints (map normalize (elements data))) in
    ret [firstFeature combined].

(** [false] is [None]. *)
Definition determineMeasuringBoundary (ctx : AppContext) (question : Question)
  : M (option (list (JsOpt GeoJSON))) :=
  let* bBox := call OpBBox (bbox (mapGeoJSON ctx)) in
  match type question with
  | highspeed_measure_shinkansen =>
      let* data :=
        fetch (ReqPlacesInZone QHighSpeedLines)
          (fun t => findPlacesInZone t ctx QHighSpeedLines) in
      let* features := call OpOsmToGeoJSON (osmtogeojson data) in
      let* base := highSpeedBase features in
      ret (Some [base])
  | coastline =>
      let* line := fetch ReqCoastline fetchCoastline in
      let* coast := call OpLineToPolygon (lineToPolygon line) in
      let* here := eval (turfPoint (lng question) (lat question)) in
      let* distanceToCoastline := eval (pointToPolygonDistance here coast) in
      let* extended := bboxExtension bBox distanceToCoastline in
      let* clipped := call OpBBoxClip (bboxClip coast extended) in
      let* buffered :=
        call OpBuffer (buffer clipped distanceToCoastline Miles) in
      let* band :=
        call OpDifference (difference (bboxPolygon bBox) buffered) in
      ret (Some [band])
  | airport =>
      let* data :=
        fetch (ReqPlacesInZone QAirports)
          (fun t => findPlacesInZone t ctx QAirports) in
      let* combined :=
        call OpCombine
          (combinePoints (map normalize (uniqByIata [] (elements data)))) in
      ret (Some [firstFeature combined])
  | city =>
      let* data :=
        fetch (ReqPlacesInZone QMajorCities)
          (fun t => findPlacesInZone t ctx QMajorCities) in
      let* combined :=
        call OpCombine (combinePoints (map normalize (elements data))) in
      ret (Some [firstFeature combined])
  | Full location =>
      let* data :=
        fetch (ReqPlacesInZone (QLocationFull location))
          (fun t => findPlacesInZone t ctx (QLocationFull location)) in
      let* features := fullFeatures location data in
      ret (Some features)
  | custom_measure =>
      match geo question with
      | None => throw (TypeError "question.geo is undefined")
      | Some g =>
          let* combined := call OpCombine (combineFeaturesOf g) in
          ret (Some (map JVal combined))
      end
  | HomeGame _ | mcdonalds | seven11 | rail_measure => ret None
  end.

(** The function given to [_.memoize]. *)
Definition bufferedDeterminer_body (ctx : AppContext) (question : Question)
  : M Boundary :=
  let* placeData := determineMeasuringBoundary ctx question in
  match placeData with
  | None => ret NoBoundary
  | Some features =>
      let* buffered :=
        call OpArcBuffer
          (arcBufferToPoint (featureCollection features)
             (lat question) (lng question)) in
      ret (Resolved buffered)
  end.

Definition entirety (ctx : AppContext) : GeoJSON :=
  match polyGeoJSON ctx with
  | Some poly => poly
  | None => mapGeoLocation ctx
  end.

(** The cache key: the serialized signature of the question. *)
Definition measuringKey (ctx : AppContext) (question : Question) : string :=
  jsonObject
    [ ("type", Some (quoted (typeName (type question))));
      ("lat", Some (stringifyNumber (lat question)));
      ("lng", Some (stringifyNumber (lng question)));
      ("entirety", Some (stringifyGeo (entirety ctx)));
      ("geo", stringifyGeo <$> geo question) ].

Definition bufferedDeterminer (ctx : AppContext) (question : Question)
  : M Boundary :=
  memoize measuringCache setMeasuringCache (measuringKey ctx question)
    (bufferedDeterminer_body ctx question).

Definition adjustPerMeasuring (ctx : AppContext) (question : Question)
    (mapData : JsOpt GeoJSON) : M (JsOpt GeoJSON) :=
  match mapData with
  | JNull => ret JUndefined
  | _ =>
      let* buffer := bufferedDeterminer ctx question in
      match buffer with
      | NoBoundary => ret mapData
      | Resolved b =>
          call (OpModifyMapData (hiderCloser question))
            (modifyMapData mapData b (hiderCloser question))
      end
  end.

(** The nearest-feature strategy of the home-game categories. *)
Definition hiderifyHomeGame (ctx : AppContext) (hider : HiderMode)
    (l : APILocation) (question : Question) : M Question :=
  let* questionNearest :=
    fetch (ReqNearestToQuestion l (lat question) (lng question))
      (fun t => nearestToQuestion t ctx l (lat question) (lng question)) in
  let* hiderNearest :=
    fetch (ReqNearestToQuestion l (latitude hider) (longitude hider))
      (fun t => nearestToQuestion t ctx l (latitude hider) (longitude hider)) in
  ret (setHiderCloser question
         (js_gt (nf_distanceToPoint questionNearest)
                (nf_distanceToPoint hiderNearest))).

(** The body of the outer [try]: the holed mask of the adjusted map. *)
Definition firstAttempt (ctx : AppContext) (question : Question)
    (map : GeoJSON) : M (JsOpt GeoJSON) :=
  let* adjusted := adjustPerMeasuring ctx question (JVal map) in
  call OpHoledMask (holedMask adjusted).

(** The body of the inner [try]: the adjustment of the collection whose one
    feature is the holed mask of the map. *)
Definition retryAttempt (ctx : AppContext) (question : Question)
    (map : GeoJSON) : M (JsOpt GeoJSON) :=
  let* inverse := call OpHoledMask (holedMask (JVal map)) in
  adjustPerMeasuring ctx question (JVal (featureCollection [inverse])).

(** The [try]/[catch] pair of the boundary-containment strategy.  [None]
    stands for the [return question] of the inner handler. *)
Definition candidateFeature (ctx : AppContext) (question : Question)
    (map : GeoJSON) : M (option (JsOpt GeoJSON)) :=
  tryCatch
    (let* feature := firstAttempt ctx question map in ret (Some feature))
    (tryCatch
       (let* feature := retryAttempt ctx question map in ret (Some feature))
       (ret None)).

(** The boundary-containment strategy: everything from the read of the
    working map to the end of [hiderifyMeasuring]. *)
Definition hiderifyByContainment (ctx : AppContext) (hider : HiderMode)
    (question : Question) : M Question :=
  match mapGeoJSON ctx with
  | None => ret question
  | Some map =>
      let* feature := candidateFeature ctx question map in
      match feature with
      | Some (JVal f) =>
          let* hiderPoint :=
            eval (turfPoint (longitude hider) (latitude hider)) in
          let* inside := eval (booleanPointInPolygon hiderPoint f) in
          if inside
          then ret (setHiderCloser question (negb (hiderCloser question)))
          else ret question
      | _ => ret question
      end
  end.

(** The block of the ["rail-measure"] test.  It returns early only when no
    station is cached; otherwise control runs on past the block with the
    outcome it has set. *)
Definition hiderifyRail (ctx : AppContext) (hider : HiderMode)
    (question : Question) : M Question :=
  match trainStations ctx with
  | [] => ret question
  | stations =>
      let* location := eval (turfPoint (lng question) (lat question)) in
      let* nearestTrainStation :=
        call OpNearestPoint (nearestPoint location stations) in
      let distance_ := distance location nearestTrainStation Kilometers in
      let* hiderPoint :=
        eval (turfPoint (longitude hider) (latitude hider)) in
      let* hiderNearest :=
        call OpNearestPoint (nearestPoint hiderPoint stations) in
      let hiderDistance := distance hiderPoint hiderNearest Kilometers in
      hiderifyByContainment ctx hider
        (setHiderCloser question (js_lt hiderDistance distance_))
  end.

(** The block of the ["mcdonalds"]/["seven11"] test. *)
Definition hiderifySpecific (ctx : AppContext) (hider : HiderMode)
    (which : SpecificLocation) (question : Question) : M Question :=
  let* points :=
    fetch (ReqPlacesSpecific which)
      (fun t => findPlacesSpecificInZone t ctx which) in
  let* seeker := eval (turfPoint (lng question) (lat question)) in
  let* nearest := call OpNearestPoint (nearestPoint seeker points) in
  let distance_ := distance seeker nearest Miles in
  let* hiderPoint := eval (turfPoint (longitude hider) (latitude hider)) in
  let* hiderNearest := call OpNearestPoint (nearestPoint hiderPoint points) in
  let hiderDistance := distance hiderPoint hiderNearest Miles in
  ret (setHiderCloser question (js_lt hiderDistance distance_)).

Definition hiderifyMeasuring (ctx : AppContext) (question : Question)
  : M Question :=
  match hiderMode ctx with
  | None => ret question
  | Some hider =>
      match type question with
      | HomeGame l => hiderifyHomeGame ctx hider l question
      | rail_measure => hiderifyRail ctx hider question
      | mcdonalds => hiderifySpecific ctx hider McDonalds question
      | seven11 => hiderifySpecific ctx hider Seven11 question
      | _ => hiderifyByContainment ctx hider question
      end
  end.

(** [false] is [None]. *)
Definition measuringPlanningPolygon (ctx : AppContext) (question : Question)
  : M (option GeoJSON) :=
  tryCatch
    (let* buffered := bufferedDeterminer ctx question in
     match buffered with
     | NoBoundary => ret None
     | Resolved b =>
         let* line := call OpPolygonToLine (polygonToLine b) in
         ret (Some line)
     end)
    (ret None).

End Engine.
Arguments Question : clear implicits.

End Measuring.

(** * A small world to run the engine in

    The plane is cut into its four quadrants; a geometry is the list of the
    quadrants it covers.  The geometry code works on these lists; it throws
    on [null] and [undefined], and on an adjustment that would leave
    nothing; a difference that leaves nothing is [null]. *)

Module Toy.

Definition Region : Type := list nat.

Definition universe : Region := [0; 1; 2; 3].

Definition quadrant (p : Position) : nat :=
  (if PrimFloat.ltb (pos_lng p) 0%float then 0 else 1)
  + (if PrimFloat.ltb (pos_lat p) 0%float then 0 else 2).

Definition covers (r : Region) (c : nat) : bool := bool_decide (c ∈ r).

Definition complement (r : Region) : Region :=
  filter (fun c => covers r c = false) universe.

Definition intersection (a b : Region) : Region :=
  filter (fun c => covers b c = true) a.

Definition subtraction (a b : Region) : Region :=
  filter (fun c => covers b c = false) a.

Definition unionAll (l : list (JsOpt Region)) : Region :=
  flat_map (fun x => match x with JVal r => r | _ => [] end) l.

Definition toyHoledMask (x : JsOpt Region) : ExtResult (JsOpt Region) :=
  match x with
  | JVal r => Success (JVal (complement r))
  | _ => Failure "holedMask: no input"
  end.

Definition toyModifyMapData (mapData boundary : JsOpt Region) (inside : bool)
  : ExtResult (JsOpt Region) :=
  match mapData, boundary with
  | JVal m, JVal b =>
      let r := if inside then intersection m b else subtraction m b in
      match r with
      | [] => Failure "modifyMapData: nothing left"
      | _ => Success (JVal r)
      end
  | _, _ => Failure "modifyMapData: no input"
  end.

Definition showRegion (r : Region) : string :=
  "[" ++ String.concat "," (map pretty r) ++ "]".

Definition toyNearestPoint (p : Position) (l : list Position)
  : ExtResult Position :=
  match l with
  | [] => Failure "nearestPoint: empty collection"
  | a :: rest =>
      Success (if PrimFloat.ltb (pos_lng p) 0%float then a else List.last rest a)
  end.

Definition toyNearestStation (p : Position) (l : list (OsmFeature Region))
  : ExtResult (OsmFeature Region) :=
  match l with
  | [] => Failure "nearestPoint: empty collection"
  | a :: rest =>
      Success (if PrimFloat.ltb (pos_lng p) 0%float then a else List.last rest a)
  end.

(** What the collaborators of a run answer. *)
Record Scenario : Type := {
  sc_zone : option (OsmFeature Region);
  sc_places : nat -> PlacesQuery -> ExtResult OverpassData;
  sc_features : list (OsmFeature Region);
}.

#[local] Instance toyRuntime : JsRuntime := {|
  unicodeUpper c := [c];
  parseInt s := match s with Some _ => 1%float | None => PrimFloat.nan end;
  stringifyNumber x := if PrimFloat.ltb x 0%float then "-1" else "1";
|}.

#[local] Instance toyTurf (sc : Scenario) : Turf Region := {|
  booleanPointInPolygon p r := Success (covers r (quadrant p));
  distance a b _ := PrimFloat.abs (PrimFloat.sub (pos_lat a) (pos_lat b));
  pointToPolygonDistance p _ := Success (PrimFloat.abs (pos_lat p));
  nearestPoint := toyNearestPoint;
  nearestStation := toyNearestStation;
  combinePoints ps :=
    match ps with
    | [] => Success []
    | _ => Success [map quadrant ps]
    end;
  combineFeaturesOf g := Success [g];
  combine g :=
    match g with
    | JVal r => Success [r]
    | _ => Failure "combine: no input"
    end;
  emptyMultiPolygon := [];
  featureCollection := unionAll;
  simplifyZones fs := Success (flat_map f_value fs);
  simplify g := Success g;
  polygonToLine g :=
    match g with JVal r => Success r | _ => Failure "polygonToLine" end;
  bbox m :=
    match m with
    | Some _ => Success (0, 0, 0, 0)%float
    | None => Failure "bbox: cannot read properties of null"
    end;
  bboxOf g :=
    match g with
    | JVal _ => Success (0, 0, 0, 0)%float
    | _ => Failure "bbox: no input"
    end;
  bboxPolygon _ := universe;
  bboxClip g _ := Success g;
  buffer g _ _ := Success (JVal g);
  difference a b :=
    match b with
    | JVal r =>
        Success
          match subtraction a r with
          | [] => JNull
          | left_ => JVal left_
          end
    | _ => Failure "difference: no input"
    end;
  lineToPolygon g := Success g;
  osmtogeojson _ := Success (sc_features sc);
  stringifyGeo := showRegion;
  stringifyGeometries fs := String.concat ";" (map (fun f => showRegion (f_value f)) fs);
|}.

#[local] Instance toyGeoUtils : GeoUtils Region := {|
  holedMask := toyHoledMask;
  modifyMapData := toyModifyMapData;
  safeUnion g := Success g;
  geoSpatialVoronoi ps :=
    match ps with
    | Places l => Success (map (fun p => [quadrant p]) l)
    | OwnGeo _ => Failure "geoSpatialVoronoi: not a point list"
    end;
  arcBufferToPoint g _ _ := Success (JVal g);
  groupObjects fs := Success [fs];
  chainLines fs :=
    Success (match fs with [] => None | _ => Some (flat_map f_value fs) end);
|}.

#[local] Instance toyApi (sc : Scenario) : MapsApi Region := {|
  findAdminBoundary _ _ _ _ _ := Success (sc_zone sc);
  findPlacesInZone t _ q := sc_places sc t q;
  nearestToQuestion _ _ _ lat_ lng_ :=
    Success {| nf_name := Some (if PrimFloat.ltb lng_ 0%float then js "West" else js "East");
               nf_distanceToPoint := PrimFloat.abs lat_ |};
  trainLineNodeFinder _ _ := Success [1%float];
  fetchCoastline _ := Success universe;
  findPlacesSpecificInZone _ _ _ := Success [point 0 0; point 1 1]%float;
  prettyLower l := locationName l;
|}.

Definition element (x y : float) : RawElement :=
  {| el_center := None; el_lon := x; el_lat := y; el_iata := None |}.

Definition station (name_en name : option string) : OsmFeature Region :=
  {| f_id := js "node/1"; f_name := js <$> name; f_name_en := js <$> name_en;
     f_geometryType := Some GPoint; f_value := [0] |}.

Definition context (hider : option HiderMode) (map : option Region)
  : AppContext Region :=
  {| hiderMode := hider; mapGeoJSON := map; polyGeoJSON := None;
     mapGeoLocation := universe; trainStations := [point (-1) 2; point 1 5]%float |}.

(** *** Scenarios *)

Definition response (els : list RawElement) (note : option string)
  : OverpassData :=
  {| elements := els; remark := js <$> note |}.

(** Nothing is found and no zone is known. *)
Definition barren : Scenario :=
  {| sc_zone := None;
     sc_places := fun _ _ => Success (response [] None);
     sc_features := [] |}.

(** The first request times out on the server; later ones find two
    places. *)
Definition flaky : Scenario :=
  {| sc_zone := None;
     sc_places := fun t _ =>
       match t with
       | 0 => Success (response [] (Some "runtime error: Query timed out"))
       | _ => Success (response [element (-1) (-1); element 1 1]%float None)
       end;
     sc_features := [] |}.

Definition zoneNamed (name_en name : option jsstring) : OsmFeature Region :=
  {| f_id := js "relation/7"; f_name := name; f_name_en := name_en;
     f_geometryType := Some GPolygon; f_value := [0; 2] |}.

(** The enclosing zone has the given names. *)
Definition inZone (name_en name : option jsstring) : Scenario :=
  {| sc_zone := Some (zoneNamed name_en name);
     sc_places := fun _ _ => Success (response [] None);
     sc_features := [zoneNamed name_en name] |}.

(** "éire": U+00E9, then "ire". *)
Definition eire : jsstring := 233%N :: js "ire".

(** Two stations; the toy nearest-point search gives the first to a point
    in the west and the last to a point in the east.  The western one has
    an English name besides a longer native one. *)
Definition twoStations : Scenario :=
  {| sc_zone := None;
     sc_places := fun _ _ => Success (response [] None);
     sc_features :=
       [station (Some "Springfield") (Some "Springfield Hauptbahnhof");
        station None (Some "Shelbyville")] |}.

(** The provider cannot be reached. *)
Definition offline : Scenario :=
  {| sc_zone := None;
     sc_places := fun _ _ => Failure "Failed to fetch";
     sc_features := [] |}.

Definition airportAt (x y : float) (code : string) : RawElement :=
  {| el_center := None; el_lon := x; el_lat := y; el_iata := Some (js code) |}.

(** Three aerodromes, two of them under one code, sent with a remark of
    the provider. *)
Definition airports : Scenario :=
  {| sc_zone := None;
     sc_places := fun _ _ =>
       Success
         (response
            [airportAt (-1) (-1) "AAA"; airportAt 1 1 "BBB";
             airportAt (-1) 1 "AAA"]%float
            (Some "runtime error: Query timed out"));
     sc_features := [] |}.

(** The western station is written in lower case. *)
Definition lowerCaseStation : Scenario :=
  {| sc_zone := None;
     sc_places := fun _ _ => Success (response [] None);
     sc_features :=
       [station None (Some "springfield"); station None (Some "Shelbyville")] |}.

(** The western station has no name at all. *)
Definition namelessStation : Scenario :=
  {| sc_zone := None;
     sc_places := fun _ _ => Success (response [] None);
     sc_features := [station None None; station None (Some "Shelbyville")] |}.

(** A high-speed line over the given quadrants. *)
Definition track (name : string) (cells : Region) : OsmFeature Region :=
  {| f_id := js "way/3"; f_name := Some (js name); f_name_en := None;
     f_geometryType := Some GLineString; f_value := cells |}.

Definition hiderNorthWest : HiderMode :=
  {| latitude := 1; longitude := (-1) |}%float.

Definition hiderSouthEast : HiderMode :=
  {| latitude := (-1); longitude := 1 |}%float.

Definition hiderSouthWest : HiderMode :=
  {| latitude := (-1); longitude := (-1) |}%float.

(** A hider whose latitude is not a number. *)
Definition hiderNowhere : HiderMode :=
  {| latitude := PrimFloat.nan; longitude := 0%float |}.

(** The southern half of the plane as the working map. *)
Definition south : Region := [0; 1].

Definition matchingQuestion (t : Matching.QuestionType) (same_ : bool)
    (level : option float) (geo_ : option Region) : Matching.Question Region :=
  {| Matching.type := t; Matching.lat := 0%float; Matching.lng := 1%float;
     Matching.same := same_; Matching.lengthComparison := None;
     Matching.cat := Matching.Build_Category <$> level;
     Matching.geo := geo_ |}.

Definition measuringQuestion (t : Measuring.QuestionType) (closer : bool)
    (geo_ : option Region) : Measuring.Question Region :=
  {| Measuring.type := t; Measuring.lat := 0%float; Measuring.lng := 1%float;
     Measuring.hiderCloser := closer; Measuring.geo := geo_ |}.

(** *** The engine in a scenario *)

Section Run.
Variable sc : Scenario.
#[local] Existing Instance toyRuntime.
#[local] Existing Instance toyGeoUtils.
Let TF : Turf Region := toyTurf sc.
Let API : MapsApi Region := toyApi sc.
#[local] Existing Instance TF.
#[local] Existing Instance API.

Definition findMatchingPlaces := Matching.findMatchingPlaces (GeoJSON := Region).
Definition determineMatchingBoundary :=
  Matching.determineMatchingBoundary (GeoJSON := Region).
Definition adjustPerMatching := Matching.adjustPerMatching (GeoJSON := Region).
Definition hiderifyMatching := Matching.hiderifyMatching (GeoJSON := Region).
Definition matchingFirstAttempt := Matching.firstAttempt (GeoJSON := Region).
Definition matchingContainment :=
  Matching.hiderifyByContainment (GeoJSON := Region).
Definition determineMeasuringBoundary :=
  Measuring.determineMeasuringBoundary (GeoJSON := Region).
Definition bufferedDeterminer := Measuring.bufferedDeterminer (GeoJSON := Region).
Definition adjustPerMeasuring := Measuring.adjustPerMeasuring (GeoJSON := Region).
Definition hiderifyMeasuring := Measuring.hiderifyMeasuring (GeoJSON := Region).
Definition measuringContainment :=
  Measuring.hiderifyByContainment (GeoJSON := Region).

End Run.

Definition start : World Region := emptyWorld.

End Toy.


(** * Vocabulary of the properties *)

(** How every cache key starts: up to the subtype name. *)
Definition keyPrefix : string := "{" ++ quoted "type" ++ ":" ++ dq.

(** An ASCII letter in upper case; any other code unit as it is. *)
Definition foldCase (c : N) : N :=
  if ((97 <=? c) && (c <=? 122))%N then (c - 32)%N else c.

(** A string without the double-quote character. *)
Fixpoint quoteFree (s : string) : bool :=
  match s with
  | EmptyString => true
  | String c rest => negb (Ascii.eqb c (ascii_of_nat 34)) && quoteFree rest
  end.

(** The two provider gates of the category-"full" questions, as one test
    on the response. *)
Definition safetyGate (data : OverpassData) : bool :=
  runtimeError data || (1000 <=? length (elements data))%nat.

(** The warning a gated response is answered with. *)
Definition gateWarning {G} {API : MapsApi G} (l : APILocation) (data : OverpassData)
  : string :=
  if runtimeError data then errorFindingMessage l
  else tooManyMessage l (length (elements data)).

(** The subtypes for which the resolvers have no boundary. *)
Definition matchingNoBoundary (t : Matching.QuestionType) : bool :=
  match t with
  | Matching.HomeGame _
  | Matching.same_first_letter_station
  | Matching.same_length_station
  | Matching.same_train_line => true
  | _ => false
  end.

Definition measuringNoBoundary (t : Measuring.QuestionType) : bool :=
  match t with
  | Measuring.HomeGame _
  | Measuring.mcdonalds
  | Measuring.seven11
  | Measuring.rail_measure => true
  | _ => false
  end.

Section Vocabulary.
Context {RT : JsRuntime} {GeoJSON : Type}.
Context {TF : Turf GeoJSON} {GU : GeoUtils GeoJSON} {API : MapsApi GeoJSON}.
Local Abbreviation M := (M GeoJSON).
Local Abbreviation World := (World GeoJSON).
Local Abbreviation Boundary := (Boundary GeoJSON).
Local Abbreviation AppContext := (AppContext GeoJSON).
Local Abbreviation MatchingQuestion := (Matching.Question GeoJSON).
Local Abbreviation MeasuringQuestion := (Measuring.Question GeoJSON).

(** Every run of [m] takes a world to one related to it by [R]. *)
Definition steps (R : World -> World -> Prop) {A} (m : M A) : Prop :=
  forall w, R w (snd (m w)).

(** The caches of the two resolvers only gain entries. *)
Definition grows (w w' : World) : Prop :=
  (forall k r, matchingCache w !! k = Some r -> matchingCache w' !! k = Some r)
  /\ (forall k r,
        measuringCache w !! k = Some r -> measuringCache w' !! k = Some r).

(** The exported operations of the two files. *)
Inductive Operation : Type :=
| FindMatchingPlaces (ctx : AppContext) (q : MatchingQuestion)
| DetermineMatchingBoundary (ctx : AppContext) (q : MatchingQuestion)
| AdjustPerMatching (ctx : AppContext) (q : MatchingQuestion)
    (mapData : JsOpt GeoJSON)
| HiderifyMatching (ctx : AppContext) (q : MatchingQuestion)
| MatchingPlanningPolygon (ctx : AppContext) (q : MatchingQuestion)
| DetermineMeasuringBoundary (ctx : AppContext) (q : MeasuringQuestion)
| AdjustPerMeasuring (ctx : AppContext) (q : MeasuringQuestion)
    (mapData : JsOpt GeoJSON)
| HiderifyMeasuring (ctx : AppContext) (q : MeasuringQuestion)
| MeasuringPlanningPolygon (ctx : AppContext) (q : MeasuringQuestion).

(** The world an operation leaves behind. *)
Definition after (op : Operation) (w : World) : World :=
  match op with
  | FindMatchingPlaces ctx q => snd (Matching.findMatchingPlaces ctx q w)
  | DetermineMatchingBoundary ctx q =>
      snd (Matching.determineMatchingBoundary ctx q w)
  | AdjustPerMatching ctx q m => snd (Matching.adjustPerMatching ctx q m w)
  | HiderifyMatching ctx q => snd (Matching.hiderifyMatching ctx q w)
  | MatchingPlanningPolygon ctx q =>
      snd (Matching.matchingPlanningPolygon ctx q w)
  | DetermineMeasuringBoundary ctx q =>
      snd (Measuring.determineMeasuringBoundary ctx q w)
  | AdjustPerMeasuring ctx q m => snd (Measuring.adjustPerMeasuring ctx q m w)
  | HiderifyMeasuring ctx q => snd (Measuring.hiderifyMeasuring ctx q w)
  | MeasuringPlanningPolygon ctx q =>
      snd (Measuring.measuringPlanningPolygon ctx q w)
  end.

(** The worlds that follow [w0] in the life of the process: any number of
    operations later. *)
Inductive later (w0 : World) : World -> Prop :=
| later_now : later w0 w0
| later_next (w : World) (op : Operation) :
    later w0 w -> later w0 (after op w).

(** What the caches hold for the questions without a boundary: the
    matching cache holds [false]; the measuring cache holds [false] or a
    failure. *)
Definition matchingSound (w : World) : Prop :=
  forall ctx (q : MatchingQuestion) r,
    matchingCache w !! Matching.matchingKey ctx q = Some r ->
    matchingNoBoundary (Matching.type q) = true ->
    r = Ok NoBoundary.

Definition measuringSound (w : World) : Prop :=
  forall ctx (q : MeasuringQuestion) r,
    measuringCache w !! Measuring.measuringKey ctx q = Some r ->
    measuringNoBoundary (Measuring.type q) = true ->
    r = Ok NoBoundary \/ exists e, r = Throw e.

(** A run that leaves the resolver caches and the count of resolutions as
    they were. *)
Definition untouched (w w' : World) : Prop :=
  matchingCache w' = matchingCache w
  /\ measuringCache w' = measuringCache w
  /\ resolutions w' = resolutions w.

(** Whether the hider's point lies in the candidate feature of the
    boundary-containment strategy.  There is nothing to lie in when the
    strategy gave up or the feature is [null] or [undefined]; with a
    feature, the point is built and tested, and either step may throw. *)
Definition hiderInside (hider : HiderMode)
    (candidate : Outcome (option (JsOpt GeoJSON))) : Outcome bool :=
  match candidate with
  | Ok (Some (JVal f)) =>
      match turfPoint (longitude hider) (latitude hider) with
      | Success hiderPoint => settle (booleanPointInPolygon hiderPoint f)
      | Failure what => Throw (Foreign what)
      end
  | _ => Ok false
  end.

(** What the boundary-containment strategy ends with for a candidate: the
    descriptor, flipped when the hider lies inside the candidate, or the
    error of the test. *)
Definition matchingVerdict (hider : HiderMode) (q : MatchingQuestion)
    (candidate : Outcome (option (JsOpt GeoJSON))) : Outcome MatchingQuestion :=
  match hiderInside hider candidate with
  | Ok true => Ok (Matching.setSame q (negb (Matching.same q)))
  | Ok false => Ok q
  | Throw e => Throw e
  end.

Definition measuringVerdict (hider : HiderMode) (q : MeasuringQuestion)
    (candidate : Outcome (option (JsOpt GeoJSON)))
  : Outcome MeasuringQuestion :=
  match hiderInside hider candidate with
  | Ok true => Ok (Measuring.setHiderCloser q (negb (Measuring.hiderCloser q)))
  | Ok false => Ok q
  | Throw e => Throw e
  end.

(** The name a station is compared by: its English name when that is not
    empty, else its native name when that is not empty. *)
Inductive usableName (station : OsmFeature GeoJSON) : jsstring -> Prop :=
| english_name (n : jsstring) :
    f_name_en station = Some n -> n <> [] -> usableName station n
| native_name (n : jsstring) :
    f_name_en station = None \/ f_name_en station = Some [] ->
    f_name station = Some n -> n <> [] -> usableName station n.


(** The matching subtypes resolved through a Voronoi tessellation. *)
Definition pointSetType (t : Matching.QuestionType) : bool :=
  match t with
  | Matching.airport | Matching.major_city | Matching.Full _
  | Matching.custom_points => true
  | _ => false
  end.

(** Two descriptors of the same question: they differ at most in the
    outcome fields. *)
Definition sameMatchingSubject (q q' : MatchingQuestion) : Prop :=
  Matching.type q' = Matching.type q
  /\ Matching.lat q' = Matching.lat q
  /\ Matching.lng q' = Matching.lng q
  /\ Matching.cat q' = Matching.cat q
  /\ Matching.geo q' = Matching.geo q.

Definition sameMeasuringSubject (q q' : MeasuringQuestion) : Prop :=
  Measuring.type q' = Measuring.type q
  /\ Measuring.lat q' = Measuring.lat q
  /\ Measuring.lng q' = Measuring.lng q
  /\ Measuring.geo q' = Measuring.geo q.

(** Every value [m] returns satisfies [P]. *)
Definition yields {A} (P : A -> Prop) (m : M A) : Prop :=
  forall w a w', m w = (Ok a, w') -> P a.

(** After any run of [m] the matching, respectively measuring, cache has an
    entry under the key. *)
Definition fillsMatching (key : string) {A} (m : M A) : Prop :=
  forall w, is_Some (matchingCache (snd (m w)) !! key).

Definition fillsMeasuring (key : string) {A} (m : M A) : Prop :=
  forall w, is_Some (measuringCache (snd (m w)) !! key).

(** The name a letter zone is grouped by, when it has one. *)
Definition groupingName (z : OsmFeature GeoJSON) : option jsstring :=
  if truthy (f_name_en z) then f_name_en z
  else
    match f_name z with
    | Some n => if testSingleLetter (js_first n) then Some n else None
    | None => None
    end.

End Vocabulary.

(** * Properties *)

Section MonadFacts.
Context {GeoJSON : Type}.
Local Abbreviation M := (M GeoJSON).
Local Abbreviation World := (World GeoJSON).

Lemma bind_ok {A B} (m : M A) (k : A -> M B) (w w' : World) (a : A) :
  m w = (Ok a, w') -> bind m k w = k a w'.
Proof. intros E. unfold bind. now rewrite E. Qed.

Lemma bind_throw {A B} (m : M A) (k : A -> M B) (w w' : World) e :
  m w = (Throw e, w') -> bind m k w = (Throw e, w').
Proof. intros E. unfold bind. now rewrite E. Qed.

Lemma tryCatch_ok {A} (m h : M A) (w w' : World) (a : A) :
  m w = (Ok a, w') -> tryCatch m h w = (Ok a, w').
Proof. intros E. unfold tryCatch. now rewrite E. Qed.

Lemma tryCatch_throw {A} (m h : M A) (w w' : World) e :
  m w = (Throw e, w') -> tryCatch m h w = h w'.
Proof. intros E. unfold tryCatch. now rewrite E. Qed.

Lemma fetch_run {A} (r : Request) (answer : nat -> ExtResult A) (w : World) :
  fetch r answer w = (settle (answer (length (log w))), record (Fetched r) w).
Proof. reflexivity. Qed.

Lemma call_run {A} (op : GeoOp) (r : ExtResult A) (w : World) :
  call op r w = (settle r, record (Called op) w).
Proof. reflexivity. Qed.

Lemma eval_run {A} (r : ExtResult A) (w : World) : eval r w = (settle r, w).
Proof. reflexivity. Qed.

(** A collaborator never raises one of the engine's own errors. *)
Lemma settle_not_Error {A} (r : ExtResult A) msg : settle r <> Throw (Error msg).
Proof. destruct r; discriminate. Qed.

(** *** Relating the worlds before and after a run *)

Section Steps.
Variable R : World -> World -> Prop.
Hypothesis R_refl : forall w, R w w.
Hypothesis R_trans : forall a b c, R a b -> R b c -> R a c.
Hypothesis R_record : forall e w, R w (record e w).
Hypothesis R_highSpeed : forall c w, R w (setHighSpeedCache c w).

Lemma steps_ret {A} (a : A) : steps R (ret a).
Proof. intros w. apply R_refl. Qed.

Lemma steps_throw {A} e : steps R (throw (A := A) e).
Proof. intros w. apply R_refl. Qed.

Lemma steps_bind {A B} (m : M A) (k : A -> M B) :
  steps R m -> (forall a, steps R (k a)) -> steps R (bind m k).
Proof.
  intros Hm Hk w. unfold bind. specialize (Hm w).
  destruct (m w) as [[a|e] w1]; simpl in *; [|exact Hm].
  eapply R_trans; [exact Hm | apply Hk].
Qed.

Lemma steps_tryCatch {A} (m h : M A) :
  steps R m -> steps R h -> steps R (tryCatch m h).
Proof.
  intros Hm Hh w. unfold tryCatch. specialize (Hm w).
  destruct (m w) as [[a|e] w1]; simpl in *; [exact Hm|].
  eapply R_trans; [exact Hm | apply Hh].
Qed.

Lemma steps_toastError msg : steps R (toastError msg).
Proof. intros w. apply R_record. Qed.

Lemma steps_fetch {A} r (answer : nat -> ExtResult A) : steps R (fetch r answer).
Proof. intros w. apply R_record. Qed.

Lemma steps_call {A} op (r : ExtResult A) : steps R (call op r).
Proof. intros w. apply R_record. Qed.

Lemma steps_lift {A} (o : Outcome A) : steps R (lift o).
Proof. intros w. apply R_refl. Qed.

Lemma steps_eval {A} (r : ExtResult A) : steps R (eval r).
Proof. intros w. apply R_refl. Qed.

Lemma steps_mapM {A B} (f : A -> M B) (l : list A) :
  (forall x, steps R (f x)) -> steps R (mapM f l).
Proof.
  intros Hf. induction l as [|x rest IH]; simpl.
  - apply steps_ret.
  - apply steps_bind; [apply Hf|]. intros y.
    apply steps_bind; [exact IH|]. intros ys. apply steps_ret.
Qed.

Lemma steps_memoizeSync key (body : M (JsOpt GeoJSON)) :
  steps R body -> steps R (memoizeSync key body).
Proof.
  intros Hb w. unfold memoizeSync.
  destruct (highSpeedCache w !! key); [apply R_refl|].
  specialize (Hb w). destruct (body w) as [[v|e] w1]; simpl in *; [|exact Hb].
  eapply R_trans; [exact Hb | apply R_highSpeed].
Qed.

End Steps.

Lemma untouched_refl (w : World) : untouched w w.
Proof. now repeat split. Qed.

Lemma untouched_trans (a b c : World) :
  untouched a b -> untouched b c -> untouched a c.
Proof. intros (?&?&?) (?&?&?). repeat split; congruence. Qed.

Lemma untouched_record e (w : World) : untouched w (record e w).
Proof. now repeat split. Qed.

Lemma untouched_highSpeed c (w : World) : untouched w (setHighSpeedCache c w).
Proof. now repeat split. Qed.

Lemma grows_refl (w : World) : grows w w.
Proof. now split. Qed.

Lemma grows_trans (a b c : World) : grows a b -> grows b c -> grows a c.
Proof. intros [? ?] [? ?]. split; auto. Qed.

Lemma untouched_grows (a b : World) : untouched a b -> grows a b.
Proof. intros (E1&E2&_). split; intros k r; rewrite ?E1, ?E2; auto. Qed.

End MonadFacts.

(** Goals [steps R m] for a straight-line [m], given the four closure
    properties of [R]. *)
Ltac straight Hrefl Htrans Hrecord Hhs :=
  repeat first
    [ assumption
    | match goal with
      | Hyp : forall _, steps _ _ |- steps _ _ => apply Hyp
      end
    | apply (steps_ret _ Hrefl)
    | apply (steps_throw _ Hrefl)
    | apply (steps_toastError _ Hrecord)
    | apply (steps_fetch _ Hrecord)
    | apply (steps_call _ Hrecord)
    | apply (steps_lift _ Hrefl)
    | apply (steps_eval _ Hrefl)
    | apply (steps_bind _ Htrans); [ | intros ? ]
    | apply (steps_tryCatch _ Htrans)
    | apply (steps_mapM _ Hrefl Htrans); intros ?
    | apply (steps_memoizeSync _ Hrefl Htrans Hhs)
    | match goal with
      | |- steps _ (match ?x with _ => _ end) => destruct x
      end ].

(** ** The cache key tells the subtype *)

Lemma append_quote_inj (a b r r' : string) :
  quoteFree a = true -> quoteFree b = true ->
  a ++ String (ascii_of_nat 34) r = b ++ String (ascii_of_nat 34) r' ->
  a = b.
Proof.
  revert b. induction a as [|c a IH]; intros [|d b] Ha Hb E; simpl in *.
  - reflexivity.
  - injection E as E _. subst d. now rewrite Ascii.eqb_refl in Hb.
  - injection E as E _. subst c. now rewrite Ascii.eqb_refl in Ha.
  - injection E as Ec E. subst d.
    apply andb_prop in Ha as [_ Ha]. apply andb_prop in Hb as [_ Hb].
    f_equal. now apply IH.
Qed.

Lemma matching_typeName_quoteFree t : quoteFree (Matching.typeName t) = true.
Proof. destruct t as [[]|[]| | | | | | | | |]; reflexivity. Qed.

Lemma measuring_typeName_quoteFree t : quoteFree (Measuring.typeName t) = true.
Proof. destruct t as [[]|[]| | | | | | | |]; reflexivity. Qed.

Lemma matching_typeName_inj t t' :
  Matching.typeName t = Matching.typeName t' -> t = t'.
Proof.
  destruct t as [[]|[]| | | | | | | | |], t' as [[]|[]| | | | | | | | |];
    intros E; try reflexivity; discriminate E.
Qed.

Lemma measuring_typeName_inj t t' :
  Measuring.typeName t = Measuring.typeName t' -> t = t'.
Proof.
  destruct t as [[]|[]| | | | | | | |], t' as [[]|[]| | | | | | | |];
    intros E; try reflexivity; discriminate E.
Qed.

Lemma string_app_assoc (a b c : string) : (a ++ b) ++ c = a ++ (b ++ c).
Proof.
  induction a as [|x a IH]; [reflexivity|].
  change (String x ((a ++ b) ++ c) = String x (a ++ b ++ c)). now f_equal.
Qed.

Lemma string_app_inv_head (p a b : string) : p ++ a = p ++ b -> a = b.
Proof.
  induction p as [|x p IH]; intros E; [exact E|].
  change (String x (p ++ a) = String x (p ++ b)) in E.
  injection E as E. now apply IH.
Qed.

Lemma jsonObject_type_first (tn k2 v2 : string) more :
  exists rest,
    jsonObject (("type", Some (quoted tn)) :: (k2, Some v2) :: more)
    = keyPrefix ++ tn ++ String (ascii_of_nat 34) rest.
Proof.
  unfold jsonObject. cbn [members].
  change (String.concat "," (?x :: ?y :: ?l))
    with (x ++ "," ++ String.concat "," (y :: l)).
  unfold keyPrefix, quoted, dq. rewrite !string_app_assoc.
  eexists. reflexivity.
Qed.

Lemma key_type_inj (tn tn' k2 v2 k2' v2' : string) more more' :
  quoteFree tn = true -> quoteFree tn' = true ->
  jsonObject (("type", Some (quoted tn)) :: (k2, Some v2) :: more)
  = jsonObject (("type", Some (quoted tn')) :: (k2', Some v2') :: more') ->
  tn = tn'.
Proof.
  intros Q Q' E.
  destruct (jsonObject_type_first tn k2 v2 more) as [r Er].
  destruct (jsonObject_type_first tn' k2' v2' more') as [r' Er'].
  rewrite Er, Er' in E. apply string_app_inv_head in E.
  eapply append_quote_inj; eauto.
Qed.

Section Claims.
Context {RT : JsRuntime} {GeoJSON : Type}.
Context {TF : Turf GeoJSON} {GU : GeoUtils GeoJSON} {API : MapsApi GeoJSON}.
Local Abbreviation M := (M GeoJSON).
Local Abbreviation World := (World GeoJSON).
Local Abbreviation Boundary := (Boundary GeoJSON).
Local Abbreviation AppContext := (AppContext GeoJSON).
Local Abbreviation MatchingQuestion := (Matching.Question GeoJSON).
Local Abbreviation MeasuringQuestion := (Measuring.Question GeoJSON).

Lemma matchingKey_type ctx (q : Matching.Question GeoJSON) ctx' q' :
  Matching.matchingKey ctx q = Matching.matchingKey ctx' q' ->
  Matching.type q = Matching.type q'.
Proof.
  intros E. apply key_type_inj in E; auto using matching_typeName_quoteFree.
  now apply matching_typeName_inj.
Qed.

Lemma measuringKey_type ctx (q : Measuring.Question GeoJSON) ctx' q' :
  Measuring.measuringKey ctx q = Measuring.measuringKey ctx' q' ->
  Measuring.type q = Measuring.type q'.
Proof.
  intros E. apply key_type_inj in E; auto using measuring_typeName_quoteFree.
  now apply measuring_typeName_inj.
Qed.

(** ** What the resolver bodies leave alone *)

Ltac quiet :=
  straight (untouched_refl (GeoJSON := GeoJSON))
           (untouched_trans (GeoJSON := GeoJSON))
           (untouched_record (GeoJSON := GeoJSON))
           (untouched_highSpeed (GeoJSON := GeoJSON)).

Lemma findMatchingPlaces_untouched ctx (q : MatchingQuestion) :
  steps untouched (Matching.findMatchingPlaces ctx q).
Proof. unfold Matching.findMatchingPlaces, Matching.fullPlaces. quiet. Qed.

Lemma matching_body_untouched ctx (q : MatchingQuestion) :
  steps untouched (Matching.determineMatchingBoundary_body ctx q).
Proof.
  unfold Matching.determineMatchingBoundary_body.
  pose proof (findMatchingPlaces_untouched ctx q).
  unfold Matching.adminLevelOf, Matching.noBoundaryFound,
    Matching.letterZoneName, Matching.letterZoneUnion,
    Matching.firstLetterUpper.
  quiet.
Qed.

Lemma determineMeasuringBoundary_untouched ctx (q : MeasuringQuestion) :
  steps untouched (Measuring.determineMeasuringBoundary ctx q).
Proof.
  unfold Measuring.determineMeasuringBoundary, Measuring.highSpeedBase,
    Measuring.bboxExtension, Measuring.fullFeatures.
  quiet.
Qed.

Lemma measuring_body_untouched ctx (q : MeasuringQuestion) :
  steps untouched (Measuring.bufferedDeterminer_body ctx q).
Proof.
  unfold Measuring.bufferedDeterminer_body.
  pose proof (determineMeasuringBoundary_untouched ctx q).
  quiet.
Qed.

(** ** The memoized resolvers *)

Lemma memoize_hit cache store key (body : M Boundary) (w : World) r :
  cache w !! key = Some r -> memoize cache store key body w = (r, w).
Proof. intros E. unfold memoize. now rewrite E. Qed.

Lemma memoize_miss cache store key (body : M Boundary) (w : World) :
  cache w !! key = None ->
  memoize cache store key body w =
    (fst (body (enter w)),
     store (<[key := fst (body (enter w))]> (cache (snd (body (enter w)))))
           (snd (body (enter w)))).
Proof.
  intros E. unfold memoize. rewrite E. now destruct (body (enter w)).
Qed.

(** A miss of the matching resolver: the body runs once, and its outcome is
    added to the cache it found. *)
Lemma matching_miss ctx (q : MatchingQuestion) (w : World) :
  matchingCache w !! Matching.matchingKey ctx q = None ->
  exists r w',
    Matching.determineMatchingBoundary_body ctx q (enter w) = (r, w')
    /\ untouched (enter w) w'
    /\ Matching.determineMatchingBoundary ctx q w =
         (r, setMatchingCache
               (<[Matching.matchingKey ctx q := r]> (matchingCache w)) w').
Proof.
  intros E. pose proof (matching_body_untouched ctx q (enter w)) as U.
  unfold Matching.determineMatchingBoundary. rewrite memoize_miss by exact E.
  destruct (Matching.determineMatchingBoundary_body ctx q (enter w))
    as [r w'] eqn:B.
  exists r, w'. simpl in *. repeat split; try apply U.
  destruct U as (U1&_). now rewrite U1.
Qed.

Lemma measuring_miss ctx (q : MeasuringQuestion) (w : World) :
  measuringCache w !! Measuring.measuringKey ctx q = None ->
  exists r w',
    Measuring.bufferedDeterminer_body ctx q (enter w) = (r, w')
    /\ untouched (enter w) w'
    /\ Measuring.bufferedDeterminer ctx q w =
         (r, setMeasuringCache
               (<[Measuring.measuringKey ctx q := r]> (measuringCache w)) w').
Proof.
  intros E. pose proof (measuring_body_untouched ctx q (enter w)) as U.
  unfold Measuring.bufferedDeterminer. rewrite memoize_miss by exact E.
  destruct (Measuring.bufferedDeterminer_body ctx q (enter w))
    as [r w'] eqn:B.
  exists r, w'. simpl in *. repeat split; try apply U.
  destruct U as (_&U2&_). now rewrite U2.
Qed.

(** After a call the cache holds the outcome of that call under its key. *)
Lemma matching_stores ctx (q : MatchingQuestion) (w w1 : World) r :
  Matching.determineMatchingBoundary ctx q w = (r, w1) ->
  matchingCache w1 !! Matching.matchingKey ctx q = Some r.
Proof.
  intros E. destruct (matchingCache w !! Matching.matchingKey ctx q) eqn:C.
  - unfold Matching.determineMatchingBoundary in E.
    rewrite (memoize_hit _ _ _ _ _ _ C) in E. now inversion E; subst.
  - destruct (matching_miss ctx q w C) as (r'&w'&_&_&E').
    rewrite E' in E. inversion E; subst. simpl. apply lookup_insert_eq.
Qed.

Lemma measuring_stores ctx (q : MeasuringQuestion) (w w1 : World) r :
  Measuring.bufferedDeterminer ctx q w = (r, w1) ->
  measuringCache w1 !! Measuring.measuringKey ctx q = Some r.
Proof.
  intros E. destruct (measuringCache w !! Measuring.measuringKey ctx q) eqn:C.
  - unfold Measuring.bufferedDeterminer in E.
    rewrite (memoize_hit _ _ _ _ _ _ C) in E. now inversion E; subst.
  - destruct (measuring_miss ctx q w C) as (r'&w'&_&_&E').
    rewrite E' in E. inversion E; subst. simpl. apply lookup_insert_eq.
Qed.

(** The count of resolutions goes up by one on a miss and stays on a hit. *)
Lemma matching_counts ctx (q : MatchingQuestion) (w : World) :
  resolutions (snd (Matching.determineMatchingBoundary ctx q w)) =
    match matchingCache w !! Matching.matchingKey ctx q with
    | Some _ => resolutions w
    | None => S (resolutions w)
    end.
Proof.
  destruct (matchingCache w !! Matching.matchingKey ctx q) eqn:C.
  - unfold Matching.determineMatchingBoundary.
    now rewrite (memoize_hit _ _ _ _ _ _ C).
  - destruct (matching_miss ctx q w C) as (r'&w'&_&(_&_&U)&E').
    now rewrite E'.
Qed.

Lemma measuring_counts ctx (q : MeasuringQuestion) (w : World) :
  resolutions (snd (Measuring.bufferedDeterminer ctx q w)) =
    match measuringCache w !! Measuring.measuringKey ctx q with
    | Some _ => resolutions w
    | None => S (resolutions w)
    end.
Proof.
  destruct (measuringCache w !! Measuring.measuringKey ctx q) eqn:C.
  - unfold Measuring.bufferedDeterminer.
    now rewrite (memoize_hit _ _ _ _ _ _ C).
  - destruct (measuring_miss ctx q w C) as (r'&w'&_&(_&_&U)&E').
    now rewrite E'.
Qed.

Lemma matching_grows ctx (q : MatchingQuestion) :
  steps grows (Matching.determineMatchingBoundary ctx q).
Proof.
  intros w. destruct (matchingCache w !! Matching.matchingKey ctx q) eqn:C.
  - unfold Matching.determineMatchingBoundary.
    rewrite (memoize_hit _ _ _ _ _ _ C). apply grows_refl.
  - destruct (matching_miss ctx q w C) as (r'&w'&_&(U1&U2&_)&E').
    rewrite E'. simpl. split; simpl.
    + intros k r Hk. rewrite lookup_insert_ne; [exact Hk|]. congruence.
    + intros k r Hk. now rewrite U2.
Qed.

Lemma measuring_grows ctx (q : MeasuringQuestion) :
  steps grows (Measuring.bufferedDeterminer ctx q).
Proof.
  intros w. destruct (measuringCache w !! Measuring.measuringKey ctx q) eqn:C.
  - unfold Measuring.bufferedDeterminer.
    rewrite (memoize_hit _ _ _ _ _ _ C). apply grows_refl.
  - destruct (measuring_miss ctx q w C) as (r'&w'&_&(U1&U2&_)&E').
    rewrite E'. simpl. split; simpl.
    + intros k r Hk. now rewrite U1.
    + intros k r Hk. rewrite lookup_insert_ne; [exact Hk|]. congruence.
Qed.

(** ** Questions without a boundary *)

Lemma matching_body_noBoundary ctx (q : MatchingQuestion) (w : World) :
  matchingNoBoundary (Matching.type q) = true ->
  Matching.determineMatchingBoundary_body ctx q w = (Ok NoBoundary, w).
Proof.
  unfold Matching.determineMatchingBoundary_body.
  destruct (Matching.type q); simpl; intros E; try discriminate E; reflexivity.
Qed.

Lemma measuring_body_noBoundary ctx (q : MeasuringQuestion) (w : World) :
  measuringNoBoundary (Measuring.type q) = true ->
  Measuring.bufferedDeterminer_body ctx q w =
    (match bbox (mapGeoJSON ctx) with
     | Success _ => Ok NoBoundary
     | Failure what => Throw (Foreign what)
     end,
     record (Called OpBBox) w).
Proof.
  unfold Measuring.bufferedDeterminer_body,
    Measuring.determineMeasuringBoundary.
  intros E. unfold bind. rewrite call_run.
  destruct (bbox (mapGeoJSON ctx)); simpl; [|reflexivity].
  destruct (Measuring.type q); simpl in E; try discriminate E; reflexivity.
Qed.

Lemma matching_keeps_sound ctx (q : MatchingQuestion) (w : World) :
  matchingSound w /\ measuringSound w ->
  matchingSound (snd (Matching.determineMatchingBoundary ctx q w))
  /\ measuringSound (snd (Matching.determineMatchingBoundary ctx q w)).
Proof.
  intros [Sm Ss].
  destruct (matchingCache w !! Matching.matchingKey ctx q) eqn:C.
  - unfold Matching.determineMatchingBoundary.
    rewrite (memoize_hit _ _ _ _ _ _ C). now split.
  - destruct (matching_miss ctx q w C) as (r&w'&B&(U1&U2&_)&E).
    rewrite E. simpl. split.
    + intros ctx' q' r0. simpl.
      destruct (decide (Matching.matchingKey ctx q = Matching.matchingKey ctx' q'))
        as [K|K].
      * rewrite <- K, lookup_insert_eq. intros [= <-] N.
        apply matchingKey_type in K. rewrite <- K in N.
        rewrite (matching_body_noBoundary ctx q _ N) in B. congruence.
      * rewrite lookup_insert_ne by exact K. apply Sm.
    + intros ctx' q' r0. simpl. rewrite U2. apply Ss.
Qed.

Lemma measuring_keeps_sound ctx (q : MeasuringQuestion) (w : World) :
  matchingSound w /\ measuringSound w ->
  matchingSound (snd (Measuring.bufferedDeterminer ctx q w))
  /\ measuringSound (snd (Measuring.bufferedDeterminer ctx q w)).
Proof.
  intros [Sm Ss].
  destruct (measuringCache w !! Measuring.measuringKey ctx q) eqn:C.
  - unfold Measuring.bufferedDeterminer.
    rewrite (memoize_hit _ _ _ _ _ _ C). now split.
  - destruct (measuring_miss ctx q w C) as (r&w'&B&(U1&U2&_)&E).
    rewrite E. simpl. split.
    + intros ctx' q' r0. simpl. rewrite U1. apply Sm.
    + intros ctx' q' r0. simpl.
      destruct (decide (Measuring.measuringKey ctx q = Measuring.measuringKey ctx' q'))
        as [K|K].
      * rewrite <- K, lookup_insert_eq. intros [= <-] N.
        apply measuringKey_type in K. rewrite <- K in N.
        rewrite (measuring_body_noBoundary ctx q _ N) in B.
        destruct (bbox (mapGeoJSON ctx)); inversion B; eauto.
      * rewrite lookup_insert_ne by exact K. apply Ss.
Qed.

(** ** Every operation, every later world *)

Section Everywhere.
Variable R : World -> World -> Prop.
Hypothesis R_refl : forall w, R w w.
Hypothesis R_trans : forall a b c, R a b -> R b c -> R a c.
Hypothesis R_record : forall e w, R w (record e w).
Hypothesis R_highSpeed : forall c w, R w (setHighSpeedCache c w).
Hypothesis R_matching :
  forall ctx q, steps R (Matching.determineMatchingBoundary ctx q).
Hypothesis R_measuring :
  forall ctx q, steps R (Measuring.bufferedDeterminer ctx q).

Ltac everywhere := straight R_refl R_trans R_record R_highSpeed.

Lemma adjustPerMatching_steps ctx q mapData :
  steps R (Matching.adjustPerMatching ctx q mapData).
Proof.
  unfold Matching.adjustPerMatching. pose proof (R_matching ctx q).
  everywhere.
Qed.

Lemma adjustPerMeasuring_steps ctx q mapData :
  steps R (Measuring.adjustPerMeasuring ctx q mapData).
Proof.
  unfold Measuring.adjustPerMeasuring. pose proof (R_measuring ctx q).
  everywhere.
Qed.

Lemma matching_containment_steps ctx hider q :
  steps R (Matching.hiderifyByContainment ctx hider q).
Proof.
  unfold Matching.hiderifyByContainment, Matching.candidateFeature,
    Matching.firstAttempt, Matching.retryAttempt.
  pose proof (adjustPerMatching_steps ctx q) as Ha.
  everywhere.
Qed.

Lemma measuring_containment_steps ctx hider q :
  steps R (Measuring.hiderifyByContainment ctx hider q).
Proof.
  unfold Measuring.hiderifyByContainment, Measuring.candidateFeature,
    Measuring.firstAttempt, Measuring.retryAttempt.
  pose proof (adjustPerMeasuring_steps ctx q) as Ha.
  everywhere.
Qed.

Lemma hiderifyMatching_steps ctx q : steps R (Matching.hiderifyMatching ctx q).
Proof.
  unfold Matching.hiderifyMatching.
  destruct (hiderMode ctx) as [hider|]; [|everywhere].
  pose proof (matching_containment_steps ctx hider) as Hc.
  unfold Matching.hiderifyHomeGame, Matching.hiderifyStations,
    Matching.upperInitial, Matching.firstLetterUpper.
  everywhere.
Qed.

Lemma hiderifyMeasuring_steps ctx q :
  steps R (Measuring.hiderifyMeasuring ctx q).
Proof.
  unfold Measuring.hiderifyMeasuring.
  destruct (hiderMode ctx) as [hider|]; [|everywhere].
  pose proof (measuring_containment_steps ctx hider) as Hc.
  unfold Measuring.hiderifyHomeGame, Measuring.hiderifyRail,
    Measuring.hiderifySpecific.
  everywhere.
Qed.

Lemma after_steps (op : Operation) (w : World) : R w (after op w).
Proof.
  destruct op as [ctx q|ctx q|ctx q m|ctx q|ctx q|ctx q|ctx q m|ctx q|ctx q];
    simpl.
  - revert w. change (steps R (Matching.findMatchingPlaces ctx q)).
    unfold Matching.findMatchingPlaces, Matching.fullPlaces. everywhere.
  - apply R_matching.
  - apply adjustPerMatching_steps.
  - apply hiderifyMatching_steps.
  - revert w. change (steps R (Matching.matchingPlanningPolygon ctx q)).
    unfold Matching.matchingPlanningPolygon. pose proof (R_matching ctx q).
    everywhere.
  - revert w. change (steps R (Measuring.determineMeasuringBoundary ctx q)).
    unfold Measuring.determineMeasuringBoundary, Measuring.highSpeedBase,
      Measuring.bboxExtension, Measuring.fullFeatures.
    everywhere.
  - apply adjustPerMeasuring_steps.
  - apply hiderifyMeasuring_steps.
  - revert w. change (steps R (Measuring.measuringPlanningPolygon ctx q)).
    unfold Measuring.measuringPlanningPolygon. pose proof (R_measuring ctx q).
    everywhere.
Qed.

Lemma later_steps (w0 w : World) : later w0 w -> R w0 w.
Proof.
  induction 1 as [|w op _ IH]; [apply R_refl|].
  eapply R_trans; [exact IH | apply after_steps].
Qed.

End Everywhere.

(** Whatever the engine does, the resolver caches only gain entries. *)
Lemma later_grows (w0 w : World) : later w0 w -> grows w0 w.
Proof.
  apply later_steps.
  - apply grows_refl.
  - apply grows_trans.
  - intros e w1. apply untouched_grows, untouched_record.
  - intros c w1. apply untouched_grows, untouched_highSpeed.
  - apply matching_grows.
  - apply measuring_grows.
Qed.

(** From the empty world on, the caches hold [false] for the matching
    questions without a boundary, and [false] or a failure for the measuring
    ones. *)
Lemma later_sound (w : World) :
  later emptyWorld w -> matchingSound w /\ measuringSound w.
Proof.
  intros L.
  refine (later_steps
            (fun a b => matchingSound a /\ measuringSound a ->
                        matchingSound b /\ measuringSound b)
            _ _ _ _ _ _ _ _ L _).
  - auto.
  - auto.
  - intros e w1 S. exact S.
  - intros c w1 S. exact S.
  - intros ctx q w1. apply matching_keeps_sound.
  - intros ctx q w1. apply measuring_keeps_sound.
  - split; intros ctx q r; simpl; rewrite lookup_empty; discriminate.
Qed.

(** ** The provider gates of the category-"full" questions *)

Lemma fullPlaces_matching (l : APILocation) (data : OverpassData) (w : World) :
  Matching.fullPlaces l data w =
    if safetyGate data
    then (Ok [], record (Toast (gateWarning l data)) w)
    else (Ok (map normalize (elements data)), w).
Proof.
  unfold Matching.fullPlaces, safetyGate, gateWarning.
  destruct (runtimeError data); cbn [orb]; [reflexivity|].
  destruct (1000 <=? length (elements data))%nat; reflexivity.
Qed.



(** ** The mask adjustment *)

(** C10.  With a [null] mask both adjustments return [undefined] at once:
    the world is left as it was, so no boundary is resolved and no cache is
    read or written. *)
Theorem adjust_null_mask_undefined
    (ctx : AppContext) (qm : MatchingQuestion) (qs : MeasuringQuestion)
    (w : World) :
  Matching.adjustPerMatching ctx qm JNull w = (Ok JUndefined, w)
  /\ Measuring.adjustPerMeasuring ctx qs JNull w = (Ok JUndefined, w).
Proof. split; reflexivity. Qed.

(** ** Memoization *)

(** Once an outcome is in the cache, every later call with an equal key
    hands it back and leaves the world alone. *)
Lemma matching_replay ctx1 ctx2 (q1 q2 : MatchingQuestion) (w w1 w2 : World) r :
  Matching.matchingKey ctx1 q1 = Matching.matchingKey ctx2 q2 ->
  Matching.determineMatchingBoundary ctx1 q1 w = (r, w1) ->
  later w1 w2 ->
  Matching.determineMatchingBoundary ctx2 q2 w2 = (r, w2).
Proof.
  intros K E L. apply matching_stores in E. apply later_grows in L as [G _].
  apply G in E. rewrite K in E.
  unfold Matching.determineMatchingBoundary. now apply memoize_hit.
Qed.

Lemma measuring_replay ctx1 ctx2 (q1 q2 : MeasuringQuestion) (w w1 w2 : World) r :
  Measuring.measuringKey ctx1 q1 = Measuring.measuringKey ctx2 q2 ->
  Measuring.bufferedDeterminer ctx1 q1 w = (r, w1) ->
  later w1 w2 ->
  Measuring.bufferedDeterminer ctx2 q2 w2 = (r, w2).
Proof.
  intros K E L. apply measuring_stores in E. apply later_grows in L as [_ G].
  apply G in E. rewrite K in E.
  unfold Measuring.bufferedDeterminer. now apply memoize_hit.
Qed.

(** C4.  When two descriptors have the same serialized signature, resolving
    the first enters the resolver body at most once, and resolving the
    second at any later time returns the very outcome of the first without
    entering the body or doing anything else.  This holds for the matching
    resolver and for the measuring one. *)
Theorem equal_signature_resolved_once
    (ctx1 ctx2 : AppContext) (q1 q2 : MatchingQuestion)
    (p1 p2 : MeasuringQuestion) (w : World) :
  Matching.matchingKey ctx1 q1 = Matching.matchingKey ctx2 q2 ->
  Measuring.measuringKey ctx1 p1 = Measuring.measuringKey ctx2 p2 ->
  (forall r w1 w2,
      Matching.determineMatchingBoundary ctx1 q1 w = (r, w1) ->
      later w1 w2 ->
      resolutions w1 <= S (resolutions w)
      /\ Matching.determineMatchingBoundary ctx2 q2 w2 = (r, w2))
  /\
  (forall r w1 w2,
      Measuring.bufferedDeterminer ctx1 p1 w = (r, w1) ->
      later w1 w2 ->
      resolutions w1 <= S (resolutions w)
      /\ Measuring.bufferedDeterminer ctx2 p2 w2 = (r, w2)).
Proof.
  intros Km Ks. split; intros r w1 w2 E L; split.
  - pose proof (matching_counts ctx1 q1 w) as C. rewrite E in C. simpl in C.
    destruct (matchingCache w !! _); lia.
  - eapply matching_replay; eauto.
  - pose proof (measuring_counts ctx1 p1 w) as C. rewrite E in C. simpl in C.
    destruct (measuringCache w !! _); lia.
  - eapply measuring_replay; eauto.
Qed.

(** C9.  A resolution that failed stays failed: at any later time a call
    with an equal key gets the same error back, and the world, hence the
    log of provider requests and toasts, is left exactly as it was. *)
Theorem failed_resolution_stays_cached
    (ctx1 ctx2 : AppContext) (q1 q2 : MatchingQuestion)
    (p1 p2 : MeasuringQuestion) (w w1 w2 : World) (e : JsError) :
  later w1 w2 ->
  (Matching.matchingKey ctx1 q1 = Matching.matchingKey ctx2 q2 ->
   Matching.determineMatchingBoundary ctx1 q1 w = (Throw e, w1) ->
   Matching.determineMatchingBoundary ctx2 q2 w2 = (Throw e, w2))
  /\
  (Measuring.measuringKey ctx1 p1 = Measuring.measuringKey ctx2 p2 ->
   Measuring.bufferedDeterminer ctx1 p1 w = (Throw e, w1) ->
   Measuring.bufferedDeterminer ctx2 p2 w2 = (Throw e, w2)).
Proof.
  intros L. split; intros K E.
  - eapply matching_replay; eauto.
  - eapply measuring_replay; eauto.
Qed.

(** ** Questions without a boundary keep the mask *)

Lemma matching_resolves_false ctx (q : MatchingQuestion) (w : World) :
  matchingSound w ->
  matchingNoBoundary (Matching.type q) = true ->
  exists w',
    Matching.determineMatchingBoundary ctx q w = (Ok NoBoundary, w')
    /\ log w' = log w.
Proof.
  intros S N. destruct (matchingCache w !! Matching.matchingKey ctx q) eqn:C.
  - exists w. split; [|reflexivity].
    unfold Matching.determineMatchingBoundary.
    rewrite (memoize_hit _ _ _ _ _ _ C). f_equal. eapply S; eauto.
  - destruct (matching_miss ctx q w C) as (r&w'&B&_&E).
    rewrite (matching_body_noBoundary ctx q _ N) in B. inversion B; subst.
    eexists. split; [exact E|reflexivity].
Qed.

Lemma measuring_resolves_false ctx (q : MeasuringQuestion) (w : World) box :
  measuringSound w ->
  measuringNoBoundary (Measuring.type q) = true ->
  bbox (mapGeoJSON ctx) = Success box ->
  (forall e,
      measuringCache w !! Measuring.measuringKey ctx q <> Some (Throw e)) ->
  exists w',
    Measuring.bufferedDeterminer ctx q w = (Ok NoBoundary, w')
    /\ (log w' = log w \/ log w' = Called OpBBox :: log w).
Proof.
  intros S N Bx F.
  destruct (measuringCache w !! Measuring.measuringKey ctx q) eqn:C.
  - exists w. split; [|now left].
    unfold Measuring.bufferedDeterminer.
    rewrite (memoize_hit _ _ _ _ _ _ C). f_equal.
    destruct (S ctx q o C N) as [->|[e ->]]; [reflexivity|].
    now destruct (F e).
  - destruct (measuring_miss ctx q w C) as (r&w'&B&_&E).
    rewrite (measuring_body_noBoundary ctx q _ N), Bx in B.
    inversion B; subst. eexists. split; [exact E|now right].
Qed.

(** C5 (amended).  In any world the engine can reach, a matching question
    of a no-boundary subtype resolves to [false], and adjusting a mask by it
    returns that mask with no effect at all.  A measuring question of a
    no-boundary subtype does the same, its one effect being the read of the
    map's bounding box, provided that read succeeds and no failed
    resolution is cached for the question. *)
Theorem no_boundary_keeps_mask
    (ctx : AppContext) (q : MatchingQuestion) (p : MeasuringQuestion)
    (mask : GeoJSON) (w : World) :
  later emptyWorld w ->
  (matchingNoBoundary (Matching.type q) = true ->
   exists w',
     Matching.determineMatchingBoundary ctx q w = (Ok NoBoundary, w')
     /\ Matching.adjustPerMatching ctx q (JVal mask) w = (Ok (JVal mask), w')
     /\ log w' = log w)
  /\
  (forall box,
      measuringNoBoundary (Measuring.type p) = true ->
      bbox (mapGeoJSON ctx) = Success box ->
      (forall e,
          measuringCache w !! Measuring.measuringKey ctx p <> Some (Throw e)) ->
      exists w',
        Measuring.bufferedDeterminer ctx p w = (Ok NoBoundary, w')
        /\ Measuring.adjustPerMeasuring ctx p (JVal mask) w
           = (Ok (JVal mask), w')
        /\ (log w' = log w \/ log w' = Called OpBBox :: log w)).
Proof.
  intros L. destruct (later_sound w L) as [Sm Ss]. split.
  - intros Nq.
    destruct (matching_resolves_false ctx q w Sm Nq) as (w'&E&Lg).
    exists w'. repeat split; try assumption.
    unfold Matching.adjustPerMatching. now rewrite (bind_ok _ _ _ _ _ E).
  - intros box Np Bx F.
    destruct (measuring_resolves_false ctx p w box Ss Np Bx F) as (w'&E&Lg).
    exists w'. repeat split; try assumption.
    unfold Measuring.adjustPerMeasuring. now rewrite (bind_ok _ _ _ _ _ E).
Qed.

(** ** The boundary-containment strategy *)

Lemma matching_candidate_run ctx (q : MatchingQuestion) map (w : World) :
  Matching.candidateFeature ctx q map w =
    match Matching.firstAttempt ctx q map w with
    | (Ok f, w1) => (Ok (Some f), w1)
    | (Throw _, w1) =>
        match Matching.retryAttempt ctx q map w1 with
        | (Ok f, w2) => (Ok (Some f), w2)
        | (Throw _, w2) => (Ok None, w2)
        end
    end.
Proof.
  unfold Matching.candidateFeature, tryCatch, bind.
  destruct (Matching.firstAttempt ctx q map w) as [[f|e] w1]; [reflexivity|].
  now destruct (Matching.retryAttempt ctx q map w1) as [[f|e2] w2].
Qed.

Lemma measuring_candidate_run ctx (q : MeasuringQuestion) map (w : World) :
  Measuring.candidateFeature ctx q map w =
    match Measuring.firstAttempt ctx q map w with
    | (Ok f, w1) => (Ok (Some f), w1)
    | (Throw _, w1) =>
        match Measuring.retryAttempt ctx q map w1 with
        | (Ok f, w2) => (Ok (Some f), w2)
        | (Throw _, w2) => (Ok None, w2)
        end
    end.
Proof.
  unfold Measuring.candidateFeature, tryCatch, bind.
  destruct (Measuring.firstAttempt ctx q map w) as [[f|e] w1]; [reflexivity|].
  now destruct (Measuring.retryAttempt ctx q map w1) as [[f|e2] w2].
Qed.

Lemma candidate_never_throws_matching ctx (q : MatchingQuestion) map (w : World) :
  exists c, fst (Matching.candidateFeature ctx q map w) = Ok c.
Proof.
  rewrite matching_candidate_run.
  destruct (Matching.firstAttempt ctx q map w) as [[f|e] w1]; [eauto|].
  destruct (Matching.retryAttempt ctx q map w1) as [[f|e2] w2]; eauto.
Qed.

Lemma candidate_never_throws_measuring ctx (q : MeasuringQuestion) map (w : World) :
  exists c, fst (Measuring.candidateFeature ctx q map w) = Ok c.
Proof.
  rewrite measuring_candidate_run.
  destruct (Measuring.firstAttempt ctx q map w) as [[f|e] w1]; [eauto|].
  destruct (Measuring.retryAttempt ctx q map w1) as [[f|e2] w2]; eauto.
Qed.

Lemma matching_containment_run ctx hider (q : MatchingQuestion) map (w : World) :
  mapGeoJSON ctx = Some map ->
  Matching.hiderifyByContainment ctx hider q w =
    (matchingVerdict hider q (fst (Matching.candidateFeature ctx q map w)),
     snd (Matching.candidateFeature ctx q map w)).
Proof.
  intros Hm.
  unfold Matching.hiderifyByContainment, matchingVerdict, hiderInside.
  rewrite Hm.
  destruct (candidate_never_throws_matching ctx q map w) as [c Hc].
  unfold bind. destruct (Matching.candidateFeature ctx q map w) as [r w'].
  cbn [fst snd] in *. subst r. destruct c as [[| |f]|]; try reflexivity.
  rewrite eval_run.
  destruct (turfPoint _ _) as [hiderPoint|what]; cbn [settle]; [|reflexivity].
  rewrite eval_run.
  now destruct (booleanPointInPolygon hiderPoint f) as [[|]|what].
Qed.

Lemma measuring_containment_run ctx hider (q : MeasuringQuestion) map (w : World) :
  mapGeoJSON ctx = Some map ->
  Measuring.hiderifyByContainment ctx hider q w =
    (measuringVerdict hider q (fst (Measuring.candidateFeature ctx q map w)),
     snd (Measuring.candidateFeature ctx q map w)).
Proof.
  intros Hm.
  unfold Measuring.hiderifyByContainment, measuringVerdict, hiderInside.
  rewrite Hm.
  destruct (candidate_never_throws_measuring ctx q map w) as [c Hc].
  unfold bind. destruct (Measuring.candidateFeature ctx q map w) as [r w'].
  cbn [fst snd] in *. subst r. destruct c as [[| |f]|]; try reflexivity.
  rewrite eval_run.
  destruct (turfPoint _ _) as [hiderPoint|what]; cbn [settle]; [|reflexivity].
  rewrite eval_run.
  now destruct (booleanPointInPolygon hiderPoint f) as [[|]|what].
Qed.

(** The subtypes that go straight to the boundary-containment strategy. *)
Lemma hiderifyMatching_containment ctx hider (q : MatchingQuestion) :
  hiderMode ctx = Some hider ->
  matchingNoBoundary (Matching.type q) = false ->
  Matching.hiderifyMatching ctx q = Matching.hiderifyByContainment ctx hider q.
Proof.
  intros Hh N. unfold Matching.hiderifyMatching. rewrite Hh.
  destruct (Matching.type q); simpl in N; try discriminate N; reflexivity.
Qed.

Lemma hiderifyMeasuring_containment ctx hider (q : MeasuringQuestion) :
  hiderMode ctx = Some hider ->
  measuringNoBoundary (Measuring.type q) = false ->
  Measuring.hiderifyMeasuring ctx q
  = Measuring.hiderifyByContainment ctx hider q.
Proof.
  intros Hh N. unfold Measuring.hiderifyMeasuring. rewrite Hh.
  destruct (Measuring.type q); simpl in N; try discriminate N; reflexivity.
Qed.

(** C3.  Let the first attempt of the boundary-containment strategy (adjust
    the map, then take the holed mask) throw.  Exactly one retry follows,
    from the world the failure left: it takes the holed mask of the map,
    wraps it as the one feature of a collection and adjusts that.  The run
    ends in the world this retry leaves.  When the retry throws too, the
    descriptor comes back as it was and nothing is raised; when the retry
    succeeds, its result is the candidate the hider's point is tested
    against.  This holds for [hiderifyMatching] and [hiderifyMeasuring]
    alike, which in hider mode are this strategy for every subtype that has
    a boundary. *)
Theorem retry_once_then_unanswered
    (ctx : AppContext) (hider : HiderMode) (map : GeoJSON)
    (q : MatchingQuestion) (p : MeasuringQuestion) (w : World) :
  mapGeoJSON ctx = Some map ->
  (forall e w1,
      Matching.firstAttempt ctx q map w = (Throw e, w1) ->
      Matching.retryAttempt ctx q map w1 =
        match holedMask (JVal map) with
        | Success inverse =>
            Matching.adjustPerMatching ctx q
              (JVal (featureCollection [inverse]))
              (record (Called OpHoledMask) w1)
        | Failure what =>
            (Throw (Foreign what), record (Called OpHoledMask) w1)
        end
      /\ snd (Matching.hiderifyByContainment ctx hider q w)
         = snd (Matching.retryAttempt ctx q map w1)
      /\ (forall e2 w2,
             Matching.retryAttempt ctx q map w1 = (Throw e2, w2) ->
             Matching.hiderifyByContainment ctx hider q w = (Ok q, w2))
      /\ (forall f w2,
             Matching.retryAttempt ctx q map w1 = (Ok f, w2) ->
             Matching.hiderifyByContainment ctx hider q w
             = (matchingVerdict hider q (Ok (Some f)), w2)))
  /\
  (forall e w1,
      Measuring.firstAttempt ctx p map w = (Throw e, w1) ->
      Measuring.retryAttempt ctx p map w1 =
        match holedMask (JVal map) with
        | Success inverse =>
            Measuring.adjustPerMeasuring ctx p
              (JVal (featureCollection [inverse]))
              (record (Called OpHoledMask) w1)
        | Failure what =>
            (Throw (Foreign what), record (Called OpHoledMask) w1)
        end
      /\ snd (Measuring.hiderifyByContainment ctx hider p w)
         = snd (Measuring.retryAttempt ctx p map w1)
      /\ (forall e2 w2,
             Measuring.retryAttempt ctx p map w1 = (Throw e2, w2) ->
             Measuring.hiderifyByContainment ctx hider p w = (Ok p, w2))
      /\ (forall f w2,
             Measuring.retryAttempt ctx p map w1 = (Ok f, w2) ->
             Measuring.hiderifyByContainment ctx hider p w
             = (measuringVerdict hider p (Ok (Some f)), w2)))
  /\
  (hiderMode ctx = Some hider ->
   (matchingNoBoundary (Matching.type q) = false ->
    Matching.hiderifyMatching ctx q
    = Matching.hiderifyByContainment ctx hider q)
   /\ (measuringNoBoundary (Measuring.type p) = false ->
       Measuring.hiderifyMeasuring ctx p
       = Measuring.hiderifyByContainment ctx hider p)).
Proof.
  intros Hm. split; [|split]; [intros e w1 F | intros e w1 F |].
  3: { intros Hh. split; intros N.
       - now apply hiderifyMatching_containment.
       - now apply hiderifyMeasuring_containment. }
  - rewrite (matching_containment_run ctx hider q map w Hm).
    rewrite matching_candidate_run, F. repeat split.
    + unfold Matching.retryAttempt, bind. rewrite call_run.
      now destruct (holedMask (JVal map)).
    + now destruct (Matching.retryAttempt ctx q map w1) as [[f|e2] w2].
    + intros e2 w2 E. now rewrite E.
    + intros f w2 E. now rewrite E.
  - rewrite (measuring_containment_run ctx hider p map w Hm).
    rewrite measuring_candidate_run, F. repeat split.
    + unfold Measuring.retryAttempt, bind. rewrite call_run.
      now destruct (holedMask (JVal map)).
    + now destruct (Measuring.retryAttempt ctx p map w1) as [[f|e2] w2].
    + intros e2 w2 E. now rewrite E.
    + intros f w2 E. now rewrite E.
Qed.

(** C1 (amended).  The boundary-containment strategy negates the polarity
    field ([same], [hiderCloser]) exactly when the hider's point lies inside
    its candidate feature, and otherwise returns the descriptor as it came.
    The candidate is the holed mask of the adjusted map when that first
    attempt succeeds; when it throws, the candidate is the adjustment of the
    wrapped holed mask of the map, if that succeeds, and there is none if it
    throws as well.  With a candidate, the hider's point is built and
    tested outside any handler: when a hider coordinate is not a number, or
    the test throws, that error is the result.  Hence, from the same
    descriptor and world, a hider found inside the candidate and a hider
    found outside it end with opposite polarities.  In hider mode
    [hiderifyMatching] and [hiderifyMeasuring] are this strategy for every
    subtype that has a boundary. *)
Theorem self_correction_flips_inside_candidate
    (ctx : AppContext) (map : GeoJSON)
    (q : MatchingQuestion) (p : MeasuringQuestion) (w : World) :
  mapGeoJSON ctx = Some map ->
  let cm := fst (Matching.candidateFeature ctx q map w) in
  let cs := fst (Measuring.candidateFeature ctx p map w) in
  (cm = match Matching.firstAttempt ctx q map w with
        | (Ok f, _) => Ok (Some f)
        | (Throw _, w1) =>
            match Matching.retryAttempt ctx q map w1 with
            | (Ok f, _) => Ok (Some f)
            | (Throw _, _) => Ok None
            end
        end)
  /\ (forall hider,
         fst (Matching.hiderifyByContainment ctx hider q w)
         = match hiderInside hider cm with
           | Ok true => Ok (Matching.setSame q (negb (Matching.same q)))
           | Ok false => Ok q
           | Throw e => Throw e
           end)
  /\ (forall h1 h2,
         hiderInside h1 cm = Ok true -> hiderInside h2 cm = Ok false ->
         exists a b,
           fst (Matching.hiderifyByContainment ctx h1 q w) = Ok a
           /\ fst (Matching.hiderifyByContainment ctx h2 q w) = Ok b
           /\ Matching.same a = negb (Matching.same q)
           /\ Matching.same b = Matching.same q)
  /\ (cs = match Measuring.firstAttempt ctx p map w with
           | (Ok f, _) => Ok (Some f)
           | (Throw _, w1) =>
               match Measuring.retryAttempt ctx p map w1 with
               | (Ok f, _) => Ok (Some f)
               | (Throw _, _) => Ok None
               end
           end)
  /\ (forall hider,
         fst (Measuring.hiderifyByContainment ctx hider p w)
         = match hiderInside hider cs with
           | Ok true =>
               Ok (Measuring.setHiderCloser p (negb (Measuring.hiderCloser p)))
           | Ok false => Ok p
           | Throw e => Throw e
           end)
  /\ (forall h1 h2,
         hiderInside h1 cs = Ok true -> hiderInside h2 cs = Ok false ->
         exists a b,
           fst (Measuring.hiderifyByContainment ctx h1 p w) = Ok a
           /\ fst (Measuring.hiderifyByContainment ctx h2 p w) = Ok b
           /\ Measuring.hiderCloser a = negb (Measuring.hiderCloser p)
           /\ Measuring.hiderCloser b = Measuring.hiderCloser p)
  /\ (forall hider,
         hiderMode ctx = Some hider ->
         (matchingNoBoundary (Matching.type q) = false ->
          Matching.hiderifyMatching ctx q
          = Matching.hiderifyByContainment ctx hider q)
         /\ (measuringNoBoundary (Measuring.type p) = false ->
             Measuring.hiderifyMeasuring ctx p
             = Measuring.hiderifyByContainment ctx hider p)).
Proof.
  intros Hm cm cs.
  split; [|split; [|split; [|split; [|split; [|split]]]]].
  7: { intros hider Hh. split; intros N.
       - now apply hiderifyMatching_containment.
       - now apply hiderifyMeasuring_containment. }
  - unfold cm. rewrite matching_candidate_run.
    destruct (Matching.firstAttempt ctx q map w) as [[f|e] w1]; [reflexivity|].
    now destruct (Matching.retryAttempt ctx q map w1) as [[f|e2] w2].
  - intros hider. now rewrite (matching_containment_run ctx hider q map w Hm).
  - intros h1 h2 I1 I2.
    rewrite (matching_containment_run ctx h1 q map w Hm).
    rewrite (matching_containment_run ctx h2 q map w Hm).
    unfold matchingVerdict. fold cm. rewrite I1, I2. simpl.
    eexists. eexists. repeat split.
  - unfold cs. rewrite measuring_candidate_run.
    destruct (Measuring.firstAttempt ctx p map w) as [[f|e] w1]; [reflexivity|].
    now destruct (Measuring.retryAttempt ctx p map w1) as [[f|e2] w2].
  - intros hider. now rewrite (measuring_containment_run ctx hider p map w Hm).
  - intros h1 h2 I1 I2.
    rewrite (measuring_containment_run ctx h1 p map w Hm).
    rewrite (measuring_containment_run ctx h2 p map w Hm).
    unfold measuringVerdict. fold cs. rewrite I1, I2. simpl.
    eexists. eexists. repeat split.
Qed.

(** ** Letter zones *)

Lemma letterZoneName_run (z : OsmFeature GeoJSON) (w : World) :
  Matching.letterZoneName z w =
    if truthy (f_name_en z)
    then (match f_name_en z with Some n => Ok n | None => Ok [] end, w)
    else
      match f_name z with
      | None => (Throw (TypeError "name is undefined"), w)
      | Some n =>
          if testSingleLetter (js_first n) then (Ok n, w)
          else (Throw (Error "No English name"),
                record (Toast "No English name found for this zone") w)
      end.
Proof.
  unfold Matching.letterZoneName.
  destruct (f_name_en z) as [[|c rest]|]; simpl; try reflexivity;
    destruct (f_name z) as [n|]; try reflexivity;
    destruct (testSingleLetter (js_first n)); reflexivity.
Qed.

(** With a name that has a first unit, the zones are asked for under the
    upper-cased unit, and whatever fails afterwards fails inside a
    collaborator. *)
Lemma letterZoneUnion_run ctx level (name : jsstring) (u : N) (w w' : World) r :
  js_first name = Some u ->
  Matching.letterZoneUnion ctx level name w = (r, w') ->
  (forall msg, r <> Throw (Error msg))
  /\ In (Fetched (ReqPlacesInZone (QLetterZones level (toUpperCaseUnit u))))
        (log w').
Proof.
  intros Hu. unfold Matching.letterZoneUnion, Matching.firstLetterUpper.
  rewrite Hu. unfold bind, ret, fetch, call. cbv beta iota.
  destruct (findPlacesInZone _ ctx _) as [data|x]; cbn [settle].
  2: { intros [= <- <-]. split; [congruence | now left]. }
  destruct (osmtogeojson data) as [features|x]; cbn [settle].
  2: { intros [= <- <-]. split; [congruence | simpl; auto]. }
  destruct (simplifyZones _) as [simplified|x]; cbn [settle].
  2: { intros [= <- <-]. split; [congruence | simpl; auto]. }
  destruct (safeUnion simplified) as [b|x]; cbn [settle];
    intros [= <- <-]; (split; [congruence | simpl; auto]).
Qed.

Lemma groupingName_first (z : OsmFeature GeoJSON) (name : jsstring) :
  groupingName z = Some name -> exists u, js_first name = Some u.
Proof.
  unfold groupingName.
  destruct (f_name_en z) as [[|c rest]|]; simpl.
  2: { intros [= <-]. simpl. eauto. }
  all: destruct (f_name z) as [n|]; try discriminate;
    destruct (testSingleLetter (js_first n)) eqn:Tn; try discriminate;
    intros [= <-]; destruct n; simpl in *; [discriminate Tn|eauto].
Qed.

(** C6 (amended).  On the first resolution of a letter-zone question whose
    administrative boundary is found, the resolver raises "No English name"
    if and only if the boundary's English name is missing or empty and its
    native name is present and does not start with an ASCII letter.  When
    there is a grouping name (the non-empty English name, else the native
    name starting with an ASCII letter), the zones are asked for under its
    first character in upper case. *)
Theorem letter_zone_no_english_name ctx (q : MatchingQuestion) (c : Matching.Category)
    (z : OsmFeature GeoJSON) (w : World) :
  Matching.type q = Matching.letter_zone ->
  Matching.cat q = Some c ->
  matchingCache w !! Matching.matchingKey ctx q = None ->
  findAdminBoundary (length (log w)) ctx (Matching.lat q) (Matching.lng q)
    (Matching.adminLevel c) = Success (Some z) ->
  let run := Matching.determineMatchingBoundary ctx q w in
  (fst run = Throw (Error "No English name") <->
   truthy (f_name_en z) = false
   /\ exists n, f_name z = Some n /\ testSingleLetter (js_first n) = false)
  /\ (forall name,
         groupingName z = Some name ->
         exists u,
           js_first name = Some u
           /\ In (Fetched (ReqPlacesInZone
                    (QLetterZones (Matching.adminLevel c) (toUpperCaseUnit u))))
                 (log (snd run))).
Proof.
  intros T C Miss F run.
  destruct (matching_miss ctx q w Miss) as (r&w'&B&_&E).
  unfold run. rewrite E. simpl fst. simpl snd.
  change (log (setMatchingCache _ w')) with (log w').
  unfold Matching.determineMatchingBoundary_body in B. rewrite T in B.
  unfold Matching.adminLevelOf in B. rewrite C in B.
  unfold bind at 1 in B. unfold ret at 1 in B.
  unfold bind at 1 in B. rewrite fetch_run in B.
  change (length (log (enter w))) with (length (log w)) in B. rewrite F in B.
  simpl settle in B.
  unfold bind at 1 in B. rewrite letterZoneName_run in B.
  unfold groupingName.
  set (w0 := record _ (enter w)) in B.
  assert (Tail : forall name u, js_first name = Some u ->
            bind (Matching.letterZoneUnion ctx (Matching.adminLevel c) name)
                 (fun b => ret (Resolved (JVal b))) w0 = (r, w') ->
            r <> Throw (Error "No English name")
            /\ In (Fetched (ReqPlacesInZone
                     (QLetterZones (Matching.adminLevel c) (toUpperCaseUnit u))))
                  (log w')).
  { intros name u Hu. unfold bind.
    destruct (Matching.letterZoneUnion ctx (Matching.adminLevel c) name w0)
      as [[b|e] w1] eqn:U;
      destruct (letterZoneUnion_run ctx _ name u w0 _ _ Hu U) as [NE IN];
      simpl in *; intros [= <- <-]; split; auto.
    congruence. }
  destruct (truthy (f_name_en z)) eqn:TE.
  - destruct (f_name_en z) as [[|u rest]|]; try discriminate TE.
    destruct (Tail (u :: rest) u eq_refl B) as [NE IN]. split.
    + split; [intros X; now destruct NE | intros [X _]; discriminate X].
    + intros name [= <-]. eauto.
  - destruct (f_name z) as [n|].
    + destruct (testSingleLetter (js_first n)) eqn:Tn.
      * destruct n as [|u rest]; [discriminate Tn|].
        destruct (Tail (u :: rest) u eq_refl B) as [NE IN]. split.
        -- split; [intros X; now destruct NE|].
           intros [_ (n'&[= <-]&X)]. congruence.
        -- intros name [= <-]. eauto.
      * inversion B; subst. split.
        -- split; [eauto | reflexivity].
        -- discriminate.
    + inversion B; subst. split.
      * split; [discriminate | intros [_ (n'&X&_)]; discriminate X].
      * discriminate.
Qed.

(** ** The nearest-feature strategies *)

(** The stations are fetched and the two nearest ones found; what follows
    depends on the names only. *)
Lemma stations_found
    (ctx : AppContext) (hider : HiderMode) (q : MatchingQuestion) (w : World)
    (data : OverpassData) (places : list (OsmFeature GeoJSON))
    (hiderPoint seekerPoint : Position) (nh ns : OsmFeature GeoJSON) :
  turfPoint (longitude hider) (latitude hider) = Success hiderPoint ->
  turfPoint (Matching.lng q) (Matching.lat q) = Success seekerPoint ->
  findPlacesInZone (length (log w)) ctx QRailwayStations = Success data ->
  osmtogeojson data = Success places ->
  nearestStation hiderPoint places = Success nh ->
  nearestStation seekerPoint places = Success ns ->
  Matching.type q <> Matching.same_train_line ->
  fst (Matching.hiderifyStations ctx hider q w) =
    let hiderName := js_or (f_name_en nh) (f_name nh) in
    let seekerName := js_or (f_name_en ns) (f_name ns) in
    if negb (truthy hiderName) || negb (truthy seekerName) then Ok q
    else
      match Matching.type q with
      | Matching.same_first_letter_station =>
          match hiderName, seekerName with
          | Some (h0 :: _), Some (s0 :: _) =>
              Ok (Matching.setSame q
                    (bool_decide (toUpperCaseUnit h0 = toUpperCaseUnit s0)))
          | _, _ => Ok q
          end
      | Matching.same_length_station =>
          Ok (Matching.setLengthComparison q
                (Matching.compareLengths hiderName seekerName))
      | _ => Ok q
      end.
Proof.
  intros Ph Ps F O Nh Ns T. unfold Matching.hiderifyStations.
  unfold bind, ret, fetch, call, eval, lift. cbv beta iota.
  rewrite Ph. cbn [settle]. rewrite Ps. cbn [settle].
  rewrite F. cbn [settle]. rewrite O. cbn [settle].
  rewrite Nh. cbn [settle]. rewrite Ns. cbn [settle].
  destruct (Matching.type q) eqn:Tq; try contradiction; cbv beta iota;
    rewrite ?Tq;
    destruct (js_or (f_name_en nh) (f_name nh)) as [[|h0 hr]|];
    destruct (js_or (f_name_en ns) (f_name ns)) as [[|s0 sr]|];
    reflexivity.
Qed.

Lemma usableName_js_or (station : OsmFeature GeoJSON) (n : jsstring) :
  usableName station n ->
  js_or (f_name_en station) (f_name station) = Some n /\ truthy (Some n) = true.
Proof.
  intros [m E Ne|m [E|E] En Ne]; unfold js_or; rewrite E;
    destruct m as [|c rest]; try contradiction; simpl; auto.
Qed.

(** C8.  In hider mode, for a same-length-station question whose two
    nearest stations both have a usable name (the English name when it is
    not empty, else the native one), the descriptor comes back with
    [lengthComparison] set to "same" when the two names have the same
    number of code units, to "shorter" when the hider's has strictly fewer,
    and to "longer" otherwise; [same] and the rest of the descriptor are as
    they were. *)
Theorem same_length_station_comparison
    (ctx : AppContext) (hider : HiderMode) (q : MatchingQuestion) (w : World)
    (data : OverpassData) (places : list (OsmFeature GeoJSON))
    (hiderPoint seekerPoint : Position)
    (nh ns : OsmFeature GeoJSON) (hn sn : jsstring) :
  hiderMode ctx = Some hider ->
  Matching.type q = Matching.same_length_station ->
  turfPoint (longitude hider) (latitude hider) = Success hiderPoint ->
  turfPoint (Matching.lng q) (Matching.lat q) = Success seekerPoint ->
  findPlacesInZone (length (log w)) ctx QRailwayStations = Success data ->
  osmtogeojson data = Success places ->
  nearestStation hiderPoint places = Success nh ->
  nearestStation seekerPoint places = Success ns ->
  usableName nh hn ->
  usableName ns sn ->
  exists q',
    fst (Matching.hiderifyMatching ctx q w) = Ok q'
    /\ (length hn = length sn ->
        Matching.lengthComparison q' = Some Matching.Same)
    /\ (length hn < length sn ->
        Matching.lengthComparison q' = Some Matching.Shorter)
    /\ (length sn < length hn ->
        Matching.lengthComparison q' = Some Matching.Longer)
    /\ Matching.same q' = Matching.same q
    /\ sameMatchingSubject q q'.
Proof.
  intros Hh T Ph Ps F O Nh Ns Uh Us.
  destruct (usableName_js_or nh hn Uh) as [Eh Th].
  destruct (usableName_js_or ns sn Us) as [Es Ts].
  unfold Matching.hiderifyMatching. rewrite Hh, T.
  rewrite (stations_found ctx hider q w data places _ _ nh ns Ph Ps F O Nh Ns)
    by (rewrite T; discriminate).
  cbv zeta. rewrite Eh, Es, Th, Ts, T. cbn [negb orb].
  eexists. split; [reflexivity|].
  cbn [Matching.lengthComparison Matching.same Matching.setLengthComparison].
  unfold Matching.compareLengths, Matching.nameLength, js_length.
  destruct (Nat.eqb_spec (length hn) (length sn)) as [E|E];
    [|destruct (Nat.ltb_spec (length hn) (length sn)) as [L|L]];
    repeat split; intros; try reflexivity; lia.
Qed.

(** The home-game categories and the two chains: the outcome is the strict
    comparison of the two nearest-feature distances. *)
Lemma homeGame_hiderCloser
    (ctx : AppContext) (hider : HiderMode) (l : APILocation)
    (q : MeasuringQuestion) (w : World) (qn hn : NearestFeature) :
  hiderMode ctx = Some hider ->
  Measuring.type q = Measuring.HomeGame l ->
  nearestToQuestion (length (log w)) ctx l (Measuring.lat q) (Measuring.lng q)
    = Success qn ->
  nearestToQuestion (S (length (log w))) ctx l (latitude hider)
    (longitude hider) = Success hn ->
  fst (Measuring.hiderifyMeasuring ctx q w) =
    Ok (Measuring.setHiderCloser q
          (js_lt (nf_distanceToPoint hn) (nf_distanceToPoint qn))).
Proof.
  intros Hh T Fq Fh. unfold Measuring.hiderifyMeasuring. rewrite Hh, T.
  unfold Measuring.hiderifyHomeGame, bind, ret, fetch. cbv beta iota.
  rewrite Fq. cbn [settle log record length]. rewrite Fh. reflexivity.
Qed.

Lemma specific_hiderCloser
    (ctx : AppContext) (hider : HiderMode) (which : SpecificLocation)
    (q : MeasuringQuestion) (w : World) (points : list Position)
    (seeker hiderPoint nearest hiderNearest : Position) :
  hiderMode ctx = Some hider ->
  Measuring.type q
    = match which with
      | McDonalds => Measuring.mcdonalds
      | Seven11 => Measuring.seven11
      end ->
  findPlacesSpecificInZone (length (log w)) ctx which = Success points ->
  turfPoint (Measuring.lng q) (Measuring.lat q) = Success seeker ->
  nearestPoint seeker points = Success nearest ->
  turfPoint (longitude hider) (latitude hider) = Success hiderPoint ->
  nearestPoint hiderPoint points = Success hiderNearest ->
  fst (Measuring.hiderifyMeasuring ctx q w) =
    Ok (Measuring.setHiderCloser q
          (js_lt (distance hiderPoint hiderNearest Miles)
                 (distance seeker nearest Miles))).
Proof.
  intros Hh T F Ps Ns Ph Nh. unfold Measuring.hiderifyMeasuring. rewrite Hh, T.
  destruct which;
    unfold Measuring.hiderifySpecific, bind, ret, fetch, call, eval, lift;
    cbv beta iota; rewrite F; cbn [settle]; rewrite Ps; cbn [settle];
    rewrite Ns; cbn [settle]; rewrite Ph; cbn [settle]; rewrite Nh;
    reflexivity.
Qed.

(** The rail case sets the same comparison and then runs on into the
    boundary-containment strategy with it. *)
Lemma rail_runs_on
    (ctx : AppContext) (hider : HiderMode) (q : MeasuringQuestion) (w : World)
    (location hiderPoint nearest hiderNearest : Position) :
  hiderMode ctx = Some hider ->
  Measuring.type q = Measuring.rail_measure ->
  trainStations ctx <> [] ->
  turfPoint (Measuring.lng q) (Measuring.lat q) = Success location ->
  nearestPoint location (trainStations ctx) = Success nearest ->
  turfPoint (longitude hider) (latitude hider) = Success hiderPoint ->
  nearestPoint hiderPoint (trainStations ctx) = Success hiderNearest ->
  Measuring.hiderifyMeasuring ctx q w =
    Measuring.hiderifyByContainment ctx hider
      (Measuring.setHiderCloser q
         (js_lt (distance hiderPoint hiderNearest Kilometers)
                (distance location nearest Kilometers)))
      (record (Called OpNearestPoint) (record (Called OpNearestPoint) w)).
Proof.
  intros Hh T St Pl Ns Ph Nh. unfold Measuring.hiderifyMeasuring. rewrite Hh, T.
  unfold Measuring.hiderifyRail.
  destruct (trainStations ctx) as [|s0 rest]; [contradiction|].
  unfold bind at 1. rewrite eval_run, Pl. cbn [settle].
  unfold bind at 1. rewrite call_run, Ns. cbn [settle].
  unfold bind at 1. rewrite eval_run, Ph. cbn [settle].
  unfold bind at 1. rewrite call_run, Nh. reflexivity.
Qed.

(** A number is never strictly below itself: ties give [false]. *)
Lemma js_lt_irrefl (x : float) : js_lt x x = false.
Proof.
  unfold js_lt. rewrite ltb_spec. unfold SFltb, SFcompare.
  destruct (Prim2SF x) as [s|s| |s m e]; try reflexivity.
  - now destruct s.
  - destruct s; rewrite Z.compare_refl, Pos.compare_refl; reflexivity.
Qed.

End Claims.

(** * Further properties of the two files *)

(** ** Deduplication by airport code *)





Section Further.
Context {RT : JsRuntime} {GeoJSON : Type}.
Context {TF : Turf GeoJSON} {GU : GeoUtils GeoJSON} {API : MapsApi GeoJSON}.
Local Abbreviation M := (M GeoJSON).
Local Abbreviation World := (World GeoJSON).
Local Abbreviation Boundary := (Boundary GeoJSON).
Local Abbreviation AppContext := (AppContext GeoJSON).
Local Abbreviation MatchingQuestion := (Matching.Question GeoJSON).
Local Abbreviation MeasuringQuestion := (Measuring.Question GeoJSON).



(** X3.  The planning-polygon exporters never raise: they return a line or
    [false].  They return [false] when the resolver has no boundary for the
    question and when it fails. *)
Theorem planning_polygon_never_raises
    (ctx : AppContext) (qm : MatchingQuestion) (qs : MeasuringQuestion)
    (w : World) :
  (exists line, fst (Matching.matchingPlanningPolygon ctx qm w) = Ok line)
  /\ (forall r w1,
         Matching.determineMatchingBoundary ctx qm w = (r, w1) ->
         (r = Ok NoBoundary \/ exists e, r = Throw e) ->
         Matching.matchingPlanningPolygon ctx qm w = (Ok None, w1))
  /\ (exists line, fst (Measuring.measuringPlanningPolygon ctx qs w) = Ok line)
  /\ (forall r w1,
         Measuring.bufferedDeterminer ctx qs w = (r, w1) ->
         (r = Ok NoBoundary \/ exists e, r = Throw e) ->
         Measuring.measuringPlanningPolygon ctx qs w = (Ok None, w1)).
Proof.
  unfold Matching.matchingPlanningPolygon, Measuring.measuringPlanningPolygon.
  unfold tryCatch, bind, ret. repeat split.
  - destruct (Matching.determineMatchingBoundary ctx qm w) as [[[|b]|e] w1];
      simpl; eauto.
    unfold call. destruct (polygonToLine b); simpl; eauto.
  - intros r w1 -> [->|[e ->]]; reflexivity.
  - destruct (Measuring.bufferedDeterminer ctx qs w) as [[[|b]|e] w1];
      simpl; eauto.
    unfold call. destruct (polygonToLine b); simpl; eauto.
  - intros r w1 -> [->|[e ->]]; reflexivity.
Qed.

(** ** What hider mode changes, and what it leaves alone *)

Lemma yields_ret {A} (P : A -> Prop) (a : A) : P a -> yields P (ret a : M A).
Proof. intros Pa w a' w' [= <- _]. exact Pa. Qed.

Lemma yields_throw {A} (P : A -> Prop) e : yields P (throw e : M A).
Proof. intros w a w' E. discriminate E. Qed.

Lemma yields_bind {A B} (Q : A -> Prop) (P : B -> Prop)
    (m : M A) (k : A -> M B) :
  yields Q m -> (forall a, Q a -> yields P (k a)) -> yields P (bind m k).
Proof.
  intros Hm Hk w b w'. unfold bind.
  destruct (m w) as [[a|e] w1] eqn:E; [|discriminate].
  intros X. eapply Hk; [eapply Hm; exact E | exact X].
Qed.

Lemma yields_after {A B} (P : B -> Prop) (m : M A) (k : A -> M B) :
  (forall a, yields P (k a)) -> yields P (bind m k).
Proof.
  intros Hk. apply (yields_bind (fun _ => True)); [|auto].
  intros w a w' _. exact I.
Qed.

Lemma sameMatchingSubject_refl (q : MatchingQuestion) : sameMatchingSubject q q.
Proof. now repeat split. Qed.

Lemma sameMatchingSubject_setSame (q q' : MatchingQuestion) b :
  sameMatchingSubject q q' -> sameMatchingSubject q (Matching.setSame q' b).
Proof. intros S. exact S. Qed.

Lemma sameMatchingSubject_setLength (q q' : MatchingQuestion) c :
  sameMatchingSubject q q' ->
  sameMatchingSubject q (Matching.setLengthComparison q' c).
Proof. intros S. exact S. Qed.

Lemma matching_containment_subject ctx hider (q : MatchingQuestion) :
  yields (sameMatchingSubject q) (Matching.hiderifyByContainment ctx hider q).
Proof.
  unfold Matching.hiderifyByContainment.
  destruct (mapGeoJSON ctx) as [map|];
    [|apply yields_ret, sameMatchingSubject_refl].
  apply yields_after. intros [[| |f]|];
    try (apply yields_ret, sameMatchingSubject_refl).
  apply yields_after. intros hiderPoint.
  apply yields_after. intros [|]; apply yields_ret;
    [apply sameMatchingSubject_setSame|]; apply sameMatchingSubject_refl.
Qed.

Lemma measuring_containment_subject ctx hider (q q0 : MeasuringQuestion) :
  sameMeasuringSubject q0 q ->
  yields (sameMeasuringSubject q0)
    (Measuring.hiderifyByContainment ctx hider q).
Proof.
  intros S. unfold Measuring.hiderifyByContainment.
  destruct (mapGeoJSON ctx) as [map|]; [|now apply yields_ret].
  apply yields_after. intros [[| |f]|]; try (now apply yields_ret).
  apply yields_after. intros hiderPoint.
  apply yields_after. intros [|]; now apply yields_ret.
Qed.

(** X4.  Whatever hider mode does to a descriptor, it is still the same
    question: [hiderifyMatching] returns its argument with at most [same]
    and [lengthComparison] changed, [hiderifyMeasuring] with at most
    [hiderCloser] changed. *)
Theorem hiderify_keeps_the_question
    (ctx : AppContext) (qm qm' : MatchingQuestion)
    (qs qs' : MeasuringQuestion) (w w' : World) :
  (Matching.hiderifyMatching ctx qm w = (Ok qm', w') ->
   sameMatchingSubject qm qm')
  /\ (Measuring.hiderifyMeasuring ctx qs w = (Ok qs', w') ->
      sameMeasuringSubject qs qs').
Proof.
  split.
  - revert w qm' w'.
    change (yields (sameMatchingSubject qm) (Matching.hiderifyMatching ctx qm)).
    unfold Matching.hiderifyMatching.
    destruct (hiderMode ctx) as [hider|];
      [|apply yields_ret, sameMatchingSubject_refl].
    pose proof (matching_containment_subject ctx hider qm) as C.
    assert (yields (sameMatchingSubject qm)
              (Matching.hiderifyStations ctx hider qm)) as St.
    { unfold Matching.hiderifyStations.
      do 6 (apply yields_after; intros ?).
      apply (yields_bind (sameMatchingSubject qm)).
      - destruct (Matching.type qm);
          try (apply yields_ret, sameMatchingSubject_refl).
        apply yields_after. intros nodes. apply yields_ret.
        apply sameMatchingSubject_setSame, sameMatchingSubject_refl.
      - intros q1 S1.
        destruct (_ || _); [now apply yields_ret|].
        destruct (Matching.type q1); try (now apply yields_ret).
        do 2 (apply yields_after; intros ?). now apply yields_ret. }
    destruct (Matching.type qm); try exact C; try exact St.
    unfold Matching.hiderifyHomeGame.
    do 2 (apply yields_after; intros ?). apply yields_ret.
    apply sameMatchingSubject_setSame, sameMatchingSubject_refl.
  - revert w qs' w'.
    change (yields (sameMeasuringSubject qs)
              (Measuring.hiderifyMeasuring ctx qs)).
    assert (sameMeasuringSubject qs qs) as Rf by now repeat split.
    unfold Measuring.hiderifyMeasuring.
    destruct (hiderMode ctx) as [hider|]; [|now apply yields_ret].
    pose proof (measuring_containment_subject ctx hider qs qs Rf) as C.
    destruct (Measuring.type qs); try exact C.
    + unfold Measuring.hiderifyHomeGame.
      do 2 (apply yields_after; intros ?). now apply yields_ret.
    + unfold Measuring.hiderifySpecific.
      do 5 (apply yields_after; intros ?). now apply yields_ret.
    + unfold Measuring.hiderifySpecific.
      do 5 (apply yields_after; intros ?). now apply yields_ret.
    + unfold Measuring.hiderifyRail.
      destruct (trainStations ctx) as [|s0 rest]; [now apply yields_ret|].
      do 4 (apply yields_after; intros ?).
      now apply measuring_containment_subject.
Qed.

Ltac calm :=
  straight (untouched_refl (GeoJSON := GeoJSON))
           (untouched_trans (GeoJSON := GeoJSON))
           (untouched_record (GeoJSON := GeoJSON))
           (untouched_highSpeed (GeoJSON := GeoJSON)).

(** X5.  The nearest-feature strategies resolve no boundary: for a matching
    question of a home-game category or a station kind, and for a measuring
    question of a home-game category, of mcdonalds or of seven11, hider mode
    leaves both resolver caches as they were and enters no resolver body. *)
Theorem nearest_feature_strategies_resolve_nothing
    (ctx : AppContext) (qm : MatchingQuestion) (qs : MeasuringQuestion)
    (w : World) :
  matchingNoBoundary (Matching.type qm) = true ->
  measuringNoBoundary (Measuring.type qs) = true ->
  Measuring.type qs <> Measuring.rail_measure ->
  untouched w (snd (Matching.hiderifyMatching ctx qm w))
  /\ untouched w (snd (Measuring.hiderifyMeasuring ctx qs w)).
Proof.
  intros Nm Ns Rail. split.
  - revert w. change (steps untouched (Matching.hiderifyMatching ctx qm)).
    unfold Matching.hiderifyMatching.
    destruct (hiderMode ctx) as [hider|]; [|calm].
    destruct (Matching.type qm); try discriminate Nm;
      unfold Matching.hiderifyHomeGame, Matching.hiderifyStations,
        Matching.upperInitial, Matching.firstLetterUpper; calm.
  - revert w. change (steps untouched (Measuring.hiderifyMeasuring ctx qs)).
    unfold Measuring.hiderifyMeasuring.
    destruct (hiderMode ctx) as [hider|]; [|calm].
    destruct (Measuring.type qs); try discriminate Ns; try contradiction;
      unfold Measuring.hiderifyHomeGame, Measuring.hiderifySpecific; calm.
Qed.

(** X6.  When the resolver fails, the boundary-containment strategy leaves
    the question unanswered and does not resolve again: the first attempt
    stops at the failure, the retry takes the holed mask of the map and then
    meets the same failure in the cache, and the descriptor comes back as it
    was. *)
Theorem failed_resolution_leaves_unanswered
    (ctx : AppContext) (hider : HiderMode) (map : GeoJSON)
    (qm : MatchingQuestion) (qs : MeasuringQuestion) (w : World) :
  mapGeoJSON ctx = Some map ->
  (forall e w1,
      Matching.determineMatchingBoundary ctx qm w = (Throw e, w1) ->
      Matching.hiderifyByContainment ctx hider qm w
      = (Ok qm, record (Called OpHoledMask) w1))
  /\ (forall e w1,
         Measuring.bufferedDeterminer ctx qs w = (Throw e, w1) ->
         Measuring.hiderifyByContainment ctx hider qs w
         = (Ok qs, record (Called OpHoledMask) w1)).
Proof.
  intros Hm. split; intros e w1 E.
  - pose proof (matching_stores _ _ _ _ _ E) as C.
    unfold Matching.hiderifyByContainment. rewrite Hm.
    unfold bind at 1. rewrite matching_candidate_run.
    unfold Matching.firstAttempt, Matching.adjustPerMatching.
    rewrite (bind_throw _ _ _ _ _ (bind_throw _ _ _ _ _ E)).
    unfold Matching.retryAttempt. unfold bind at 1. rewrite call_run.
    destruct (holedMask (JVal map)) as [inverse|x]; cbn [settle]; [|reflexivity].
    unfold Matching.adjustPerMatching, bind,
      Matching.determineMatchingBoundary.
    rewrite (memoize_hit _ _ _ _ (record (Called OpHoledMask) w1) _ C).
    reflexivity.
  - pose proof (measuring_stores _ _ _ _ _ E) as C.
    unfold Measuring.hiderifyByContainment. rewrite Hm.
    unfold bind at 1. rewrite measuring_candidate_run.
    unfold Measuring.firstAttempt, Measuring.adjustPerMeasuring.
    rewrite (bind_throw _ _ _ _ _ (bind_throw _ _ _ _ _ E)).
    unfold Measuring.retryAttempt. unfold bind at 1. rewrite call_run.
    destruct (holedMask (JVal map)) as [inverse|x]; cbn [settle]; [|reflexivity].
    unfold Measuring.adjustPerMeasuring, bind,
      Measuring.bufferedDeterminer.
    rewrite (memoize_hit _ _ _ _ (record (Called OpHoledMask) w1) _ C).
    reflexivity.
Qed.

(** ** The Voronoi cell of a point-set question *)

Lemma cellContaining_first (p : Position) (cells : list GeoJSON) :
  match Matching.cellContaining p cells with
  | Ok (JVal cell) =>
      exists before later_,
        cells = (before ++ cell :: later_)%list
        /\ booleanPointInPolygon p cell = Success true
        /\ forall c, c ∈ before -> booleanPointInPolygon p c = Success false
  | Ok JUndefined =>
      forall c, c ∈ cells -> booleanPointInPolygon p c = Success false
  | Ok JNull => False
  | Throw e =>
      exists before cell later_ what,
        cells = (before ++ cell :: later_)%list
        /\ booleanPointInPolygon p cell = Failure what
        /\ e = Foreign what
        /\ forall c, c ∈ before -> booleanPointInPolygon p c = Success false
  end.
Proof.
  induction cells as [|c rest IH]; simpl.
  - intros c X. inversion X.
  - destruct (booleanPointInPolygon p c) as [[|]|what] eqn:E.
    + exists [], rest. repeat split; [exact E|]. intros c' X. inversion X.
    + destruct (Matching.cellContaining p rest) as [[| |cell]|e].
      * exact IH.
      * intros c' X. apply elem_of_cons in X as [->|X]; auto.
      * destruct IH as (b & a & -> & In & Out).
        exists (c :: b), a. repeat split; [exact In|].
        intros c' X. apply elem_of_cons in X as [->|X]; auto.
      * destruct IH as (b & c0 & a & what & -> & Bad & -> & Out).
        exists (c :: b), c0, a, what. repeat split; [exact Bad|].
        intros c' X. apply elem_of_cons in X as [->|X]; auto.
    + exists [], c, rest, what. repeat split; [exact E|].
      intros c' X. inversion X.
Qed.

(** X7.  For a point-set question (airport, major-city, a "full"
    category, custom-points) whose places were found and tessellated, the
    resolver builds the point of the question and tests the Voronoi cells in
    order.  When a coordinate of the question is not a number, building the
    point fails, after the tessellation.  Otherwise the boundary is the
    first cell the test finds the point in; when the test finds it in none,
    the boundary is [undefined], not [false] and not an error; and when the
    test throws on a cell before any holds the point, that error is the
    outcome. *)
Theorem point_set_boundary_is_first_containing_cell
    (ctx : AppContext) (q : MatchingQuestion) (w w1 : World)
    (data : PlaceSet GeoJSON) (cells : list GeoJSON) :
  pointSetType (Matching.type q) = true ->
  Matching.findMatchingPlaces ctx q w = (Ok data, w1) ->
  geoSpatialVoronoi data = Success cells ->
  exists r,
    Matching.determineMatchingBoundary_body ctx q w
    = (r, record (Called OpVoronoi) w1)
    /\ match turfPoint (Matching.lng q) (Matching.lat q) with
       | Failure what => r = Throw (Foreign what)
       | Success here =>
           match r with
           | Ok (Resolved (JVal cell)) =>
               exists before later_,
                 cells = (before ++ cell :: later_)%list
                 /\ booleanPointInPolygon here cell = Success true
                 /\ forall c,
                      c ∈ before ->
                      booleanPointInPolygon here c = Success false
           | Ok (Resolved JUndefined) =>
               forall c,
                 c ∈ cells -> booleanPointInPolygon here c = Success false
           | Ok (Resolved JNull) | Ok NoBoundary => False
           | Throw e =>
               exists before cell later_ what,
                 cells = (before ++ cell :: later_)%list
                 /\ booleanPointInPolygon here cell = Failure what
                 /\ e = Foreign what
                 /\ forall c,
                      c ∈ before ->
                      booleanPointInPolygon here c = Success false
           end
       end.
Proof.
  intros T F V.
  assert (Matching.determineMatchingBoundary_body ctx q w =
          (match turfPoint (Matching.lng q) (Matching.lat q) with
           | Failure what => Throw (Foreign what)
           | Success here =>
               match Matching.cellContaining here cells with
               | Ok b => Ok (Resolved b)
               | Throw e => Throw e
               end
           end, record (Called OpVoronoi) w1)) as Run.
  { unfold Matching.determineMatchingBoundary_body.
    destruct (Matching.type q); try discriminate T;
      rewrite (bind_ok _ _ _ _ _ F); unfold bind at 1; rewrite call_run, V;
      cbn [settle]; unfold bind at 1; rewrite eval_run;
      (destruct (turfPoint _ _) as [here|what]; cbn [settle]; [|reflexivity]);
      unfold bind, lift, ret;
      now destruct (Matching.cellContaining here cells). }
  eexists. split; [exact Run|].
  destruct (turfPoint _ _) as [here|what]; [|reflexivity].
  pose proof (cellContaining_first here cells) as First.
  now destruct (Matching.cellContaining here cells) as [[| |cell]|e].
Qed.

(** X8.  A gated category-"full" matching question is not abandoned after
    the warning: the resolver goes on to tessellate the empty point list,
    builds the point of the question and searches the cells it got.  Its
    outcome is the failure of the tessellation, or the failure to build the
    point (a coordinate that is not a number), or what the search of the
    cells gives. *)
Theorem gated_full_question_tessellates_nothing
    (ctx : AppContext) (q : MatchingQuestion) (l : APILocation) (w : World)
    (data : OverpassData) :
  Matching.type q = Matching.Full l ->
  findPlacesInZone (length (log w)) ctx (QLocationFull l) = Success data ->
  safetyGate data = true ->
  Matching.determineMatchingBoundary_body ctx q w =
    (match geoSpatialVoronoi (Places []) with
     | Failure what => Throw (Foreign what)
     | Success cells =>
         match turfPoint (Matching.lng q) (Matching.lat q) with
         | Failure what => Throw (Foreign what)
         | Success here =>
             match Matching.cellContaining here cells with
             | Ok cell => Ok (Resolved cell)
             | Throw e => Throw e
             end
         end
     end,
     record (Called OpVoronoi)
       (record (Toast (gateWarning l data))
          (record (Fetched (ReqPlacesInZone (QLocationFull l))) w))).
Proof.
  intros T F Gate.
  unfold Matching.determineMatchingBoundary_body,
    Matching.findMatchingPlaces. rewrite T.
  unfold bind at 1. unfold bind at 1. rewrite fetch_run, F. cbn [settle].
  unfold bind at 1. rewrite fullPlaces_matching, Gate.
  unfold ret at 1. unfold bind at 1. rewrite call_run.
  destruct (geoSpatialVoronoi (Places [])) as [cells|what]; cbn [settle];
    [|reflexivity].
  unfold bind at 1. rewrite eval_run.
  destruct (turfPoint _ _) as [here|what]; cbn [settle]; [|reflexivity].
  unfold bind, lift, ret.
  now destruct (Matching.cellContaining here cells).
Qed.

(** ** Administrative zones *)

(** X9.  The first resolution of a zone question asks for the enclosing
    administrative boundary once.  When there is none, it shows the toast
    "No boundary found for this zone" and fails with the error "No boundary
    found", which is what the cache then holds; when there is one, that
    feature is the boundary and nothing else happens. *)
Theorem zone_lookup_outcome
    (ctx : AppContext) (q : MatchingQuestion) (c : Matching.Category)
    (w : World) :
  Matching.type q = Matching.zone ->
  Matching.cat q = Some c ->
  matchingCache w !! Matching.matchingKey ctx q = None ->
  let run := Matching.determineMatchingBoundary ctx q w in
  let lookup :=
    findAdminBoundary (length (log w)) ctx (Matching.lat q) (Matching.lng q)
      (Matching.adminLevel c) in
  let asked :=
    Fetched (ReqAdminBoundary (Matching.lat q) (Matching.lng q)
               (Matching.adminLevel c)) in
  (lookup = Success None ->
   fst run = Throw (Error "No boundary found")
   /\ log (snd run) = Toast "No boundary found for this zone" :: asked :: log w
   /\ matchingCache (snd run) !! Matching.matchingKey ctx q
      = Some (Throw (Error "No boundary found")))
  /\ (forall z,
         lookup = Success (Some z) ->
         fst run = Ok (Resolved (JVal (f_value z)))
         /\ log (snd run) = asked :: log w).
Proof.
  intros T C Miss run lookup asked.
  destruct (matching_miss ctx q w Miss) as (r & w' & B & _ & E).
  unfold run. rewrite E. cbn [fst snd].
  unfold Matching.determineMatchingBoundary_body in B. rewrite T in B.
  unfold Matching.adminLevelOf in B. rewrite C in B.
  unfold bind, ret, fetch in B. cbv beta iota in B.
  change (length (log (enter w))) with (length (log w)) in B.
  fold lookup in B. split.
  - intros L. rewrite L in B. inversion B; subst.
    repeat split. simpl. apply lookup_insert_eq.
  - intros z L. rewrite L in B. inversion B; subst. now split.
Qed.

(** ** The station strategies *)

Lemma toUpperCaseUnit_ascii (c : N) :
  (c < 128)%N -> toUpperCaseUnit c = [foldCase c].
Proof.
  intros L. unfold toUpperCaseUnit, foldCase.
  destruct ((97 <=? c) && (c <=? 122))%N; [reflexivity|].
  apply N.ltb_lt in L. now rewrite L.
Qed.

Lemma no_usableName_falsy (station : OsmFeature GeoJSON) :
  (forall n, ~ usableName station n) ->
  truthy (js_or (f_name_en station) (f_name station)) = false.
Proof.
  intros No. unfold js_or.
  destruct (f_name_en station) as [[|c rest]|] eqn:En; simpl.
  - destruct (f_name station) as [[|c rest]|] eqn:Nn; try reflexivity.
    destruct (No (c :: rest)). now apply native_name; auto.
  - destruct (No (c :: rest)). now apply english_name.
  - destruct (f_name station) as [[|c rest]|] eqn:Nn; try reflexivity.
    destruct (No (c :: rest)). now apply native_name; auto.
Qed.

(** X10.  For a same-first-letter-station question whose two nearest
    stations have usable names (the English name when it is not empty, else
    the native one), [same] becomes the equality of the two first characters
    after upper-casing, and nothing else in the descriptor changes; between
    ASCII characters that is equality up to the case of a letter. *)
Theorem same_first_letter_station_outcome
    (ctx : AppContext) (hider : HiderMode) (q : MatchingQuestion) (w : World)
    (data : OverpassData) (places : list (OsmFeature GeoJSON))
    (hiderPoint seekerPoint : Position)
    (nh ns : OsmFeature GeoJSON) (h0 s0 : N) (hrest srest : jsstring) :
  hiderMode ctx = Some hider ->
  Matching.type q = Matching.same_first_letter_station ->
  turfPoint (longitude hider) (latitude hider) = Success hiderPoint ->
  turfPoint (Matching.lng q) (Matching.lat q) = Success seekerPoint ->
  findPlacesInZone (length (log w)) ctx QRailwayStations = Success data ->
  osmtogeojson data = Success places ->
  nearestStation hiderPoint places = Success nh ->
  nearestStation seekerPoint places = Success ns ->
  usableName nh (h0 :: hrest) ->
  usableName ns (s0 :: srest) ->
  (exists q',
      fst (Matching.hiderifyMatching ctx q w) = Ok q'
      /\ q' = Matching.setSame q
                (bool_decide (toUpperCaseUnit h0 = toUpperCaseUnit s0))
      /\ (Matching.same q' = true <-> toUpperCaseUnit h0 = toUpperCaseUnit s0)
      /\ Matching.lengthComparison q' = Matching.lengthComparison q
      /\ sameMatchingSubject q q')
  /\ ((h0 < 128)%N -> (s0 < 128)%N ->
      (toUpperCaseUnit h0 = toUpperCaseUnit s0 <-> foldCase h0 = foldCase s0)).
Proof.
  intros Hh T Ph Ps F O Nh Ns Uh Us.
  destruct (usableName_js_or nh _ Uh) as [Eh _].
  destruct (usableName_js_or ns _ Us) as [Es _].
  split.
  - unfold Matching.hiderifyMatching. rewrite Hh, T.
    rewrite (stations_found ctx hider q w data places _ _ nh ns
               Ph Ps F O Nh Ns)
      by (rewrite T; discriminate).
    rewrite Eh, Es, T. cbn [truthy negb orb].
    eexists. split; [reflexivity|]. split; [reflexivity|].
    cbn [Matching.same Matching.lengthComparison Matching.setSame].
    split; [apply bool_decide_eq_true|]. split; [reflexivity|].
    now repeat split.
  - intros Lh Ls. rewrite !toUpperCaseUnit_ascii by assumption.
    split; [now intros [= ->] | now intros ->].
Qed.

(** X11.  For a same-first-letter-station or same-length-station question,
    when one of the two nearest stations has no usable name (neither a
    non-empty English name nor a non-empty native one), the descriptor comes
    back exactly as it was. *)
Theorem station_without_name_leaves_unanswered
    (ctx : AppContext) (hider : HiderMode) (q : MatchingQuestion) (w : World)
    (data : OverpassData) (places : list (OsmFeature GeoJSON))
    (hiderPoint seekerPoint : Position) (nh ns : OsmFeature GeoJSON) :
  hiderMode ctx = Some hider ->
  Matching.type q = Matching.same_first_letter_station
  \/ Matching.type q = Matching.same_length_station ->
  turfPoint (longitude hider) (latitude hider) = Success hiderPoint ->
  turfPoint (Matching.lng q) (Matching.lat q) = Success seekerPoint ->
  findPlacesInZone (length (log w)) ctx QRailwayStations = Success data ->
  osmtogeojson data = Success places ->
  nearestStation hiderPoint places = Success nh ->
  nearestStation seekerPoint places = Success ns ->
  (forall n, ~ usableName nh n) \/ (forall n, ~ usableName ns n) ->
  fst (Matching.hiderifyMatching ctx q w) = Ok q.
Proof.
  intros Hh T Ph Ps F O Nh Ns Missing.
  assert (truthy (js_or (f_name_en nh) (f_name nh)) = false
          \/ truthy (js_or (f_name_en ns) (f_name ns)) = false) as Falsy
    by (destruct Missing as [M|M]; [left|right];
        now apply no_usableName_falsy).
  assert (Matching.type q <> Matching.same_train_line) as NT
    by (destruct T as [T|T]; rewrite T; discriminate).
  unfold Matching.hiderifyMatching. rewrite Hh.
  destruct T as [T|T]; rewrite T;
    rewrite (stations_found ctx hider q w data places _ _ nh ns
               Ph Ps F O Nh Ns NT);
    cbv zeta; destruct Falsy as [M|M]; rewrite M; cbn [negb orb];
    try reflexivity; now destruct (negb _).
Qed.

(** X12.  For a same-train-line question, [same] becomes the membership of
    the number in the hider's nearest station id among the nodes of the
    seeker's nearest station's line, whether or not the stations have
    names; nothing else in the descriptor changes. *)
Theorem same_train_line_outcome
    (ctx : AppContext) (hider : HiderMode) (q : MatchingQuestion) (w : World)
    (data : OverpassData) (places : list (OsmFeature GeoJSON))
    (hiderPoint seekerPoint : Position)
    (nh ns : OsmFeature GeoJSON) (nodes : list float) :
  hiderMode ctx = Some hider ->
  Matching.type q = Matching.same_train_line ->
  turfPoint (longitude hider) (latitude hider) = Success hiderPoint ->
  turfPoint (Matching.lng q) (Matching.lat q) = Success seekerPoint ->
  findPlacesInZone (length (log w)) ctx QRailwayStations = Success data ->
  osmtogeojson data = Success places ->
  nearestStation hiderPoint places = Success nh ->
  nearestStation seekerPoint places = Success ns ->
  trainLineNodeFinder (4 + length (log w)) (f_id ns) = Success nodes ->
  let hiderId := parseInt (split_slash_second (f_id nh)) in
  exists q',
    fst (Matching.hiderifyMatching ctx q w) = Ok q'
    /\ q' = Matching.setSame q (js_includes nodes hiderId)
    /\ Matching.same q' = js_includes nodes hiderId
    /\ Matching.lengthComparison q' = Matching.lengthComparison q
    /\ sameMatchingSubject q q'.
Proof.
  intros Hh T Ph Ps F O Nh Ns L hiderId.
  exists (Matching.setSame q (js_includes nodes hiderId)).
  split; [|now repeat split].
  unfold Matching.hiderifyMatching. rewrite Hh, T.
  unfold Matching.hiderifyStations.
  unfold bind, ret, fetch, call, eval, lift. cbv beta iota.
  rewrite Ph. cbn [settle]. rewrite Ps. cbn [settle].
  rewrite F. cbn [settle]. rewrite O. cbn [settle].
  rewrite Nh. cbn [settle]. rewrite Ns. cbn [settle].
  rewrite T. cbn [log record length]. cbn [Nat.add] in L. rewrite L.
  cbn [settle]. cbn [Matching.type Matching.setSame]. rewrite T.
  now destruct (_ || _).
Qed.

(** ** The home-game categories *)

(** X13.  For a matching question of a home-game category, [same] becomes
    the strict equality of the names of the two nearest features; two
    features without a name count as equal. *)
Theorem home_game_same_is_name_equality
    (ctx : AppContext) (hider : HiderMode) (l : APILocation)
    (q : MatchingQuestion) (w : World) (qn hn : NearestFeature) :
  hiderMode ctx = Some hider ->
  Matching.type q = Matching.HomeGame l ->
  nearestToQuestion (length (log w)) ctx l (Matching.lat q) (Matching.lng q)
    = Success qn ->
  nearestToQuestion (S (length (log w))) ctx l (latitude hider)
    (longitude hider) = Success hn ->
  exists q',
    fst (Matching.hiderifyMatching ctx q w) = Ok q'
    /\ sameMatchingSubject q q'
    /\ Matching.lengthComparison q' = Matching.lengthComparison q
    /\ (Matching.same q' = true <-> nf_name qn = nf_name hn)
    /\ (nf_name qn = None -> nf_name hn = None -> Matching.same q' = true).
Proof.
  intros Hh T Fq Fh. unfold Matching.hiderifyMatching. rewrite Hh, T.
  unfold Matching.hiderifyHomeGame, bind, ret, fetch. cbv beta iota.
  rewrite Fq. cbn [settle log record length]. rewrite Fh.
  eexists. split; [reflexivity|]. repeat split; simpl.
  - apply bool_decide_eq_true_1.
  - apply bool_decide_eq_true_2.
  - intros -> ->. now apply bool_decide_eq_true_2.
Qed.

(** X14.  For a measuring question of a home-game category, of mcdonalds or
    of seven11, [hiderCloser] becomes [true] exactly when the hider's
    nearest-feature distance is strictly below the seeker's; equal distances
    give [false]; nothing else in the descriptor changes. *)
Theorem nearest_distance_strictly_closer
    (ctx : AppContext) (hider : HiderMode)
    (qh qc : MeasuringQuestion) (w : World) :
  hiderMode ctx = Some hider ->
  (forall l seekerNearest hiderNearest,
      Measuring.type qh = Measuring.HomeGame l ->
      nearestToQuestion (length (log w)) ctx l (Measuring.lat qh)
        (Measuring.lng qh) = Success seekerNearest ->
      nearestToQuestion (S (length (log w))) ctx l (latitude hider)
        (longitude hider) = Success hiderNearest ->
      exists q',
        fst (Measuring.hiderifyMeasuring ctx qh w) = Ok q'
        /\ sameMeasuringSubject qh q'
        /\ (Measuring.hiderCloser q' = true <->
            js_lt (nf_distanceToPoint hiderNearest)
                  (nf_distanceToPoint seekerNearest) = true)
        /\ (nf_distanceToPoint hiderNearest
            = nf_distanceToPoint seekerNearest ->
            Measuring.hiderCloser q' = false))
  /\ (forall which points seekerPoint hiderPoint nearest nearestHider,
         Measuring.type qc
         = match which with
           | McDonalds => Measuring.mcdonalds
           | Seven11 => Measuring.seven11
           end ->
         findPlacesSpecificInZone (length (log w)) ctx which
         = Success points ->
         turfPoint (Measuring.lng qc) (Measuring.lat qc)
         = Success seekerPoint ->
         nearestPoint seekerPoint points = Success nearest ->
         turfPoint (longitude hider) (latitude hider) = Success hiderPoint ->
         nearestPoint hiderPoint points = Success nearestHider ->
         exists q',
           fst (Measuring.hiderifyMeasuring ctx qc w) = Ok q'
           /\ sameMeasuringSubject qc q'
           /\ (Measuring.hiderCloser q' = true <->
               js_lt (distance hiderPoint nearestHider Miles)
                     (distance seekerPoint nearest Miles) = true)
           /\ (distance hiderPoint nearestHider Miles
               = distance seekerPoint nearest Miles ->
               Measuring.hiderCloser q' = false)).
Proof.
  intros Hh. split.
  - intros l seekerNearest hiderNearest Th Fq Fh.
    eexists. split; [eapply homeGame_hiderCloser; eauto|].
    split; [now repeat split|].
    cbn [Measuring.hiderCloser Measuring.setHiderCloser].
    split; [reflexivity|]. intros ->. apply js_lt_irrefl.
  - intros which points seekerPoint hiderPoint nearest nearestHider
      Tc Fp Ps Ns Ph Nh.
    eexists. split; [eapply specific_hiderCloser; eauto|].
    split; [now repeat split|].
    cbn [Measuring.hiderCloser Measuring.setHiderCloser].
    split; [reflexivity|]. intros E. rewrite E. apply js_lt_irrefl.
Qed.

(** ** The caches *)

(** X15.  The cache key tells the subtype, so questions of different
    subtypes never share a cache entry; and it does not contain the outcome
    fields, so a descriptor keeps its key when [same], [lengthComparison] or
    [hiderCloser] is written. *)
Theorem cache_key_separates_subtypes_not_outcomes
    (ctx ctx' : AppContext) (qm qm' : MatchingQuestion)
    (qs qs' : MeasuringQuestion) :
  (Matching.matchingKey ctx qm = Matching.matchingKey ctx' qm' ->
   Matching.type qm = Matching.type qm')
  /\ (Measuring.measuringKey ctx qs = Measuring.measuringKey ctx' qs' ->
      Measuring.type qs = Measuring.type qs')
  /\ (sameMatchingSubject qm qm' ->
      Matching.matchingKey ctx qm' = Matching.matchingKey ctx qm)
  /\ (sameMeasuringSubject qs qs' ->
      Measuring.measuringKey ctx qs' = Measuring.measuringKey ctx qs).
Proof.
  repeat split.
  - apply matchingKey_type.
  - apply measuringKey_type.
  - intros (T & La & Ln & C & G). unfold Matching.matchingKey.
    now rewrite T, La, Ln, C, G.
  - intros (T & La & Ln & G). unfold Measuring.measuringKey.
    now rewrite T, La, Ln, G.
Qed.

Lemma grows_record e (w : World) : grows w (record e w).
Proof. apply untouched_grows, untouched_record. Qed.

Lemma grows_highSpeed c (w : World) : grows w (setHighSpeedCache c w).
Proof. apply untouched_grows, untouched_highSpeed. Qed.

Lemma fillsMatching_bind {A B} key (m : M A) (k : A -> M B) :
  fillsMatching key m -> (forall a, steps grows (k a)) ->
  fillsMatching key (bind m k).
Proof.
  intros Hm Hk w. unfold bind. specialize (Hm w).
  destruct (m w) as [[a|e] w1]; simpl in *; [|exact Hm].
  destruct Hm as [r Hr]. destruct (Hk a w1) as [G _]. eauto.
Qed.

Lemma fillsMatching_tryCatch {A} key (m h : M A) :
  fillsMatching key m -> steps grows h -> fillsMatching key (tryCatch m h).
Proof.
  intros Hm Hh w. unfold tryCatch. specialize (Hm w).
  destruct (m w) as [[a|e] w1]; simpl in *; [exact Hm|].
  destruct Hm as [r Hr]. destruct (Hh w1) as [G _]. eauto.
Qed.

Lemma fillsMeasuring_bind {A B} key (m : M A) (k : A -> M B) :
  fillsMeasuring key m -> (forall a, steps grows (k a)) ->
  fillsMeasuring key (bind m k).
Proof.
  intros Hm Hk w. unfold bind. specialize (Hm w).
  destruct (m w) as [[a|e] w1]; simpl in *; [|exact Hm].
  destruct Hm as [r Hr]. destruct (Hk a w1) as [_ G]. eauto.
Qed.

Lemma fillsMeasuring_tryCatch {A} key (m h : M A) :
  fillsMeasuring key m -> steps grows h -> fillsMeasuring key (tryCatch m h).
Proof.
  intros Hm Hh w. unfold tryCatch. specialize (Hm w).
  destruct (m w) as [[a|e] w1]; simpl in *; [exact Hm|].
  destruct Hm as [r Hr]. destruct (Hh w1) as [_ G]. eauto.
Qed.

Ltac growing :=
  straight (grows_refl (GeoJSON := GeoJSON))
           (grows_trans (GeoJSON := GeoJSON))
           grows_record grows_highSpeed.

Lemma adjustPerMatching_grows ctx (q : MatchingQuestion) mapData :
  steps grows (Matching.adjustPerMatching ctx q mapData).
Proof.
  unfold Matching.adjustPerMatching. pose proof (matching_grows ctx q).
  growing.
Qed.

Lemma adjustPerMeasuring_grows ctx (q : MeasuringQuestion) mapData :
  steps grows (Measuring.adjustPerMeasuring ctx q mapData).
Proof.
  unfold Measuring.adjustPerMeasuring. pose proof (measuring_grows ctx q).
  growing.
Qed.

Lemma matching_candidate_fills ctx (q : MatchingQuestion) map :
  fillsMatching (Matching.matchingKey ctx q)
    (Matching.candidateFeature ctx q map).
Proof.
  unfold Matching.candidateFeature, Matching.firstAttempt.
  pose proof (adjustPerMatching_grows ctx q) as G.
  apply fillsMatching_tryCatch.
  - apply fillsMatching_bind; [|intros; growing].
    apply fillsMatching_bind; [|intros; growing].
    unfold Matching.adjustPerMatching.
    apply fillsMatching_bind; [|intros; growing].
    intros w. destruct (Matching.determineMatchingBoundary ctx q w) eqn:E.
    simpl. erewrite matching_stores by exact E. eauto.
  - unfold Matching.retryAttempt. growing.
Qed.

Lemma measuring_candidate_fills ctx (q : MeasuringQuestion) map :
  fillsMeasuring (Measuring.measuringKey ctx q)
    (Measuring.candidateFeature ctx q map).
Proof.
  unfold Measuring.candidateFeature, Measuring.firstAttempt.
  pose proof (adjustPerMeasuring_grows ctx q) as G.
  apply fillsMeasuring_tryCatch.
  - apply fillsMeasuring_bind; [|intros; growing].
    apply fillsMeasuring_bind; [|intros; growing].
    unfold Measuring.adjustPerMeasuring.
    apply fillsMeasuring_bind; [|intros; growing].
    intros w. destruct (Measuring.bufferedDeterminer ctx q w) eqn:E.
    simpl. erewrite measuring_stores by exact E. eauto.
  - unfold Measuring.retryAttempt. growing.
Qed.

(** X16.  With a map loaded, the boundary-containment strategy always
    leaves an outcome for the question in the cache, under a key that the
    descriptor it returns still has: resolving that descriptor right
    afterwards, as the next map adjustment does, is answered from the cache
    and changes nothing. *)
Theorem hiderified_descriptor_resolves_from_cache
    (ctx : AppContext) (hider : HiderMode) (map : GeoJSON)
    (qm : MatchingQuestion) (qs : MeasuringQuestion) (w : World) :
  mapGeoJSON ctx = Some map ->
  (forall qm' wm,
      Matching.hiderifyByContainment ctx hider qm w = (Ok qm', wm) ->
      exists r, Matching.determineMatchingBoundary ctx qm' wm = (r, wm))
  /\ (forall qs' ws,
         Measuring.hiderifyByContainment ctx hider qs w = (Ok qs', ws) ->
         exists r, Measuring.bufferedDeterminer ctx qs' ws = (r, ws)).
Proof.
  intros Hm. split.
  - intros qm' wm Em.
    pose proof (matching_containment_subject ctx hider qm _ _ _ Em)
      as (T & La & Ln & C & G).
    rewrite (matching_containment_run ctx hider qm map w Hm) in Em.
    injection Em as _ <-.
    destruct (matching_candidate_fills ctx qm map w) as [r Hr].
    exists r. unfold Matching.determineMatchingBoundary.
    apply memoize_hit. rewrite <- Hr. f_equal.
    unfold Matching.matchingKey. now rewrite T, La, Ln, C, G.
  - intros qs' ws Es.
    assert (sameMeasuringSubject qs qs) as Rf by now repeat split.
    pose proof (measuring_containment_subject ctx hider qs qs Rf _ _ _ Es)
      as (T & La & Ln & G).
    rewrite (measuring_containment_run ctx hider qs map w Hm) in Es.
    injection Es as _ <-.
    destruct (measuring_candidate_fills ctx qs map w) as [r Hr].
    exists r. unfold Measuring.bufferedDeterminer.
    apply memoize_hit. rewrite <- Hr. f_equal.
    unfold Measuring.measuringKey. now rewrite T, La, Ln, G.
Qed.

(** X17.  The resolver caches are never cleared and no entry is ever
    replaced: whatever operations run, every key that had an outcome keeps
    that outcome. *)
Theorem cache_entries_are_kept
    (w0 w : World) (key : string) (r : Outcome Boundary) :
  later w0 w ->
  (matchingCache w0 !! key = Some r -> matchingCache w !! key = Some r)
  /\ (measuringCache w0 !! key = Some r -> measuringCache w !! key = Some r).
Proof.
  intros L. destruct (later_grows w0 w L) as [Gm Gs]. split; auto.
Qed.

Lemma highSpeedBase_body_keeps_cache (features : list (OsmFeature GeoJSON))
    (w : World) :
  highSpeedCache
    (snd
       ((let* grouped := call OpGroupObjects (groupObjects features) in
         let* chained :=
           mapM (fun group =>
                   call OpChainLines
                     (chainLines
                        (filter (fun x => Measuring.isLineString x = true)
                           group)))
                grouped in
         let neighbored := omap (fun x => x) chained in
         let* simplified :=
           call OpSimplify
             (simplify (featureCollection (map JVal neighbored))) in
         let* buffered :=
           call OpBuffer (buffer simplified 0.001%float Kilometers) in
         let* combined := call OpCombine (combine buffered) in
         ret (Measuring.firstFeature combined)) w))
  = highSpeedCache w.
Proof.
  revert w.
  set (R := fun a b : World => highSpeedCache b = highSpeedCache a).
  assert (Rr : forall w, R w w) by reflexivity.
  assert (Rt : forall a b c, R a b -> R b c -> R a c)
    by (unfold R; intros; congruence).
  assert (Rc : forall e w, R w (record e w)) by reflexivity.
  match goal with |- forall w, highSpeedCache (snd (?m w)) = _ =>
    change (steps R m) end.
  straight Rr Rt Rc I.
Qed.

(** X18.  [highSpeedBase] computes once per serialized geometry list: after
    a call that returned, a call with an equally serialized list returns
    the same value and does no geometry work; a call that threw has left
    the cache as it was. *)
Theorem highSpeedBase_computes_once
    (f1 f2 : list (OsmFeature GeoJSON)) (w w1 : World)
    (r : Outcome (JsOpt GeoJSON)) :
  stringifyGeometries f1 = stringifyGeometries f2 ->
  Measuring.highSpeedBase f1 w = (r, w1) ->
  match r with
  | Ok v => Measuring.highSpeedBase f2 w1 = (Ok v, w1)
  | Throw _ => highSpeedCache w1 = highSpeedCache w
  end.
Proof.
  intros K. unfold Measuring.highSpeedBase, memoizeSync. rewrite <- K.
  destruct (highSpeedCache w !! stringifyGeometries f1) as [v|] eqn:C.
  - intros [= <- <-]. now rewrite C.
  - pose proof (highSpeedBase_body_keeps_cache f1 w) as Keep.
    match goal with |- context [match ?b w with _ => _ end] =>
      change (highSpeedCache (snd (b w)) = highSpeedCache w) in Keep;
      destruct (b w) as [[v|e] w'] eqn:B end;
      simpl in Keep; intros [= <- <-].
    + simpl. now rewrite lookup_insert_eq.
    + exact Keep.
Qed.

(** ** Where hider mode can fail *)

(** X19.  Where hider mode can fail.  With hider mode off both functions
    return the descriptor at once.  On the boundary-containment path every
    failure of the resolver, of the adjustment and of the holed mask is
    swallowed: the call fails exactly when a candidate feature was obtained
    and building the hider's point or testing it against the candidate
    throws.  The nearest-feature strategies have no handler.  The station
    strategy builds the two points before it asks the provider, so a
    coordinate that is not a number fails the call with nothing requested;
    with both points built, a failed station request fails the call right
    after the request.  A failed first lookup of the home-game strategies
    and a failed request of the mcdonalds/seven11 strategy fail the call
    right after the request, and so does, for mcdonalds/seven11, a
    coordinate of the question that is not a number. *)
Theorem where_hider_mode_can_fail
    (ctx : AppContext) (qm : MatchingQuestion) (qs : MeasuringQuestion)
    (w : World) :
  (hiderMode ctx = None ->
   Matching.hiderifyMatching ctx qm w = (Ok qm, w)
   /\ Measuring.hiderifyMeasuring ctx qs w = (Ok qs, w))
  /\ (forall hider e,
         hiderMode ctx = Some hider ->
         matchingNoBoundary (Matching.type qm) = false ->
         (fst (Matching.hiderifyMatching ctx qm w) = Throw e <->
          exists map,
            mapGeoJSON ctx = Some map
            /\ hiderInside hider (fst (Matching.candidateFeature ctx qm map w))
               = Throw e))
  /\ (forall hider e,
         hiderMode ctx = Some hider ->
         measuringNoBoundary (Measuring.type qs) = false ->
         (fst (Measuring.hiderifyMeasuring ctx qs w) = Throw e <->
          exists map,
            mapGeoJSON ctx = Some map
            /\ hiderInside hider
                 (fst (Measuring.candidateFeature ctx qs map w))
               = Throw e))
  /\ (forall hider,
         hiderMode ctx = Some hider ->
         matchingNoBoundary (Matching.type qm) = true ->
         (forall l, Matching.type qm <> Matching.HomeGame l) ->
         match turfPoint (longitude hider) (latitude hider),
               turfPoint (Matching.lng qm) (Matching.lat qm) with
         | Success _, Success _ =>
             forall what,
               findPlacesInZone (length (log w)) ctx QRailwayStations
               = Failure what ->
               Matching.hiderifyMatching ctx qm w
               = (Throw (Foreign what),
                  record (Fetched (ReqPlacesInZone QRailwayStations)) w)
         | Failure what, _ | Success _, Failure what =>
             Matching.hiderifyMatching ctx qm w = (Throw (Foreign what), w)
         end)
  /\ (forall hider l what,
         hiderMode ctx = Some hider ->
         Matching.type qm = Matching.HomeGame l ->
         nearestToQuestion (length (log w)) ctx l (Matching.lat qm)
           (Matching.lng qm) = Failure what ->
         Matching.hiderifyMatching ctx qm w
         = (Throw (Foreign what),
            record
              (Fetched
                 (ReqNearestToQuestion l (Matching.lat qm) (Matching.lng qm)))
              w))
  /\ (forall hider l what,
         hiderMode ctx = Some hider ->
         Measuring.type qs = Measuring.HomeGame l ->
         nearestToQuestion (length (log w)) ctx l (Measuring.lat qs)
           (Measuring.lng qs) = Failure what ->
         Measuring.hiderifyMeasuring ctx qs w
         = (Throw (Foreign what),
            record
              (Fetched
                 (ReqNearestToQuestion l (Measuring.lat qs)
                    (Measuring.lng qs)))
              w))
  /\ (forall hider which,
         hiderMode ctx = Some hider ->
         Measuring.type qs
         = match which with
           | McDonalds => Measuring.mcdonalds
           | Seven11 => Measuring.seven11
           end ->
         forall what,
           findPlacesSpecificInZone (length (log w)) ctx which = Failure what
           \/ ((exists points,
                   findPlacesSpecificInZone (length (log w)) ctx which
                   = Success points)
               /\ turfPoint (Measuring.lng qs) (Measuring.lat qs)
                  = Failure what) ->
           Measuring.hiderifyMeasuring ctx qs w
           = (Throw (Foreign what),
              record (Fetched (ReqPlacesSpecific which)) w)).
Proof.
  split; [|split; [|split; [|split; [|split; [|split]]]]].
  - intros Hh. unfold Matching.hiderifyMatching, Measuring.hiderifyMeasuring.
    now rewrite Hh.
  - intros hider e Hh N.
    rewrite (hiderifyMatching_containment ctx hider qm Hh N).
    destruct (mapGeoJSON ctx) as [map|] eqn:Hm.
    + rewrite (matching_containment_run ctx hider qm map w Hm).
      unfold matchingVerdict. cbn [fst]. split.
      * intros E. exists map. split; [reflexivity|].
        destruct (hiderInside hider _) as [[|]|e']; try discriminate E.
        now injection E as ->.
      * intros (map' & [= <-] & E). now rewrite E.
    + unfold Matching.hiderifyByContainment. rewrite Hm. split.
      * discriminate.
      * intros (map & X & _). discriminate X.
  - intros hider e Hh N.
    rewrite (hiderifyMeasuring_containment ctx hider qs Hh N).
    destruct (mapGeoJSON ctx) as [map|] eqn:Hm.
    + rewrite (measuring_containment_run ctx hider qs map w Hm).
      unfold measuringVerdict. cbn [fst]. split.
      * intros E. exists map. split; [reflexivity|].
        destruct (hiderInside hider _) as [[|]|e']; try discriminate E.
        now injection E as ->.
      * intros (map' & [= <-] & E). now rewrite E.
    + unfold Measuring.hiderifyByContainment. rewrite Hm. split.
      * discriminate.
      * intros (map & X & _). discriminate X.
  - intros hider Hh N NoHome.
    assert (Matching.hiderifyMatching ctx qm w
            = Matching.hiderifyStations ctx hider qm w) as ->.
    { unfold Matching.hiderifyMatching. rewrite Hh.
      destruct (Matching.type qm) as [l| | | | | | | | | |];
        try discriminate N; try reflexivity. now destruct (NoHome l). }
    unfold Matching.hiderifyStations, bind, fetch, eval, lift.
    destruct (turfPoint (longitude hider) (latitude hider)) as [hp|what];
      cbn [settle]; [|reflexivity].
    destruct (turfPoint (Matching.lng qm) (Matching.lat qm)) as [sp|what];
      cbn [settle]; [|reflexivity].
    intros what F. now rewrite F.
  - intros hider l what Hh T F.
    unfold Matching.hiderifyMatching. rewrite Hh, T.
    unfold Matching.hiderifyHomeGame, bind, fetch. now rewrite F.
  - intros hider l what Hh T F.
    unfold Measuring.hiderifyMeasuring. rewrite Hh, T.
    unfold Measuring.hiderifyHomeGame, bind, fetch. now rewrite F.
  - intros hider which Hh T what [F|[[points F] P]];
      unfold Measuring.hiderifyMeasuring; rewrite Hh, T;
      destruct which;
      unfold Measuring.hiderifySpecific, bind, fetch, eval, lift;
      rewrite F; cbn [settle]; rewrite ?P; reflexivity.
Qed.

(** ** The shape of the measuring features *)

(** X20.  When [determineMeasuringBoundary] returns, it returns [false]
    exactly for the subtypes without a boundary (the home-game categories,
    mcdonalds, seven11 and rail-measure), and for every other subtype except
    custom-measure it returns a list of exactly one entry, gated or not.
    The entry need not be a feature: the combination of no point gives
    [undefined], and the coastline difference may give [null]; for a
    category-"full" question the entry is never [null]. *)
Theorem measuring_boundary_is_false_or_one_entry
    (ctx : AppContext) (q : MeasuringQuestion) (w w' : World)
    (r : option (list (JsOpt GeoJSON))) :
  Measuring.determineMeasuringBoundary ctx q w = (Ok r, w') ->
  (r = None <-> measuringNoBoundary (Measuring.type q) = true)
  /\ (Measuring.type q <> Measuring.custom_measure ->
      forall entries, r = Some entries -> exists entry, entries = [entry])
  /\ (forall l entries,
         Measuring.type q = Measuring.Full l ->
         r = Some entries -> JNull ∉ entries).
Proof.
  revert w r w'.
  change
    (yields
       (fun r =>
          (r = None <-> measuringNoBoundary (Measuring.type q) = true)
          /\ (Measuring.type q <> Measuring.custom_measure ->
              forall entries, r = Some entries ->
              exists entry, entries = [entry])
          /\ (forall l entries,
                 Measuring.type q = Measuring.Full l ->
                 r = Some entries -> JNull ∉ entries))
       (Measuring.determineMeasuringBoundary ctx q)).
  unfold Measuring.determineMeasuringBoundary.
  apply yields_after. intros bBox.
  destruct (Measuring.type q) eqn:T; cbn [measuringNoBoundary].
  all: try solve [apply yields_ret; split; [split; reflexivity|];
                  split; [intros _ fs [=] | intros l' fs [=]]].
  all: try solve [repeat (apply yields_after; intros ?); apply yields_ret;
                  split; [split; discriminate|];
                  split; [intros _ fs [= <-]; eauto | intros l' fs [=]]].
  - apply yields_after. intros data.
    apply (yields_bind
             (fun fs => (exists entry, fs = [entry]) /\ JNull ∉ fs)).
    + unfold Measuring.fullFeatures.
      destruct (runtimeError data); [|destruct (_ <=? _)%nat];
        apply yields_after; intros x; apply yields_ret;
        (split; [eauto|]); rewrite list_elem_of_singleton;
        try discriminate.
      now destruct x.
    + intros fs [One NoNull]. apply yields_ret.
      split; [split; discriminate|].
      split; [now intros _ fs' [= <-] | now intros l' fs' _ [= <-]].
  - destruct (Measuring.geo q) as [g|]; [|apply yields_throw].
    apply yields_after. intros combined. apply yields_ret.
    split; [split; discriminate|].
    split; [intros N; now destruct N | intros l' fs [=]].
Qed.

End Further.

(** * The properties at work in the small world *)

#[local] Existing Instance Toy.toyRuntime.
#[local] Existing Instance Toy.toyGeoUtils.



(** C1, as stated, fails on the retry: the adjustment of the southern map
    by a zone in the north-west leaves nothing and throws, so there is no
    holed mask of the adjusted map; the retry succeeds, the hider lies in
    its result, and the polarity is negated all the same. *)
Lemma flip_decided_by_retry_candidate :
  let ctx := Toy.context (Some Toy.hiderNorthWest) (Some Toy.south) in
  let q := Toy.matchingQuestion Matching.custom_zone true None (Some [2]) in
  ~ ((exists a,
         fst (Toy.hiderifyMatching Toy.barren ctx q Toy.start) = Ok a
         /\ Matching.same a = negb (Matching.same q))
     <->
     (exists f w1,
         Toy.matchingFirstAttempt Toy.barren ctx q Toy.south Toy.start
         = (Ok (JVal f), w1)
         /\ booleanPointInPolygon (Turf := Toy.toyTurf Toy.barren)
              (point (longitude Toy.hiderNorthWest)
                 (latitude Toy.hiderNorthWest)) f = Success true)).
Proof.
  intros ctx q [Flip _].
  destruct Flip as (f & w1 & E & _).
  - eexists. split; vm_compute; reflexivity.
  - vm_compute in E. discriminate E.
Qed.

Lemma self_correction_flips_inside_candidate_witness :
  let ctx := Toy.context None (Some Toy.south) in
  let q := Toy.matchingQuestion Matching.custom_zone true None (Some [0; 2]) in
  fst (Toy.matchingFirstAttempt Toy.barren ctx q Toy.south Toy.start)
  = Ok (JVal [1; 2; 3])
  /\ exists a b,
       fst (Toy.matchingContainment Toy.barren ctx Toy.hiderNorthWest q
              Toy.start) = Ok a
       /\ fst (Toy.matchingContainment Toy.barren ctx Toy.hiderSouthWest q
                 Toy.start) = Ok b
       /\ Matching.same a = false
       /\ Matching.same b = true.
Proof.
  intros ctx q. split; [reflexivity|].
  destruct
    (self_correction_flips_inside_candidate
       (TF := Toy.toyTurf Toy.barren) (API := Toy.toyApi Toy.barren)
       ctx Toy.south q
       (Toy.measuringQuestion Measuring.custom_measure false (Some [2]))
       Toy.start eq_refl) as (_ & _ & O & _).
  exact
    (O Toy.hiderNorthWest Toy.hiderSouthWest
       ltac:(vm_compute; reflexivity) ltac:(vm_compute; reflexivity)).
Defined.

Lemma retry_once_then_unanswered_witness :
  let ctx := Toy.context (Some Toy.hiderNorthWest) (Some Toy.south) in
  let q := Toy.matchingQuestion Matching.custom_zone true None None in
  fst (Toy.matchingContainment Toy.barren ctx Toy.hiderNorthWest q Toy.start)
  = Ok q.
Proof.
  intros ctx q.
  destruct
    (retry_once_then_unanswered
       (TF := Toy.toyTurf Toy.barren) (API := Toy.toyApi Toy.barren)
       ctx Toy.hiderNorthWest Toy.south q
       (Toy.measuringQuestion Measuring.custom_measure false None)
       Toy.start eq_refl) as [Hq _].
  pose (first := Toy.matchingFirstAttempt Toy.barren ctx q Toy.south Toy.start).
  assert (F : first = (Throw (Foreign "modifyMapData: no input"), snd first))
    by (vm_compute; reflexivity).
  destruct (Hq _ _ F) as (_ & _ & Both & _).
  pose (second := Matching.retryAttempt (TF := Toy.toyTurf Toy.barren)
                    (API := Toy.toyApi Toy.barren) ctx q Toy.south (snd first)).
  assert (S : second = (Throw (Foreign "modifyMapData: no input"), snd second))
    by (vm_compute; reflexivity).
  unfold Toy.matchingContainment. rewrite (Both _ _ S). reflexivity.
Defined.

Lemma equal_signature_resolved_once_witness :
  let sc := Toy.inZone (Some (js "France")) (Some (js "France")) in
  let ctx := Toy.context None (Some Toy.south) in
  let first :=
    Toy.determineMatchingBoundary sc ctx
      (Toy.matchingQuestion Matching.zone true (Some 2%float) None)
      Toy.start in
  Toy.determineMatchingBoundary sc ctx
    (Toy.matchingQuestion Matching.zone false (Some 2%float) None)
    (snd first)
  = first
  /\ resolutions (snd first) <= 1.
Proof.
  intros sc ctx first.
  destruct
    (equal_signature_resolved_once
       (TF := Toy.toyTurf sc) (API := Toy.toyApi sc)
       ctx ctx
       (Toy.matchingQuestion Matching.zone true (Some 2%float) None)
       (Toy.matchingQuestion Matching.zone false (Some 2%float) None)
       (Toy.measuringQuestion Measuring.airport true None)
       (Toy.measuringQuestion Measuring.airport false None)
       Toy.start eq_refl eq_refl) as [Hm _].
  destruct (Hm (fst first) (snd first) (snd first)) as [Count Replay].
  - unfold first, Toy.determineMatchingBoundary.
    now destruct (Matching.determineMatchingBoundary _ _ _).
  - apply later_now.
  - split; [|exact Count].
    unfold Toy.determineMatchingBoundary. rewrite Replay.
    unfold first, Toy.determineMatchingBoundary.
    now destruct (Matching.determineMatchingBoundary _ _ _).
Defined.

Lemma failed_resolution_stays_cached_witness :
  let ctx := Toy.context (Some Toy.hiderNorthWest) (Some Toy.south) in
  let q := Toy.matchingQuestion Matching.zone true (Some 2%float) None in
  let first := Toy.determineMatchingBoundary Toy.barren ctx q Toy.start in
  let afterwards :=
    after (TF := Toy.toyTurf Toy.barren) (API := Toy.toyApi Toy.barren)
      (HiderifyMatching ctx q) (snd first) in
  fst first = Throw (Error "No boundary found")
  /\ Toy.determineMatchingBoundary Toy.barren ctx q afterwards
     = (Throw (Error "No boundary found"), afterwards).
Proof.
  intros ctx q first afterwards. split; [reflexivity|].
  refine
    (proj1
       (failed_resolution_stays_cached
          (TF := Toy.toyTurf Toy.barren) (API := Toy.toyApi Toy.barren)
          ctx ctx q q
          (Toy.measuringQuestion Measuring.airport true None)
          (Toy.measuringQuestion Measuring.airport true None)
          Toy.start (snd first) afterwards (Error "No boundary found")
          (later_next _ _ _ (later_now _)))
       eq_refl _).
  vm_compute. reflexivity.
Defined.

(** C5, as stated, fails twice over: while no map is loaded the measuring
    resolver throws on the bounding box before it looks at the subtype, and
    a [null] mask is answered with [undefined], not with the mask. *)
Lemma no_boundary_without_map_or_mask :
  fst (Toy.adjustPerMeasuring Toy.barren (Toy.context None None)
         (Toy.measuringQuestion (Measuring.HomeGame park) false None)
         (JVal Toy.south) Toy.start)
  = Throw (Foreign "bbox: cannot read properties of null")
  /\ fst (Toy.adjustPerMatching Toy.barren (Toy.context None None)
            (Toy.matchingQuestion (Matching.HomeGame park) false None None)
            JNull Toy.start)
     = Ok JUndefined.
Proof. split; reflexivity. Qed.

Lemma no_boundary_keeps_mask_witness :
  let ctx := Toy.context None (Some Toy.south) in
  fst (Toy.adjustPerMatching Toy.barren ctx
         (Toy.matchingQuestion (Matching.HomeGame park) false None None)
         (JVal [0; 2]) Toy.start)
  = Ok (JVal [0; 2])
  /\ fst (Toy.adjustPerMeasuring Toy.barren ctx
            (Toy.measuringQuestion Measuring.rail_measure false None)
            (JVal [0; 2]) Toy.start)
     = Ok (JVal [0; 2]).
Proof.
  intros ctx.
  destruct
    (no_boundary_keeps_mask
       (TF := Toy.toyTurf Toy.barren) (API := Toy.toyApi Toy.barren)
       ctx
       (Toy.matchingQuestion (Matching.HomeGame park) false None None)
       (Toy.measuringQuestion Measuring.rail_measure false None)
       [0; 2] Toy.start (later_now _)) as [Hm Hs].
  destruct (Hm eq_refl) as (wm & _ & Am & _).
  destruct (Hs (0, 0, 0, 0)%float eq_refl eq_refl) as (ws & _ & As & _).
  - intros e. vm_compute. discriminate.
  - split; [exact (f_equal fst Am) | exact (f_equal fst As)].
Defined.

(** C6, as stated, fails on an empty English name: the field is there, the
    engine takes it for missing, and "éire" does not start with an ASCII
    letter. *)
Lemma empty_english_name_raises :
  let z := Toy.zoneNamed (Some []) (Some Toy.eire) in
  let run :=
    Toy.determineMatchingBoundary (Toy.inZone (Some []) (Some Toy.eire))
      (Toy.context None (Some Toy.south))
      (Toy.matchingQuestion Matching.letter_zone false (Some 2%float) None)
      Toy.start in
  ~ (fst run = Throw (Error "No English name") <->
     f_name_en z = None
     /\ exists n, f_name z = Some n /\ testSingleLetter (js_first n) = false).
Proof.
  intros z run [Raise _]. destruct Raise as [E _]; [reflexivity|].
  discriminate E.
Qed.

Lemma letter_zone_no_english_name_witness :
  let ctx := Toy.context None (Some Toy.south) in
  let q := Toy.matchingQuestion Matching.letter_zone false (Some 2%float) None in
  let france :=
    Toy.determineMatchingBoundary
      (Toy.inZone (Some (js "France")) (Some (js "France"))) ctx q Toy.start in
  let ireland :=
    Toy.determineMatchingBoundary (Toy.inZone None (Some Toy.eire)) ctx q
      Toy.start in
  In (Fetched (ReqPlacesInZone (QLetterZones 2%float (js "F"))))
     (log (snd france))
  /\ fst ireland = Throw (Error "No English name").
Proof.
  intros ctx q france ireland. split.
  - destruct
      (letter_zone_no_english_name
         (TF := Toy.toyTurf (Toy.inZone (Some (js "France")) (Some (js "France"))))
         (API := Toy.toyApi (Toy.inZone (Some (js "France")) (Some (js "France"))))
         ctx q (Matching.Build_Category 2%float)
         (Toy.zoneNamed (Some (js "France")) (Some (js "France")))
         Toy.start eq_refl eq_refl eq_refl eq_refl) as [_ Letter].
    destruct (Letter (js "France") eq_refl) as (u & U & Asked).
    injection U as <-. exact Asked.
  - destruct
      (letter_zone_no_english_name
         (TF := Toy.toyTurf (Toy.inZone None (Some Toy.eire)))
         (API := Toy.toyApi (Toy.inZone None (Some Toy.eire)))
         ctx q (Matching.Build_Category 2%float)
         (Toy.zoneNamed None (Some Toy.eire))
         Toy.start eq_refl eq_refl eq_refl eq_refl) as [Raise _].
    apply Raise. split; [reflexivity|].
    exists Toy.eire. split; reflexivity.
Defined.

(** C7 at a failing input.  The hider stands north of the southern map,
    one unit from the nearest station; the seeker is five units from theirs.
    The rail case sets [hiderCloser] to [true] and runs on into the
    boundary-containment strategy, which finds the hider in the holed mask
    of the map and negates the outcome: the question comes back with
    [hiderCloser = false]. *)
Theorem rail_measure_outcome_negated :
  let ctx := Toy.context (Some Toy.hiderNorthWest) (Some Toy.south) in
  let q := Toy.measuringQuestion Measuring.rail_measure false None in
  let hiderPoint := point (-1) 1 in
  let seekerPoint := point 1 0 in
  nearestPoint (Turf := Toy.toyTurf Toy.barren) hiderPoint (trainStations ctx)
    = Success (point (-1) 2)
  /\ nearestPoint (Turf := Toy.toyTurf Toy.barren) seekerPoint
       (trainStations ctx) = Success (point 1 5)
  /\ js_lt
       (distance (Turf := Toy.toyTurf Toy.barren) hiderPoint (point (-1) 2)
          Kilometers)
       (distance (Turf := Toy.toyTurf Toy.barren) seekerPoint (point 1 5)
          Kilometers) = true
  /\ fst (Toy.hiderifyMeasuring Toy.barren ctx q Toy.start)
     = Ok (Measuring.setHiderCloser q false).
Proof. repeat split; reflexivity. Qed.

Lemma same_length_station_comparison_witness :
  let ctx := Toy.context (Some Toy.hiderNorthWest) (Some Toy.south) in
  let q := Toy.matchingQuestion Matching.same_length_station true None None in
  exists q',
    fst (Toy.hiderifyMatching Toy.twoStations ctx q Toy.start) = Ok q'
    /\ Matching.lengthComparison q' = Some Matching.Same.
Proof.
  intros ctx q.
  destruct
    (same_length_station_comparison
       (TF := Toy.toyTurf Toy.twoStations) (API := Toy.toyApi Toy.twoStations)
       ctx Toy.hiderNorthWest q Toy.start (Toy.response [] None)
       (Toy.sc_features Toy.twoStations)
       (point (-1) 1) (point 1 0)
       (Toy.station (Some "Springfield") (Some "Springfield Hauptbahnhof"))
       (Toy.station None (Some "Shelbyville"))
       (js "Springfield") (js "Shelbyville")
       eq_refl eq_refl eq_refl eq_refl eq_refl eq_refl eq_refl eq_refl
       (english_name
          (Toy.station (Some "Springfield") (Some "Springfield Hauptbahnhof"))
          (js "Springfield") eq_refl ltac:(discriminate))
       (native_name (Toy.station None (Some "Shelbyville"))
          (js "Shelbyville") (or_introl eq_refl) eq_refl
          ltac:(discriminate)))
    as (q' & E & Equal & _).
  exists q'. split; [exact E | apply Equal; reflexivity].
Defined.

(** ** The further properties in the small world *)



Lemma nearest_feature_strategies_resolve_nothing_witness :
  let ctx := Toy.context (Some Toy.hiderNorthWest) (Some Toy.south) in
  resolutions
    (snd (Toy.hiderifyMatching Toy.twoStations ctx
            (Toy.matchingQuestion Matching.same_length_station true None None)
            Toy.start)) = 0
  /\ measuringCache
       (snd (Toy.hiderifyMeasuring Toy.twoStations ctx
               (Toy.measuringQuestion Measuring.mcdonalds true None)
               Toy.start)) = ∅.
Proof.
  intros ctx.
  destruct
    (nearest_feature_strategies_resolve_nothing
       (TF := Toy.toyTurf Toy.twoStations) (API := Toy.toyApi Toy.twoStations)
       ctx
       (Toy.matchingQuestion Matching.same_length_station true None None)
       (Toy.measuringQuestion Measuring.mcdonalds true None)
       Toy.start eq_refl eq_refl)
    as [(_ & _ & Um) (_ & Us & _)]; [discriminate|].
  split; [exact Um | exact Us].
Defined.

Lemma failed_resolution_leaves_unanswered_witness :
  let ctx := Toy.context (Some Toy.hiderNorthWest) (Some Toy.south) in
  let q := Toy.matchingQuestion Matching.zone true (Some 2%float) None in
  fst (Toy.determineMatchingBoundary Toy.barren ctx q Toy.start)
  = Throw (Error "No boundary found")
  /\ fst (Toy.hiderifyMatching Toy.barren ctx q Toy.start) = Ok q.
Proof.
  intros ctx q. split; [reflexivity|].
  destruct
    (failed_resolution_leaves_unanswered
       (TF := Toy.toyTurf Toy.barren) (API := Toy.toyApi Toy.barren)
       ctx Toy.hiderNorthWest Toy.south q
       (Toy.measuringQuestion Measuring.custom_measure true None)
       Toy.start eq_refl) as [Hq _].
  pose (first := Toy.determineMatchingBoundary Toy.barren ctx q Toy.start).
  assert (F : first = (Throw (Error "No boundary found"), snd first))
    by (vm_compute; reflexivity).
  exact (f_equal fst (Hq _ _ F)).
Defined.

Lemma point_set_boundary_is_first_containing_cell_witness :
  let ctx := Toy.context None (Some Toy.south) in
  let q := Toy.matchingQuestion Matching.airport true None None in
  fst (Matching.determineMatchingBoundary_body
         (TF := Toy.toyTurf Toy.airports) (API := Toy.toyApi Toy.airports)
         ctx q Toy.start)
  = Ok (Resolved (JVal [3])).
Proof.
  intros ctx q.
  pose (found := Toy.findMatchingPlaces Toy.airports ctx q Toy.start).
  destruct
    (point_set_boundary_is_first_containing_cell
       (TF := Toy.toyTurf Toy.airports) (API := Toy.toyApi Toy.airports)
       ctx q Toy.start (snd found)
       (Places [point (-1) (-1); point 1 1]%float) [[0]; [3]]
       eq_refl ltac:(vm_compute; reflexivity) ltac:(vm_compute; reflexivity))
    as (b & E & Cell).
  rewrite E. vm_compute in E. injection E as <-. reflexivity.
Defined.

Lemma gated_full_question_tessellates_nothing_witness :
  fst (Matching.determineMatchingBoundary_body
         (TF := Toy.toyTurf Toy.flaky) (API := Toy.toyApi Toy.flaky)
         (Toy.context None (Some Toy.south))
         (Toy.matchingQuestion (Matching.Full museum) true None None)
         Toy.start)
  = Ok (Resolved JUndefined).
Proof.
  rewrite
    (gated_full_question_tessellates_nothing
       (TF := Toy.toyTurf Toy.flaky) (API := Toy.toyApi Toy.flaky)
       (Toy.context None (Some Toy.south))
       (Toy.matchingQuestion (Matching.Full museum) true None None)
       museum Toy.start
       (Toy.response [] (Some "runtime error: Query timed out"))
       eq_refl eq_refl eq_refl).
  reflexivity.
Defined.

Lemma zone_lookup_outcome_witness :
  let ctx := Toy.context None (Some Toy.south) in
  let q := Toy.matchingQuestion Matching.zone true (Some 2%float) None in
  fst (Toy.determineMatchingBoundary Toy.barren ctx q Toy.start)
  = Throw (Error "No boundary found")
  /\ fst (Toy.determineMatchingBoundary
            (Toy.inZone (Some (js "France")) None) ctx q Toy.start)
     = Ok (Resolved (JVal [0; 2])).
Proof.
  intros ctx q. split.
  - destruct
      (zone_lookup_outcome
         (TF := Toy.toyTurf Toy.barren) (API := Toy.toyApi Toy.barren)
         ctx q (Matching.Build_Category 2%float) Toy.start
         eq_refl eq_refl eq_refl) as [None_ _].
    exact (proj1 (None_ eq_refl)).
  - destruct
      (zone_lookup_outcome
         (TF := Toy.toyTurf (Toy.inZone (Some (js "France")) None))
         (API := Toy.toyApi (Toy.inZone (Some (js "France")) None))
         ctx q (Matching.Build_Category 2%float) Toy.start
         eq_refl eq_refl eq_refl) as [_ Some_].
    exact (proj1 (Some_ _ eq_refl)).
Defined.

Lemma same_first_letter_station_outcome_witness :
  let ctx := Toy.context (Some Toy.hiderNorthWest) (Some Toy.south) in
  let q :=
    Toy.matchingQuestion Matching.same_first_letter_station false None None in
  fst (Toy.hiderifyMatching Toy.lowerCaseStation ctx q Toy.start)
  = Ok (Matching.setSame q true).
Proof.
  intros ctx q.
  destruct
    (same_first_letter_station_outcome
       (TF := Toy.toyTurf Toy.lowerCaseStation)
       (API := Toy.toyApi Toy.lowerCaseStation)
       ctx Toy.hiderNorthWest q Toy.start (Toy.response [] None)
       (Toy.sc_features Toy.lowerCaseStation)
       (point (-1) 1) (point 1 0)
       (Toy.station None (Some "springfield"))
       (Toy.station None (Some "Shelbyville"))
       115%N 83%N (js "pringfield") (js "helbyville")
       eq_refl eq_refl eq_refl eq_refl eq_refl eq_refl eq_refl eq_refl
       (native_name (Toy.station None (Some "springfield"))
          (js "springfield") (or_introl eq_refl) eq_refl ltac:(discriminate))
       (native_name (Toy.station None (Some "Shelbyville"))
          (js "Shelbyville") (or_introl eq_refl) eq_refl ltac:(discriminate)))
    as [(q' & E & -> & _) _].
  exact E.
Defined.

Lemma station_without_name_leaves_unanswered_witness :
  let ctx := Toy.context (Some Toy.hiderNorthWest) (Some Toy.south) in
  let q := Toy.matchingQuestion Matching.same_length_station false None None in
  fst (Toy.hiderifyMatching Toy.namelessStation ctx q Toy.start) = Ok q.
Proof.
  intros ctx q.
  refine
    (station_without_name_leaves_unanswered
       (TF := Toy.toyTurf Toy.namelessStation)
       (API := Toy.toyApi Toy.namelessStation)
       ctx Toy.hiderNorthWest q Toy.start (Toy.response [] None)
       (Toy.sc_features Toy.namelessStation)
       (point (-1) 1) (point 1 0)
       (Toy.station None None) (Toy.station None (Some "Shelbyville"))
       eq_refl (or_intror eq_refl) eq_refl eq_refl eq_refl eq_refl eq_refl
       eq_refl (or_introl _)).
  intros n [m E _|m _ E _]; discriminate E.
Defined.

Lemma same_train_line_outcome_witness :
  let ctx := Toy.context (Some Toy.hiderNorthWest) (Some Toy.south) in
  let q := Toy.matchingQuestion Matching.same_train_line false None None in
  fst (Toy.hiderifyMatching Toy.namelessStation ctx q Toy.start)
  = Ok (Matching.setSame q true).
Proof.
  intros ctx q.
  destruct
    (same_train_line_outcome
       (TF := Toy.toyTurf Toy.namelessStation)
       (API := Toy.toyApi Toy.namelessStation)
       ctx Toy.hiderNorthWest q Toy.start (Toy.response [] None)
       (Toy.sc_features Toy.namelessStation)
       (point (-1) 1) (point 1 0)
       (Toy.station None None) (Toy.station None (Some "Shelbyville"))
       [1%float]
       eq_refl eq_refl eq_refl eq_refl eq_refl eq_refl eq_refl eq_refl
       eq_refl)
    as (q' & E & -> & _).
  exact E.
Defined.

Lemma home_game_same_is_name_equality_witness :
  let ctx := Toy.context (Some Toy.hiderNorthWest) (Some Toy.south) in
  let q := Toy.matchingQuestion (Matching.HomeGame zoo) true None None in
  exists q',
    fst (Toy.hiderifyMatching Toy.barren ctx q Toy.start) = Ok q'
    /\ Matching.same q' = false.
Proof.
  intros ctx q.
  destruct
    (home_game_same_is_name_equality
       (TF := Toy.toyTurf Toy.barren) (API := Toy.toyApi Toy.barren)
       ctx Toy.hiderNorthWest zoo q Toy.start
       {| nf_name := Some (js "East"); nf_distanceToPoint := 0%float |}
       {| nf_name := Some (js "West"); nf_distanceToPoint := 1%float |}
       eq_refl eq_refl eq_refl eq_refl) as (q' & E & _ & _ & Iff & _).
  exists q'. split; [exact E|].
  destruct (Matching.same q'); [|reflexivity].
  destruct Iff as [Names _]. specialize (Names eq_refl). discriminate Names.
Defined.

Lemma nearest_distance_strictly_closer_witness :
  let ctx := Toy.context (Some Toy.hiderNorthWest) (Some Toy.south) in
  let qh := Toy.measuringQuestion (Measuring.HomeGame zoo) true None in
  let qc := Toy.measuringQuestion Measuring.seven11 true None in
  (exists q',
      fst (Toy.hiderifyMeasuring Toy.barren ctx qh Toy.start) = Ok q'
      /\ Measuring.hiderCloser q' = false)
  /\ (exists q',
         fst (Toy.hiderifyMeasuring Toy.barren ctx qc Toy.start) = Ok q'
         /\ Measuring.hiderCloser q' = false).
Proof.
  intros ctx qh qc.
  destruct
    (nearest_distance_strictly_closer
       (TF := Toy.toyTurf Toy.barren) (API := Toy.toyApi Toy.barren)
       ctx Toy.hiderNorthWest qh qc Toy.start eq_refl) as [Home Chain].
  split.
  - destruct
      (Home zoo
         {| nf_name := Some (js "East"); nf_distanceToPoint := 0%float |}
         {| nf_name := Some (js "West"); nf_distanceToPoint := 1%float |}
         eq_refl eq_refl eq_refl) as (q' & E & _ & Iff & _).
    exists q'. split; [exact E|].
    destruct (Measuring.hiderCloser q'); [|reflexivity].
    destruct Iff as [Closer _]. specialize (Closer eq_refl).
    vm_compute in Closer. discriminate Closer.
  - destruct
      (Chain Seven11 [point 0 0; point 1 1]%float
         (point 1 0)%float (point (-1) 1)%float
         (point 1 1)%float (point 0 0)%float
         eq_refl eq_refl eq_refl eq_refl eq_refl eq_refl)
      as (q' & E & _ & _ & Tie).
    exists q'. split; [exact E|]. apply Tie. vm_compute. reflexivity.
Defined.

Lemma hiderified_descriptor_resolves_from_cache_witness :
  let ctx := Toy.context (Some Toy.hiderNorthWest) (Some Toy.south) in
  let q := Toy.matchingQuestion Matching.custom_zone true None (Some [0; 2]) in
  let run := Toy.matchingContainment Toy.barren ctx Toy.hiderNorthWest q
               Toy.start in
  fst run = Ok (Matching.setSame q false)
  /\ exists r,
       Toy.determineMatchingBoundary Toy.barren ctx (Matching.setSame q false)
         (snd run) = (r, snd run).
Proof.
  intros ctx q run. split; [reflexivity|].
  assert (Em : run = (Ok (Matching.setSame q false), snd run))
    by (vm_compute; reflexivity).
  exact
    (proj1
       (hiderified_descriptor_resolves_from_cache
          (TF := Toy.toyTurf Toy.barren) (API := Toy.toyApi Toy.barren)
          ctx Toy.hiderNorthWest Toy.south q
          (Toy.measuringQuestion Measuring.airport true None)
          Toy.start eq_refl)
       _ _ Em).
Defined.

Lemma cache_entries_are_kept_witness :
  let ctx := Toy.context (Some Toy.hiderNorthWest) (Some Toy.south) in
  let q := Toy.matchingQuestion Matching.custom_zone true None (Some [0; 2]) in
  let once := snd (Toy.determineMatchingBoundary Toy.barren ctx q Toy.start) in
  let later_ :=
    after (TF := Toy.toyTurf Toy.barren) (API := Toy.toyApi Toy.barren)
      (HiderifyMatching ctx
         (Toy.matchingQuestion Matching.custom_zone true None (Some [2])))
      once in
  matchingCache later_
    !! Matching.matchingKey (TF := Toy.toyTurf Toy.barren) ctx q
  = Some (Ok (Resolved (JVal [0; 2]))).
Proof.
  intros ctx q once later_.
  refine
    (proj1
       (cache_entries_are_kept
          (TF := Toy.toyTurf Toy.barren) (API := Toy.toyApi Toy.barren)
          once later_ _ _ (later_next _ _ _ (later_now _))) _).
  vm_compute. reflexivity.
Defined.

Lemma highSpeedBase_computes_once_witness :
  let first :=
    Measuring.highSpeedBase (TF := Toy.toyTurf Toy.barren)
      [Toy.track "Tokaido" [0; 1]] Toy.start in
  fst first = Ok (JVal [0; 1])
  /\ Measuring.highSpeedBase (TF := Toy.toyTurf Toy.barren)
       [Toy.track "Sanyo" [0; 1]] (snd first)
     = (Ok (JVal [0; 1]), snd first).
Proof.
  intros first. split; [reflexivity|].
  assert (F : first = (Ok (JVal [0; 1]), snd first))
    by (vm_compute; reflexivity).
  exact
    (highSpeedBase_computes_once
       (TF := Toy.toyTurf Toy.barren)
       [Toy.track "Tokaido" [0; 1]] [Toy.track "Sanyo" [0; 1]]
       Toy.start (snd first) (Ok (JVal [0; 1])) eq_refl F).
Defined.

Lemma planning_polygon_never_raises_witness :
  let ctx := Toy.context None (Some Toy.south) in
  let q := Toy.matchingQuestion Matching.zone true (Some 2%float) None in
  fst (Matching.matchingPlanningPolygon
         (TF := Toy.toyTurf Toy.barren) (API := Toy.toyApi Toy.barren)
         ctx q Toy.start)
  = Ok None.
Proof.
  intros ctx q.
  destruct
    (planning_polygon_never_raises
       (TF := Toy.toyTurf Toy.barren) (API := Toy.toyApi Toy.barren)
       ctx q (Toy.measuringQuestion Measuring.airport true None) Toy.start)
    as (_ & Quiet & _).
  pose (first := Toy.determineMatchingBoundary Toy.barren ctx q Toy.start).
  assert (F : first = (Throw (Error "No boundary found"), snd first))
    by (vm_compute; reflexivity).
  exact (f_equal fst (Quiet _ _ F (or_intror (ex_intro _ _ eq_refl)))).
Defined.

Lemma hiderify_keeps_the_question_witness :
  let ctx := Toy.context (Some Toy.hiderNorthWest) (Some Toy.south) in
  let q := Toy.matchingQuestion Matching.custom_zone true None (Some [0; 2]) in
  fst (Toy.hiderifyMatching Toy.barren ctx q Toy.start)
  = Ok (Matching.setSame q false)
  /\ sameMatchingSubject q (Matching.setSame q false).
Proof.
  intros ctx q. split; [reflexivity|].
  pose (run := Toy.hiderifyMatching Toy.barren ctx q Toy.start).
  assert (E : run = (Ok (Matching.setSame q false), snd run))
    by (vm_compute; reflexivity).
  exact
    (proj1
       (hiderify_keeps_the_question
          (TF := Toy.toyTurf Toy.barren) (API := Toy.toyApi Toy.barren)
          ctx q (Matching.setSame q false)
          (Toy.measuringQuestion Measuring.airport true None)
          (Toy.measuringQuestion Measuring.airport true None)
          Toy.start (snd run))
       E).
Defined.

Lemma cache_key_separates_subtypes_not_outcomes_witness :
  let ctx := Toy.context None (Some Toy.south) in
  Matching.matchingKey (TF := Toy.toyTurf Toy.barren) ctx
    (Toy.matchingQuestion Matching.zone true (Some 2%float) None)
  <> Matching.matchingKey (TF := Toy.toyTurf Toy.barren) ctx
       (Toy.matchingQuestion Matching.letter_zone true (Some 2%float) None).
Proof.
  intros ctx E.
  destruct
    (cache_key_separates_subtypes_not_outcomes
       (TF := Toy.toyTurf Toy.barren)
       ctx ctx
       (Toy.matchingQuestion Matching.zone true (Some 2%float) None)
       (Toy.matchingQuestion Matching.letter_zone true (Some 2%float) None)
       (Toy.measuringQuestion Measuring.airport true None)
       (Toy.measuringQuestion Measuring.airport true None))
    as (Subtype & _).
  discriminate (Subtype E).
Defined.

Lemma where_hider_mode_can_fail_witness :
  let ctx := Toy.context (Some Toy.hiderNowhere) (Some Toy.south) in
  Toy.hiderifyMatching Toy.twoStations ctx
    (Toy.matchingQuestion Matching.same_train_line true None None) Toy.start
  = (Throw (Foreign "coordinates must contain numbers"), Toy.start)
  /\ fst (Toy.hiderifyMatching Toy.barren ctx
            (Toy.matchingQuestion Matching.custom_zone true None (Some [0; 2]))
            Toy.start)
     = Throw (Foreign "coordinates must contain numbers").
Proof.
  intros ctx. split.
  - destruct
      (where_hider_mode_can_fail
         (TF := Toy.toyTurf Toy.twoStations)
         (API := Toy.toyApi Toy.twoStations)
         ctx
         (Toy.matchingQuestion Matching.same_train_line true None None)
         (Toy.measuringQuestion Measuring.airport true None)
         Toy.start)
      as (_ & _ & _ & Stations & _).
    exact
      (Stations Toy.hiderNowhere eq_refl eq_refl
         ltac:(intros l; discriminate)).
  - destruct
      (where_hider_mode_can_fail
         (TF := Toy.toyTurf Toy.barren) (API := Toy.toyApi Toy.barren)
         ctx
         (Toy.matchingQuestion Matching.custom_zone true None (Some [0; 2]))
         (Toy.measuringQuestion Measuring.airport true None)
         Toy.start)
      as (_ & Containment & _).
    apply (Containment Toy.hiderNowhere _ eq_refl eq_refl).
    exists Toy.south. split; [reflexivity | vm_compute; reflexivity].
Defined.

Lemma measuring_boundary_is_false_or_one_entry_witness :
  let ctx := Toy.context None (Some Toy.south) in
  let q := Toy.measuringQuestion Measuring.coastline true None in
  fst (Toy.determineMeasuringBoundary Toy.barren ctx q Toy.start)
  = Ok (Some [JNull])
  /\ exists entry : JsOpt Toy.Region, [JNull] = [entry].
Proof.
  intros ctx q.
  pose (run := Toy.determineMeasuringBoundary Toy.barren ctx q Toy.start).
  assert (E : run = (Ok (Some [JNull]), snd run))
    by (vm_compute; reflexivity).
  split; [exact (f_equal fst E)|].
  destruct
    (measuring_boundary_is_false_or_one_entry
       (TF := Toy.toyTurf Toy.barren) (API := Toy.toyApi Toy.barren)
       ctx q Toy.start (snd run) (Some [JNull]) E) as (_ & One & _).
  exact (One ltac:(discriminate) [JNull] eq_refl).
Defined.
